(** * astrobot-site: place selection, timezone resolution and report request

    A shallow embedding of the React components that carry the
    behaviour of the site,

    - [PlaceAutocomplete] (src/components/PlaceAutocomplete.tsx): the
      debounced city search, its keyboard handling and the construction
      of a [Place] with a derived timezone;
    - [AstrologyForm] in its current version (src/unnamed/part_001): the
      form with [getTimezoneOffsetISO] and the webhook submission
      [onSubmit];
    - [EnhancedCalendar] (src/components/EnhancedCalendar.tsx): the
      year list and the two select handlers of the calendar,

    followed by the properties of the specification stated over them.

    Conventions of the embedding.
    - A JavaScript string is a [string]; one [ascii] stands for one code
      unit, so [String.length] is [.length].  Message literals are
      carried as written in the source and are never measured.
    - A JavaScript integer-valued number (epoch milliseconds, minutes,
      an index) is a [Z]; latitude and longitude are only passed around,
      they are rationals [Q].
    - [x | undefined] is [option x]; a value that may be thrown instead
      of returned is a [Completion].
    - An event handler is a computation [Run A]: the list of its
      observable effects in program order and its completion.  [await]
      of a settled promise is sequencing; a rejected promise throws.
    - What the browser, the network and the npm libraries answer is a
      field of the record [Runtime]. *)

From Stdlib Require Import ZArith QArith String Ascii List Sorted Lia.
From stdpp Require Import base option list strings pretty.

Local Open Scope string_scope.
Local Open Scope Z_scope.

(** ** JavaScript prelude *)

Module JS.

(** Normal or abrupt completion; a thrown [Error] is its message. *)
Inductive Completion (A : Type) : Type :=
| Normal (a : A)
| Throw (e : string).
Arguments Normal {A} a.
Arguments Throw {A} e.

(** ToBoolean on [string | undefined]. *)
Definition truthy (s : option string) : bool :=
  match s with
  | Some (String _ _) => true
  | Some EmptyString | None => false
  end.

(** [a || b] where [b] is a string: the first operand when truthy. *)
Definition or_str (a : option string) (b : string) : string :=
  match a with
  | Some (String c r) => String c r
  | Some EmptyString | None => b
  end.

(** [a || b] where [b] may itself be undefined. *)
Definition or_opt (a b : option string) : option string :=
  if truthy a then a else b.

(** [a ?? b]. *)
Definition nullish (a : option string) (b : string) : string :=
  match a with
  | Some s => s
  | None => b
  end.

(** [hay.includes(needle)]. *)
Fixpoint includes (needle hay : string) : bool :=
  String.prefix needle hay ||
  match hay with
  | EmptyString => false
  | String _ rest => includes needle rest
  end.

(** [String(n)] for an integer. *)
Definition String_ (n : Z) : string := pretty n.

Fixpoint repeat_str (n : nat) (fill : string) : string :=
  match n with
  | O => ""
  | S k => fill +:+ repeat_str k fill
  end.

(** [s.padStart(len, fill)] for a one-character [fill]. *)
Definition padStart (len : nat) (fill : string) (s : string) : string :=
  repeat_str (len - String.length s) fill +:+ s.

(** [Math.round(num / den)] for integers [num] and [den > 0]: the
    nearest integer, a half rounded up. *)
Definition Math_round_div (num den : Z) : Z :=
  (2 * num + den) / (2 * den).

(** What an [import] declaration binds to a name: the function that
    the module exports, for [import f from 'm'], or the module namespace
    object, for [import * as ns from 'm'].  The namespace object holds
    the exports, the function as its [default]; it is an ordinary
    object and cannot be called. *)
Inductive Binding (F : Type) : Type :=
| ExportedFunction (f : F)
| ModuleNamespace (default : F).
Arguments ExportedFunction {F} f.
Arguments ModuleNamespace {F} default.

(** [name(x, y)]: the call of what is not a function throws a
    [TypeError]. *)
Definition call2 {A B C} (name : string) (b : Binding (A -> B -> Completion C))
    (x : A) (y : B) : Completion C :=
  match b with
  | ExportedFunction f => f x y
  | ModuleNamespace _ => Throw ("TypeError: " +:+ name +:+ " is not a function")
  end.

End JS.
Export JS.

(** ** Data model *)

(** [interface Place] *)
Record Place := mkPlace {
  city : string;
  admin : option string;
  country : string;
  countryCode : string;
  lat : Q;
  lon : Q;
  timezone : string;
  provider : string;
  placeId : string
}.

(** [interface PlaceSuggestion], the [properties] object of a feature. *)
Record TimezoneInfo := mkTimezoneInfo { tz_name : option string }.

Record PlaceSuggestion := mkSuggestion {
  prop_formatted : string;
  prop_name : option string;
  prop_city : option string;
  prop_state : option string;
  prop_country : option string;
  prop_country_code : option string;
  prop_lat : Q;
  prop_lon : Q;
  prop_place_id : string;
  prop_timezone : option TimezoneInfo
}.

(** [type FormData]: the values the resolver hands to [onSubmit].
    [birthDate] is a [Date], that is its epoch milliseconds. *)
Record FormData := mkFormData {
  fullName : string;
  birthDate : Z;
  birthTime : string;
  birthPlace : string;
  email : string
}.

(** The JSON body posted to the webhook. *)
Record PayloadPlace := mkPayloadPlace {
  pp_city : string;
  pp_admin : string;
  pp_country : string;
  pp_countryCode : string;
  pp_lat : Q;
  pp_lon : Q;
  pp_timezone : string;
  pp_timezoneOffset : string;
  pp_provider : string;
  pp_placeId : string
}.

Record Payload := mkPayload {
  pl_fullName : string;
  pl_birthDate : string;
  pl_birthTime : string;
  pl_email : string;
  pl_place : PayloadPlace
}.

(** ** Effects and the handler monad *)

Inductive Effect : Type :=
| PropOnChange (value : string)
| PropOnPlaceSelect (place : option Place)
| PreventDefault
| ConsoleWarn (what : string)
| ConsoleError (what : string)
| Alert (message : string)
| FetchGet (url : string)
| FetchPost (url : string) (body : Payload)
| DocumentOpen
| DocumentWrite (html : string)
| DocumentClose
| CreateObjectURL (blob : string)
| LocationHref (url : string).

Record Run (A : Type) : Type := MkRun {
  trace : list Effect;
  result : Completion A
}.
Arguments MkRun {A} trace result.
Arguments trace {A} r.
Arguments result {A} r.

Module RunMonad.

Definition ret {A} (a : A) : Run A := MkRun [] (Normal a).

Definition bind {A B} (m : Run A) (k : A -> Run B) : Run B :=
  match result m with
  | Normal a => MkRun (trace m ++ trace (k a)) (result (k a))
  | Throw e => MkRun (trace m) (Throw e)
  end.

Definition emit (e : Effect) : Run unit := MkRun [e] (Normal tt).

Definition throw {A} (e : string) : Run A := MkRun [] (Throw e).

(** [await p] (or a call) whose outcome the environment decides. *)
Definition await {A} (c : Completion A) : Run A := MkRun [] c.

(** [try { body } catch (e) { handler e }] *)
Definition try_catch {A} (body : Run A) (handler : string -> Run A) : Run A :=
  match result body with
  | Normal _ => body
  | Throw e => MkRun (trace body ++ trace (handler e)) (result (handler e))
  end.

(** [p.catch(() => dflt)] *)
Definition catch_default {A} (c : Completion A) (dflt : A) : A :=
  match c with
  | Normal a => a
  | Throw _ => dflt
  end.

End RunMonad.
Export RunMonad.

#[global] Instance run_ret : MRet Run := @RunMonad.ret.
#[global] Instance run_bind : MBind Run := fun A B k m => RunMonad.bind m k.

(** ** The runtime: browser, network and libraries *)

(** A [Response] as the handlers read it. *)
Record Response := mkResponse {
  res_ok : bool;
  res_status : Z;
  res_content_type : option string;
  res_text : Completion string;
  res_blob : Completion string;
  res_json : Completion unit
}.

(** The body of a geocoding response: [data.features]. *)
Record GeoResponse := mkGeoResponse {
  geo_ok : bool;
  geo_json : Completion (option (list PlaceSuggestion))
}.

Record Runtime := mkRuntime {
  (** [new Date()]: the current instant, epoch milliseconds. *)
  now : Z;
  (** The IANA database behind [toLocaleString(_, { timeZone })]: the
      zone's offset east of UTC, in minutes, at an instant; an unknown
      zone name is a [RangeError]. *)
  zoneOffset : string -> option (Z -> Z);
  (** The host's own zone: its offset east of UTC, in minutes, at an
      instant, and for a wall-clock reading. *)
  hostOffsetAt : Z -> Z;
  hostOffsetOfWall : Z -> Z;
  (** date-fns [format(d, 'yyyy-MM-dd')]. *)
  format_yyyy_MM_dd : Z -> string;
  (** The function that the package tz-lookup exports. *)
  tz_lookup : Q -> Q -> Completion string;
  (** [import.meta.env.VITE_N8N_WEBHOOK_URL] *)
  WEBHOOK_URL : option string;
  (** [import.meta.env.VITE_GEOAPIFY_API_KEY] *)
  VITE_GEOAPIFY_API_KEY : option string;
  (** What the webhook answers to a POST. *)
  fetch_post : string -> Payload -> Completion Response;
  (** What the geocoding provider answers is carried by the event that
      settles the request, see [Page.SearchSettled]. *)
  (** [URL.createObjectURL] *)
  createObjectURL : string -> string;
  (** [encodeURIComponent] *)
  encodeURIComponent : string -> string;
  (** [new Date(1900, 0, 1)]: local midnight of 1 January 1900. *)
  date_1900_0_1 : Z;
  (** zod's [.email()] test. *)
  isEmail : string -> bool
}.

(** ** [getTimezoneOffsetISO] *)

Module Offset.

Section WithRuntime.
Variable rt : Runtime.

(** [date.toLocaleString('en-US', { timeZone })]: the wall clock of
    the zone at [date], to the second.  The value is the reading as
    milliseconds of a zone-less calendar. *)
Definition toLocaleString (timeZone : string) (date : Z) : Completion Z :=
  match zoneOffset rt timeZone with
  | None => Throw ("RangeError: Invalid time zone specified: " +:+ timeZone)
  | Some off => Normal (((date + 60000 * off date) / 1000) * 1000)
  end.

(** [new Date(text)] for a text without zone: the reading is taken
    in the host's zone. *)
Definition parseLocal (wall : Z) : Z :=
  wall - 60000 * hostOffsetOfWall rt wall.

(** [date.getTimezoneOffset()]: UTC minus local time, in minutes. *)
Definition getTimezoneOffset (date : Z) : Z :=
  - hostOffsetAt rt date.

Definition getTimezoneOffsetISO (timezone : string) (date : Z) : Completion string :=
  match toLocaleString timezone date with
  | Throw e => Throw e
  | Normal wall =>
      let localDate := parseLocal wall in
      let offsetMinutes :=
        Math_round_div ((localDate - date) + 60000 * getTimezoneOffset date) 60000 in
      let sign := if offsetMinutes <=? 0 then "+" else "-" in
      let absMinutes := Z.abs offsetMinutes in
      let hours := padStart 2 "0" (String_ (absMinutes / 60)) in
      let minutes := padStart 2 "0" (String_ (absMinutes mod 60)) in
      Normal (sign +:+ hours +:+ ":" +:+ minutes)
  end.

End WithRuntime.

(** The specification's reading of the function: the signed [HH:MM]
    rendering of an offset of [off] minutes east of UTC, with [+] for a
    zone ahead of UTC. *)
Definition spec_isoOffset (off : Z) : string :=
  (if 0 <=? off then "+" else "-")
    +:+ padStart 2 "0" (String_ (Z.abs off / 60))
    +:+ ":" +:+ padStart 2 "0" (String_ (Z.abs off mod 60)).

End Offset.

(** ** [PlaceAutocomplete] *)

Module PlaceAutocomplete.

(** The four [useState] cells of the component. *)
Record State := mkState {
  suggestions : list PlaceSuggestion;
  isLoading : bool;
  isOpen : bool;
  selectedIndex : Z
}.

Definition setSuggestions (v : list PlaceSuggestion) (st : State) : State :=
  mkState v (isLoading st) (isOpen st) (selectedIndex st).

Definition setIsLoading (v : bool) (st : State) : State :=
  mkState (suggestions st) v (isOpen st) (selectedIndex st).

Definition setIsOpen (v : bool) (st : State) : State :=
  mkState (suggestions st) (isLoading st) v (selectedIndex st).

(** [setSelectedIndex] with an updater [prev => ...]. *)
Definition setSelectedIndex (f : Z -> Z) (st : State) : State :=
  mkState (suggestions st) (isLoading st) (isOpen st) (f (selectedIndex st)).

Definition initial : State := mkState [] false false (-1).

(** [suggestions.length] *)
Definition suggestions_length (st : State) : Z :=
  Z.of_nat (length (suggestions st)).

(** [suggestions[i]] *)
Definition suggestion_at (st : State) (i : Z) : option PlaceSuggestion :=
  if i <? 0 then None else suggestions st !! Z.to_nat i.

Section WithRuntime.
Variable rt : Runtime.

Definition GEOAPIFY_API_KEY : string :=
  or_str (VITE_GEOAPIFY_API_KEY rt) "YOUR_API_KEY_HERE".

Definition searchUrl (term : string) : string :=
  "https://api.geoapify.com/v1/geocode/autocomplete?text="
    +:+ encodeURIComponent rt term
    +:+ "&type=city&limit=7&lang=pt&apiKey=" +:+ GEOAPIFY_API_KEY.

(** The body of the search [useEffect], up to the [await] of the
    request it may start. *)
Definition searchEffect (debouncedSearchTerm : string) (st : State) : Run State :=
  if Z.of_nat (String.length debouncedSearchTerm) <? 2 then
    mret (setIsOpen false (setSuggestions [] st))
  else
    emit (FetchGet (searchUrl debouncedSearchTerm));;
    mret (setIsLoading true st).

(** [searchPlaces] from the point where its request settles. *)
Definition searchPlaces_settled (outcome : Completion GeoResponse) (st : State) : Run State :=
  st' ← try_catch
    (response ← await outcome;
     (if negb (geo_ok response) then throw "Search failed" else mret tt);;
     data ← await (geo_json response);
     mret (setSelectedIndex (fun _ => -1)
             (setIsOpen true (setSuggestions (default [] data) st))))
    (fun error =>
       emit (ConsoleError ("Place search error: " +:+ error));;
       mret (setSuggestions [] st));
  mret (setIsLoading false st').

Definition formatSuggestion (suggestion : PlaceSuggestion) : string :=
  let city := or_str (or_opt (prop_city suggestion) (prop_name suggestion)) "" in
  let admin := or_str (prop_state suggestion) "" in
  let country := or_str (prop_country suggestion) "" in
  city +:+ (if truthy (Some admin) then ", " +:+ admin else "") +:+ ", " +:+ country.

(** [import * as tzlookup from 'tz-lookup'] *)
Definition tzlookup : Binding (Q -> Q -> Completion string) :=
  ModuleNamespace (tz_lookup rt).

Definition getTimezone (lat lon : Q) (apiTimezone : option string) : Run string :=
  match (if truthy apiTimezone then apiTimezone else None) with
  | Some name => mret name
  | None =>
      try_catch
        (zone ← await (call2 "tzlookup" tzlookup lat lon);
         mret (or_str (Some zone) "UTC"))
        (fun error =>
           emit (ConsoleWarn ("Timezone lookup failed: " +:+ error));;
           mret "UTC")
  end.

Definition selectSuggestion (suggestion : PlaceSuggestion) (st : State) : Run State :=
  let formatted := formatSuggestion suggestion in
  emit (PropOnChange formatted);;
  tz ← getTimezone (prop_lat suggestion) (prop_lon suggestion)
         (prop_timezone suggestion ≫= tz_name);
  let place := {|
    city := or_str (or_opt (prop_city suggestion) (prop_name suggestion)) "";
    admin := or_opt (prop_state suggestion) None;
    country := or_str (prop_country suggestion) "";
    countryCode := or_str (prop_country_code suggestion) "";
    lat := prop_lat suggestion;
    lon := prop_lon suggestion;
    timezone := tz;
    provider := "geoapify";
    placeId := prop_place_id suggestion
  |} in
  emit (PropOnPlaceSelect (Some place));;
  mret (setIsOpen false st).

Definition handleKeyDown (key : string) (st : State) : Run State :=
  if negb (isOpen st) then mret st
  else if String.eqb key "ArrowDown" then
    emit PreventDefault;;
    mret (setSelectedIndex
            (fun prev => if prev <? suggestions_length st - 1 then prev + 1 else prev) st)
  else if String.eqb key "ArrowUp" then
    emit PreventDefault;;
    mret (setSelectedIndex (fun prev => if prev >? 0 then prev - 1 else -1) st)
  else if String.eqb key "Enter" then
    emit PreventDefault;;
    if selectedIndex st >=? 0 then
      match suggestion_at st (selectedIndex st) with
      | Some suggestion => selectSuggestion suggestion st
      | None => mret st
      end
    else mret st
  else if String.eqb key "Escape" then
    mret (setSelectedIndex (fun _ => -1) (setIsOpen false st))
  else mret st.

(** The timer of [handleBlur] firing; [focusInList] is
    [listRef.current?.contains(document.activeElement)]. *)
Definition handleBlur_timeout (focusInList : bool) (st : State) : State :=
  if negb focusInList then setIsOpen false st else st.

(** [onChange] of the text input. *)
Definition input_onChange (text : string) : Run unit :=
  emit (PropOnChange text);;
  emit (PropOnPlaceSelect None).

(** The list is rendered when [isOpen && suggestions.length > 0]. *)
Definition list_rendered (st : State) : bool :=
  isOpen st && (suggestions_length st >? 0).

(** [onClick] of the [i]-th rendered item. *)
Definition item_onClick (i : nat) (st : State) : Run State :=
  if list_rendered st then
    match suggestions st !! i with
    | Some suggestion => selectSuggestion suggestion st
    | None => mret st
    end
  else mret st.

End WithRuntime.

End PlaceAutocomplete.

(** ** [AstrologyForm] *)

Module AstrologyForm.

(** The values react-hook-form holds for the registered fields; a field
    never touched is [undefined]. *)
Record FormValues := mkValues {
  v_fullName : option string;
  v_birthDate : option Z;
  v_birthTime : option string;
  v_birthPlace : option string;
  v_email : option string
}.

Definition noValues : FormValues := mkValues None None None None None.

(** [useState<Place | null>] and the form object. *)
Record State := mkState {
  selectedPlace : option Place;
  values : FormValues;
  errors_birthPlace : option string
}.

Definition initial : State := mkState None noValues None.

Definition setSelectedPlace (p : option Place) (st : State) : State :=
  mkState p (values st) (errors_birthPlace st).

(** [form.setError('birthPlace', { message })] *)
Definition form_setError_birthPlace (message : string) (st : State) : State :=
  mkState (selectedPlace st) (values st) (Some message).

(** [form.clearErrors('birthPlace')] *)
Definition form_clearErrors_birthPlace (st : State) : State :=
  mkState (selectedPlace st) (values st) None.

(** [field.onChange] of the [birthPlace] field. *)
Definition field_onChange_birthPlace (v : string) (st : State) : State :=
  mkState (selectedPlace st)
    (mkValues (v_fullName (values st)) (v_birthDate (values st))
       (v_birthTime (values st)) (Some v) (v_email (values st)))
    (errors_birthPlace st).

(** [field.onChange] of the other fields. *)
Definition setValues (v : FormValues) (st : State) : State :=
  mkState (selectedPlace st)
    (mkValues (v_fullName v) (v_birthDate v) (v_birthTime v)
       (v_birthPlace (values st)) (v_email v))
    (errors_birthPlace st).

Definition is_digit (c : ascii) : bool :=
  let n := N_of_ascii c in ((48 <=? n) && (n <=? 57))%N.

Definition digit_upto (hi : N) (c : ascii) : bool :=
  let n := N_of_ascii c in ((48 <=? n) && (n <=? 48 + hi))%N.

(** [/^([01]\d|2[0-3]):([0-5]\d)$/.test(s)] *)
Definition timeRegex (s : string) : bool :=
  match s with
  | String h1 (String h2 (String colon (String m1 (String m2 EmptyString)))) =>
      ((digit_upto 1 h1 && is_digit h2)
       || (Ascii.eqb h1 "2" && digit_upto 3 h2))
      && Ascii.eqb colon ":"
      && digit_upto 5 m1 && is_digit m2
  | _ => false
  end.

Section WithRuntime.
Variable rt : Runtime.

Definition len (s : string) : Z := Z.of_nat (String.length s).

(** [formSchema], as the zod resolver runs it on the form values. *)
Definition formSchema (v : FormValues) : option FormData :=
  match v_fullName v, v_birthDate v, v_birthTime v, v_birthPlace v, v_email v with
  | Some name, Some date, Some time, Some place, Some mail =>
      if (2 <=? len name) && (len name <=? 150)
         && ((date_1900_0_1 rt <=? date) && (date <=? now rt))
         && ((1 <=? len time) && timeRegex time)
         && (1 <=? len place)
         && (isEmail rt mail && (1 <=? len mail))
      then Some (mkFormData name date time place mail)
      else None
  | _, _, _, _, _ => None
  end.

(** [form.formState.isValid] *)
Definition formState_isValid (st : State) : bool :=
  bool_decide (is_Some (formSchema (values st))).

(** [const isFormValid = form.formState.isValid && !!selectedPlace?.timezone] *)
Definition isFormValid (st : State) : bool :=
  formState_isValid st && truthy (timezone <$> selectedPlace st).

(** [disabled={!isFormValid}] on the submit button. *)
Definition submit_disabled (st : State) : bool :=
  negb (isFormValid st).

(** [onPlaceSelect] as passed to the autocomplete. *)
Definition onPlaceSelect (place : option Place) (st : State) : State :=
  let st' := setSelectedPlace place st in
  match place with
  | Some _ => form_clearErrors_birthPlace st'
  | None => st'
  end.

Definition make_payload (data : FormData) (selectedPlace : Place)
    (timezoneOffset : string) : Payload :=
  {| pl_fullName := fullName data;
     pl_birthDate := format_yyyy_MM_dd rt (birthDate data);
     pl_birthTime := birthTime data;
     pl_email := email data;
     pl_place := {|
       pp_city := city selectedPlace;
       pp_admin := or_str (admin selectedPlace) "";
       pp_country := country selectedPlace;
       pp_countryCode := countryCode selectedPlace;
       pp_lat := lat selectedPlace;
       pp_lon := lon selectedPlace;
       pp_timezone := timezone selectedPlace;
       pp_timezoneOffset := timezoneOffset;
       pp_provider := provider selectedPlace;
       pp_placeId := placeId selectedPlace |} |}.

(** The [try] block of [onSubmit]. *)
Definition onSubmit_try (url : string) (payload : Payload) : Run unit :=
  emit (FetchPost url payload);;
  res ← await (fetch_post rt url payload);
  (if negb (res_ok res) then
     let txt := catch_default (res_text res) "" in
     throw ("Erro " +:+ String_ (res_status res) +:+ ": "
              +:+ or_str (Some txt) "Falha ao processar o relatório")
   else mret tt);;
  let ct := nullish (res_content_type res) "" in
  if includes "text/html" ct then
    html ← await (res_text res);
    emit DocumentOpen;;
    emit (DocumentWrite html);;
    emit DocumentClose
  else if includes "application/pdf" ct then
    blob ← await (res_blob res);
    let url := createObjectURL rt blob in
    emit (CreateObjectURL blob);;
    emit (LocationHref url)
  else
    let _ := catch_default (res_json res) tt in
    mret tt.

Definition onSubmit (data : FormData) (st : State) : Run State :=
  match selectedPlace st with
  | None =>
      mret (form_setError_birthPlace "Selecione uma cidade das sugestões." st)
  | Some selectedPlace =>
      if negb (truthy (WEBHOOK_URL rt)) then
        emit (ConsoleError "VITE_N8N_WEBHOOK_URL não definida no build.");;
        emit (Alert "Configuração do servidor ausente. Tente novamente mais tarde.");;
        mret st
      else
        timezoneOffset ←
          await (Offset.getTimezoneOffsetISO rt (timezone selectedPlace) (now rt));
        let payload := make_payload data selectedPlace timezoneOffset in
        try_catch
          (onSubmit_try (nullish (WEBHOOK_URL rt) "") payload)
          (fun err =>
             emit (ConsoleError err);;
             emit (Alert "Não foi possível gerar o relatório agora. Tente novamente."));;
        mret st
  end.

(** [form.handleSubmit(onSubmit)]: the resolver runs first and the
    callback receives the parsed values. *)
Definition handleSubmit (st : State) : Run State :=
  match formSchema (values st) with
  | Some data => onSubmit data st
  | None => mret st
  end.

End WithRuntime.

End AstrologyForm.

(** ** The page: both components and the events that drive them *)

Module Page.

Record State := mkPage {
  form : AstrologyForm.State;
  ac : PlaceAutocomplete.State;
  (** the cell of [useDebounce(value, 250)] *)
  debouncedSearchTerm : string;
  (** geocoding requests started and not yet settled *)
  inflight : nat
}.

Definition initial : State :=
  mkPage AstrologyForm.initial PlaceAutocomplete.initial "" 0.

(** [value={field.value || ''}] *)
Definition value (pg : State) : string :=
  or_str (AstrologyForm.v_birthPlace (AstrologyForm.values (form pg))) "".

Inductive Event : Type :=
| InputChange (text : string)
| OtherFieldsChange (v : AstrologyForm.FormValues)
| KeyDown (key : string)
| ItemClick (i : nat)
| BlurTimeout (focusInList : bool)
| DebounceElapsed
| SearchSettled (outcome : Completion GeoResponse)
| Submit.

(** The props [onChange] and [onPlaceSelect] as [AstrologyForm] wires them. *)
Definition deliver (f : AstrologyForm.State) (e : Effect) : AstrologyForm.State :=
  match e with
  | PropOnChange v => AstrologyForm.field_onChange_birthPlace v f
  | PropOnPlaceSelect p => AstrologyForm.onPlaceSelect p f
  | _ => f
  end.

Definition deliver_all (tr : list Effect) (f : AstrologyForm.State) : AstrologyForm.State :=
  fold_left deliver tr f.

Definition is_FetchGet (e : Effect) : bool :=
  match e with FetchGet _ => true | _ => false end.

Definition started (tr : list Effect) : nat :=
  length (filter (fun e => is_FetchGet e = true) tr).

(** A handler of the autocomplete has run: its callbacks reach the form,
    its new state is committed. *)
Definition commit_ac (pg : State) (r : Run PlaceAutocomplete.State) : State * list Effect :=
  (mkPage (deliver_all (trace r) (form pg))
     (match result r with Normal s => s | Throw _ => ac pg end)
     (debouncedSearchTerm pg)
     (inflight pg + started (trace r)),
   trace r).

Definition commit_form (pg : State) (r : Run AstrologyForm.State) : State * list Effect :=
  (mkPage (match result r with Normal f => f | Throw _ => form pg end)
     (ac pg) (debouncedSearchTerm pg) (inflight pg),
   trace r).

Section WithRuntime.
Variable rt : Runtime.

(** Modelled from the spec: the hook [useDebounce] (hooks/useDebounce is
    not among the sources).  "Raw text changes are coalesced; a search is
    triggered only after input has been stable for a fixed quiet
    interval": when the interval elapses the debounced cell takes the
    current value, and the search effect runs if the cell changed. *)
Definition debounceElapsed (pg : State) : State * list Effect :=
  if String.eqb (value pg) (debouncedSearchTerm pg) then (pg, [])
  else
    commit_ac (mkPage (form pg) (ac pg) (value pg) (inflight pg))
      (PlaceAutocomplete.searchEffect rt (value pg) (ac pg)).

Definition step (pg : State) (ev : Event) : State * list Effect :=
  match ev with
  | InputChange text =>
      let r := PlaceAutocomplete.input_onChange text in
      (mkPage (deliver_all (trace r) (form pg)) (ac pg)
         (debouncedSearchTerm pg) (inflight pg), trace r)
  | OtherFieldsChange v =>
      (mkPage (AstrologyForm.setValues v (form pg)) (ac pg)
         (debouncedSearchTerm pg) (inflight pg), [])
  | KeyDown key => commit_ac pg (PlaceAutocomplete.handleKeyDown rt key (ac pg))
  | ItemClick i => commit_ac pg (PlaceAutocomplete.item_onClick rt i (ac pg))
  | BlurTimeout focusInList =>
      (mkPage (form pg) (PlaceAutocomplete.handleBlur_timeout focusInList (ac pg))
         (debouncedSearchTerm pg) (inflight pg), [])
  | DebounceElapsed => debounceElapsed pg
  | SearchSettled outcome =>
      match inflight pg with
      | O => (pg, [])
      | S n =>
          commit_ac (mkPage (form pg) (ac pg) (debouncedSearchTerm pg) n)
            (PlaceAutocomplete.searchPlaces_settled outcome (ac pg))
      end
  | Submit => commit_form pg (AstrologyForm.handleSubmit rt (form pg))
  end.

End WithRuntime.

(** Each event happens in the runtime of its moment. *)
Fixpoint run (pg : State) (evs : list (Runtime * Event)) : State :=
  match evs with
  | [] => pg
  | (rt, ev) :: rest => run (fst (step rt pg ev)) rest
  end.

Inductive reachable : State -> Prop :=
| reachable_initial : reachable initial
| reachable_step rt pg ev : reachable pg -> reachable (fst (step rt pg ev)).

(** The gestures that can perform a Selection. *)
Definition selects (ev : Event) : bool :=
  match ev with
  | ItemClick _ => true
  | KeyDown key => String.eqb key "Enter"
  | _ => false
  end.

End Page.

(** ** Concrete runtimes *)

Module Civil.

(** Year, month (1 to 12) and day of the proleptic Gregorian calendar
    for a day number counted from 1 January 1970. *)
Definition civil_of_days (days : Z) : Z * Z * Z :=
  let z := days + 719468 in
  let era := z / 146097 in
  let doe := z - era * 146097 in
  let yoe := (doe - doe / 1460 + doe / 36524 - doe / 146096) / 365 in
  let doy := doe - (365 * yoe + yoe / 4 - yoe / 100) in
  let mp := (5 * doy + 2) / 153 in
  let d := doy - (153 * mp + 2) / 5 + 1 in
  let m := if mp <? 10 then mp + 3 else mp - 9 in
  let y := yoe + era * 400 + (if m <=? 2 then 1 else 0) in
  (y, m, d).

(** The day number, counted from 1 January 1970, of a date of the
    proleptic Gregorian calendar (month 1 to 12); a day past the end of
    the month runs on into the next one. *)
Definition days_of_civil (y m d : Z) : Z :=
  let y' := if m <=? 2 then y - 1 else y in
  let era := y' / 400 in
  let yoe := y' - era * 400 in
  let mp := if m >? 2 then m - 3 else m + 9 in
  let doy := (153 * mp + 2) / 5 + d - 1 in
  let doe := yoe * 365 + yoe / 4 - yoe / 100 + doy in
  era * 146097 + doe - 719468.

(** [format(date, 'yyyy-MM-dd')] in a host [offset] minutes east of UTC. *)
Definition format_at (offset : Z) (date : Z) : string :=
  let '(y, m, d) := civil_of_days ((date + 60000 * offset) / 86400000) in
  padStart 4 "0" (String_ y) +:+ "-" +:+ padStart 2 "0" (String_ m)
    +:+ "-" +:+ padStart 2 "0" (String_ d).

End Civil.

Module Examples.

(** 2024-06-15T17:30:00.123Z *)
Definition submission_instant : Z := 1718472600123.

(** Offsets in force in June 2024. *)
Definition zones (name : string) : option (Z -> Z) :=
  if String.eqb name "America/Sao_Paulo" then Some (fun _ => -180)
  else if String.eqb name "Europe/Lisbon" then Some (fun _ => 60)
  else if String.eqb name "Asia/Tokyo" then Some (fun _ => 540)
  else if String.eqb name "UTC" then Some (fun _ => 0)
  else None.

Definition html_response : Response :=
  mkResponse true 200 (Some "text/html; charset=utf-8")
    (Normal "<html>mapa</html>") (Normal "<html>mapa</html>") (Throw "SyntaxError").


Definition json_response : Response :=
  mkResponse true 200 (Some "application/json") (Normal "{}") (Normal "{}") (Normal tt).


Definition error_response : Response :=
  mkResponse false 500 (Some "text/html") (Normal "") (Normal "") (Throw "SyntaxError").

(** A browser whose own zone is [hostOffset] minutes east of UTC. *)
Definition browser (hostOffset : Z) (webhook : option string)
    (answer : Completion Response) : Runtime :=
  {| now := submission_instant;
     zoneOffset := zones;
     hostOffsetAt := fun _ => hostOffset;
     hostOffsetOfWall := fun _ => hostOffset;
     format_yyyy_MM_dd := Civil.format_at hostOffset;
     tz_lookup := fun _ _ => Throw "Error: invalid coordinates";
     WEBHOOK_URL := webhook;
     VITE_GEOAPIFY_API_KEY := Some "key";
     fetch_post := fun _ _ => answer;
     createObjectURL := fun _ => "blob:1";
     encodeURIComponent := fun s => s;
     date_1900_0_1 := -2208988800000 - 60000 * hostOffset;
     isEmail := includes "@" |}.

Definition hook : option string := Some "https://n8n.example/webhook/mapa".

Definition sao_paulo : Place :=
  {| city := "Sao Paulo"; admin := Some "SP"; country := "Brasil";
     countryCode := "br"; lat := -2355 # 100; lon := -4663 # 100;
     timezone := "America/Sao_Paulo"; provider := "geoapify";
     placeId := "51a6" |}.

(** Midnight of 2024-06-15 in a host [hostOffset] minutes east of UTC. *)
Definition birth_2024_06_15 (hostOffset : Z) : Z :=
  1718409600000 - 60000 * hostOffset.

Definition data (hostOffset : Z) : FormData :=
  mkFormData "Ana Souza" (birth_2024_06_15 hostOffset) "14:30" "Sao Paulo, SP, Brasil"
    "ana@example.org".

Definition filled (hostOffset : Z) (p : option Place) : AstrologyForm.State :=
  AstrologyForm.mkState p
    (AstrologyForm.mkValues (Some "Ana Souza") (Some (birth_2024_06_15 hostOffset))
       (Some "14:30") (Some "Sao Paulo, SP, Brasil") (Some "ana@example.org"))
    None.

Definition suggestion (name zone : string) : PlaceSuggestion :=
  mkSuggestion name (Some name) (Some name) None (Some "Brasil") (Some "br")
    (-2355 # 100) (-4663 # 100) name (Some (mkTimezoneInfo (Some zone))).

Definition three : list PlaceSuggestion :=
  [suggestion "Santos" "America/Sao_Paulo";
   suggestion "Santarem" "America/Santarem";
   suggestion "Salvador" "America/Bahia"].

(** A feature for which the provider sent no timezone. *)
Definition bare (name : string) : PlaceSuggestion :=
  mkSuggestion name (Some name) None (Some "SP") (Some "Brasil") (Some "br")
    (-2355 # 100) (-4663 # 100) name None.

(** The same browser with a tz-lookup whose function answers [answer]. *)
Definition with_tz_lookup (answer : Completion string) (rt : Runtime) : Runtime :=
  {| now := now rt;
     zoneOffset := zoneOffset rt;
     hostOffsetAt := hostOffsetAt rt;
     hostOffsetOfWall := hostOffsetOfWall rt;
     format_yyyy_MM_dd := format_yyyy_MM_dd rt;
     tz_lookup := fun _ _ => answer;
     WEBHOOK_URL := WEBHOOK_URL rt;
     VITE_GEOAPIFY_API_KEY := VITE_GEOAPIFY_API_KEY rt;
     fetch_post := fetch_post rt;
     createObjectURL := createObjectURL rt;
     encodeURIComponent := encodeURIComponent rt;
     date_1900_0_1 := date_1900_0_1 rt;
     isEmail := isEmail rt |}.

Definition rt0 : Runtime := browser (-180) hook (Normal html_response).

(** Zones of a host as [Date] reads them: the offset of the local
    clock from UTC, in milliseconds, at an instant ([isUTC] true) and
    for a reading of the local clock ([isUTC] false). *)

(** 3 hours behind UTC throughout. *)
Definition fixed_zone : Z -> bool -> Z := fun _ _ => -10800000.

(** A host 4 hours behind UTC whose clock, at the start of 1 October
    1980 (1980-10-01T04:00:00Z), goes from 00:00 to 01:00 and is 3 hours
    behind from then on, as in America/Asuncion.  A reading inside the
    skipped hour is taken with the offset in force before the change. *)
Definition skipped_midnight : Z -> bool -> Z :=
  fun t isUTC =>
    if isUTC then (if t <? 339220800000 then -14400000 else -10800000)
    else (if t <? 339210000000 then -14400000 else -10800000).

(** Local mean time, 3 h 6 min 28 s behind UTC, as in America/Sao_Paulo
    before 1914. *)
Definition local_mean_time : Z -> bool -> Z := fun _ _ => -11188000.

Definition found (l : list PlaceSuggestion) : Completion GeoResponse :=
  Normal (mkGeoResponse true (Normal (Some l))).

(** Type, wait, receive three cities, move the highlight to the third,
    type on, wait, and have the second search fail. *)
Definition stale_events : list (Runtime * Page.Event) :=
  [(rt0, Page.InputChange "sa");
   (rt0, Page.DebounceElapsed);
   (rt0, Page.SearchSettled (found three));
   (rt0, Page.KeyDown "ArrowDown");
   (rt0, Page.KeyDown "ArrowDown");
   (rt0, Page.KeyDown "ArrowDown");
   (rt0, Page.InputChange "sax");
   (rt0, Page.DebounceElapsed);
   (rt0, Page.SearchSettled (Throw "TypeError: Failed to fetch"))].

Definition stale_page : Page.State := Page.run Page.initial stale_events.

(** Type, wait, receive three cities, highlight the first, press Enter. *)
Definition select_events : list (Runtime * Page.Event) :=
  [(rt0, Page.InputChange "sa");
   (rt0, Page.DebounceElapsed);
   (rt0, Page.SearchSettled (found three));
   (rt0, Page.KeyDown "ArrowDown");
   (rt0, Page.KeyDown "Enter")].

Definition selected_page : Page.State := Page.run Page.initial select_events.

End Examples.

(** * Definitions used by the statements *)

(** The three tiers in the specification's words: the provider's name
    when one is supplied, else the zone looked up from the coordinates,
    else ["UTC"] when the lookup throws or returns empty. *)
Definition spec_timezone (provided : option string) (lookup : Completion string) : string :=
  match provided with
  | Some (String c name) => String c name
  | Some EmptyString | None =>
      match lookup with
      | Normal (String c zone) => String c zone
      | Normal EmptyString | Throw _ => "UTC"
      end
  end.

(** The only thing the derivation may emit is the warning of the
    [catch] branch. *)
Definition quiet (tr : list Effect) : Prop :=
  tr = [] \/ exists w, tr = [ConsoleWarn w].

Ltac run_simpl :=
  unfold mbind, mret, run_bind, run_ret, RunMonad.bind, RunMonad.try_catch,
    RunMonad.await, RunMonad.emit, RunMonad.throw, RunMonad.ret,
    RunMonad.catch_default;
  simpl.

(** The messages of [onSubmit]. *)
Definition MSG_SELECT : string := "Selecione uma cidade das sugestões.".

Definition MSG_NO_HOOK : string :=
  "Configuração do servidor ausente. Tente novamente mais tarde.".

Definition LOG_NO_HOOK : string := "VITE_N8N_WEBHOOK_URL não definida no build.".

Definition MSG_FAILED : string :=
  "Não foi possível gerar o relatório agora. Tente novamente.".

(** An effect that hands the form a place hands it one with a zone. *)
Definition tidy (e : Effect) : Prop :=
  match e with
  | PropOnPlaceSelect (Some p) => timezone p <> ""
  | _ => True
  end.

(** An effect that does not hand the form a place. *)
Definition unselecting (e : Effect) : Prop :=
  match e with
  | PropOnPlaceSelect (Some _) => False
  | _ => True
  end.

Definition place_ok (p : option Place) : Prop :=
  forall q, p = Some q -> timezone q <> "".

(** The keyboard table of the specification as a transition on the
    highlighted index and the dropdown flag; [last] is the index of the
    last suggestion and [highlighted] tells whether a suggestion is
    highlighted.  Selection closes the dropdown. *)
Definition spec_key_transition (key : string) (last : Z) (highlighted : bool)
    (s : Z * bool) : Z * bool :=
  let '(index, open) := s in
  if negb open then (index, open)
  else if String.eqb key "ArrowDown" then (Z.min (index + 1) last, true)
  else if String.eqb key "ArrowUp" then (Z.max (index - 1) (-1), true)
  else if String.eqb key "Enter" then
    if highlighted then (index, false) else (index, true)
  else if String.eqb key "Escape" then (-1, false)
  else (index, true).

(** The transition the handler performs. *)
Definition key_transition (rt : Runtime) (key : string) (st : PlaceAutocomplete.State)
    : option (Z * bool) :=
  match result (PlaceAutocomplete.handleKeyDown rt key st) with
  | Normal st' => Some (PlaceAutocomplete.selectedIndex st', PlaceAutocomplete.isOpen st')
  | Throw _ => None
  end.

Definition last_index (st : PlaceAutocomplete.State) : Z :=
  PlaceAutocomplete.suggestions_length st - 1.

Definition highlighted (st : PlaceAutocomplete.State) : bool :=
  (0 <=? PlaceAutocomplete.selectedIndex st)
  && bool_decide (is_Some (PlaceAutocomplete.suggestions st
                             !! Z.to_nat (PlaceAutocomplete.selectedIndex st))).

(** The effects a handler of the autocomplete can have. *)
Definition from_autocomplete (e : Effect) : Prop :=
  match e with
  | PropOnChange _ | PropOnPlaceSelect _ | PreventDefault
  | ConsoleWarn _ | ConsoleError _ | FetchGet _ => True
  | _ => False
  end.

(** * Definitions used by the further properties *)

(** A check over the integers [0 .. n-1]. *)
Fixpoint forall_below (n : nat) (f : Z -> bool) : bool :=
  match n with
  | O => true
  | S k => f (Z.of_nat k) && forall_below k f
  end.

Definition digit_value (c : ascii) : Z := Z.of_N (N_of_ascii c) - 48.

(** Reading a signed [HH:MM] offset back as minutes east of UTC, as the
    receiver of the payload would. *)
Definition decode_iso_offset (s : string) : option Z :=
  match s with
  | String sg (String h1 (String h2 (String colon (String m1 (String m2 EmptyString))))) =>
      if (Ascii.eqb sg "+" || Ascii.eqb sg "-")
         && AstrologyForm.is_digit h1 && AstrologyForm.is_digit h2
         && Ascii.eqb colon ":"
         && AstrologyForm.digit_upto 5 m1 && AstrologyForm.is_digit m2
      then
        let minutes :=
          60 * (10 * digit_value h1 + digit_value h2)
          + (10 * digit_value m1 + digit_value m2) in
        Some (if Ascii.eqb sg "-" then - minutes else minutes)
      else None
  | _ => None
  end.

(** The text [HH:mm] of hour [h] and minute [m]. *)
Definition render_time (h m : Z) : string :=
  padStart 2 "0" (String_ h) +:+ ":" +:+ padStart 2 "0" (String_ m).

Definition is_FetchPost (e : Effect) : bool :=
  match e with FetchPost _ _ => true | _ => false end.

Definition is_Alert (e : Effect) : bool :=
  match e with Alert _ => true | _ => false end.

Definition is_page_change (e : Effect) : bool :=
  match e with DocumentWrite _ | LocationHref _ => true | _ => false end.

Definition count (p : Effect -> bool) (tr : list Effect) : nat :=
  length (List.filter p tr).

(** The second conditional block of the render: the message
    "Nenhuma cidade encontrada" is shown when
    [isOpen && suggestions.length === 0 && !isLoading && value.length >= 2]. *)
Definition no_results_rendered (value : string) (st : PlaceAutocomplete.State) : bool :=
  PlaceAutocomplete.isOpen st
  && (PlaceAutocomplete.suggestions_length st =? 0)
  && negb (PlaceAutocomplete.isLoading st)
  && (Z.of_nat (String.length value) >=? 2).

(** The place that [selectSuggestion] builds from a suggestion, up to
    its timezone. *)
Definition built_from (s : PlaceSuggestion) (p : Place) : Prop :=
  city p = or_str (or_opt (prop_city s) (prop_name s)) ""
  /\ admin p = or_opt (prop_state s) None
  /\ country p = or_str (prop_country s) ""
  /\ countryCode p = or_str (prop_country_code s) ""
  /\ lat p = prop_lat s
  /\ lon p = prop_lon s
  /\ provider p = "geoapify"
  /\ placeId p = prop_place_id s.

(** An effect that is not a callback into the form. *)
Definition inert (e : Effect) : Prop :=
  match e with
  | PropOnChange _ | PropOnPlaceSelect _ => False
  | _ => True
  end.

(** The same key pressed [n] times. *)
Definition presses (rt : Runtime) (key : string) (n : nat) : list (Runtime * Page.Event) :=
  repeat (rt, Page.KeyDown key) n.

(** A geocoding request that ends in the [catch] block of
    [searchPlaces]: the request was rejected, the status was not a
    success, or the body could not be read as JSON. *)
Definition search_failed (outcome : Completion GeoResponse) : bool :=
  match outcome with
  | Throw _ => true
  | Normal response =>
      negb (geo_ok response)
      || match geo_json response with Throw _ => true | Normal _ => false end
  end.

(** The component state after a handler has run. *)
Definition state_after (r : Run PlaceAutocomplete.State) (st : PlaceAutocomplete.State)
    : PlaceAutocomplete.State :=
  match result r with
  | Normal st' => st'
  | Throw _ => st
  end.

(** What a key or the blur timer may do to the component state when no
    selection is made: the list and the loading flag stay, the
    highlighted index stays, moves one step inside the list, or is
    reset. *)
Definition key_moves (st st' : PlaceAutocomplete.State) : Prop :=
  PlaceAutocomplete.suggestions st' = PlaceAutocomplete.suggestions st
  /\ PlaceAutocomplete.isLoading st' = PlaceAutocomplete.isLoading st
  /\ (PlaceAutocomplete.selectedIndex st' = PlaceAutocomplete.selectedIndex st
      \/ (PlaceAutocomplete.selectedIndex st < PlaceAutocomplete.suggestions_length st - 1
          /\ PlaceAutocomplete.selectedIndex st' = PlaceAutocomplete.selectedIndex st + 1)
      \/ (PlaceAutocomplete.selectedIndex st > 0
          /\ PlaceAutocomplete.selectedIndex st' = PlaceAutocomplete.selectedIndex st - 1)
      \/ PlaceAutocomplete.selectedIndex st' = -1).

(** The moves of the page: every step of [Page.step] is one of these. *)
Inductive moves (pg pg' : Page.State) : Prop :=
| move_none :
    pg' = pg -> moves pg pg'
| move_edit text :
    pg' = Page.mkPage
            (AstrologyForm.onPlaceSelect None
               (AstrologyForm.field_onChange_birthPlace text (Page.form pg)))
            (Page.ac pg) (Page.debouncedSearchTerm pg) (Page.inflight pg) ->
    moves pg pg'
| move_fields v :
    pg' = Page.mkPage (AstrologyForm.setValues v (Page.form pg))
            (Page.ac pg) (Page.debouncedSearchTerm pg) (Page.inflight pg) ->
    moves pg pg'
| move_keys st' :
    key_moves (Page.ac pg) st' ->
    pg' = Page.mkPage (Page.form pg) st' (Page.debouncedSearchTerm pg) (Page.inflight pg) ->
    moves pg pg'
| move_select i suggestion place :
    PlaceAutocomplete.isOpen (Page.ac pg) = true ->
    PlaceAutocomplete.suggestions (Page.ac pg) !! i = Some suggestion ->
    built_from suggestion place ->
    timezone place <> "" ->
    pg' = Page.mkPage
            (AstrologyForm.mkState (Some place)
               (AstrologyForm.values
                  (AstrologyForm.field_onChange_birthPlace
                     (PlaceAutocomplete.formatSuggestion suggestion) (Page.form pg)))
               None)
            (PlaceAutocomplete.setIsOpen false (Page.ac pg))
            (Page.debouncedSearchTerm pg) (Page.inflight pg) ->
    moves pg pg'
| move_search_start :
    (2 <= String.length (Page.value pg))%nat ->
    pg' = Page.mkPage (Page.form pg)
            (PlaceAutocomplete.setIsLoading true (Page.ac pg))
            (Page.value pg) (S (Page.inflight pg)) ->
    moves pg pg'
| move_search_short :
    (String.length (Page.value pg) < 2)%nat ->
    pg' = Page.mkPage (Page.form pg)
            (PlaceAutocomplete.setIsOpen false
               (PlaceAutocomplete.setSuggestions [] (Page.ac pg)))
            (Page.value pg) (Page.inflight pg) ->
    moves pg pg'
| move_settle_ok n features :
    Page.inflight pg = S n ->
    pg' = Page.mkPage (Page.form pg)
            (PlaceAutocomplete.mkState features false true (-1))
            (Page.debouncedSearchTerm pg) n ->
    moves pg pg'
| move_settle_failed n :
    Page.inflight pg = S n ->
    pg' = Page.mkPage (Page.form pg)
            (PlaceAutocomplete.mkState [] false
               (PlaceAutocomplete.isOpen (Page.ac pg))
               (PlaceAutocomplete.selectedIndex (Page.ac pg)))
            (Page.debouncedSearchTerm pg) n ->
    moves pg pg'
| move_submit f' :
    AstrologyForm.selectedPlace f' = AstrologyForm.selectedPlace (Page.form pg) ->
    AstrologyForm.values f' = AstrologyForm.values (Page.form pg) ->
    pg' = Page.mkPage f' (Page.ac pg) (Page.debouncedSearchTerm pg) (Page.inflight pg) ->
    moves pg pg'.

(** ** [EnhancedCalendar] (src/components/EnhancedCalendar.tsx) *)

Module EnhancedCalendar.

Definition msPerDay : Z := 86400000.

(** A [Date] is its time value, the milliseconds since the epoch;
    [None] is [NaN], an Invalid Date. *)
Definition JSDate : Type := option Z.

(** TimeClip: a time value lies within 100 000 000 days of the epoch. *)
Definition TimeClip (time : Z) : JSDate :=
  if Z.abs time <=? 8640000000000000 then Some time else None.

(** MakeDay: the day number of the [date]th day of a month, a month
    outside 0..11 carrying into the year. *)
Definition MakeDay (year month date : Z) : Z :=
  let ym := year + month / 12 in
  let mn := month mod 12 in
  Civil.days_of_civil ym (mn + 1) 1 + date - 1.

Section Dates.

(** The zone of the host: [LocalTZA t isUTC] is the offset of the local
    clock from UTC, in milliseconds, at the instant [t] when [isUTC] is
    true, and for the reading [t] of the local clock when it is false. *)
Variable LocalTZA : Z -> bool -> Z.

(** LocalTime and UTC: from an instant to the reading of the host's
    clock, and back. *)
Definition LocalTime (t : Z) : Z := t + LocalTZA t true.

Definition UTC (t : Z) : Z := t - LocalTZA t false.

(** [d.getFullYear()] and [d.getMonth()] (0 to 11), read on the host's
    clock; [None] is [NaN]. *)
Definition getFullYear (d : JSDate) : option Z :=
  t ← d;
  let '(y, _, _) := Civil.civil_of_days (LocalTime t / msPerDay) in
  Some y.

Definition getMonth (d : JSDate) : option Z :=
  t ← d;
  let '(_, m, _) := Civil.civil_of_days (LocalTime t / msPerDay) in
  Some (m - 1).

(** [new Date(year, monthIndex, 1)]: midnight on the host's clock at
    the start of the first day of the month.  A year from 0 to 99 means
    1900 + year, [NaN] gives an invalid date, and so does an instant
    outside the range of time values. *)
Definition new_Date (year monthIndex : option Z) : JSDate :=
  match year, monthIndex with
  | Some y, Some m =>
      let yr := if (0 <=? y) && (y <=? 99) then 1900 + y else y in
      TimeClip (UTC (MakeDay yr m 1 * msPerDay))
  | _, _ => None
  end.

End Dates.

Definition is_space (c : ascii) : bool :=
  let n := N_of_ascii c in
  ((9 <=? n) && (n <=? 13) || (n =? 32) || (n =? 160))%N.

Fixpoint trim_start (s : string) : string :=
  match s with
  | String c r => if is_space c then trim_start r else s
  | EmptyString => EmptyString
  end.

(** The value of a character as a digit of the radix, if it is one. *)
Definition digit_in (radix : Z) (c : ascii) : option Z :=
  let n := Z.of_N (N_of_ascii c) in
  let v :=
    if (48 <=? n) && (n <=? 57) then n - 48
    else if (97 <=? n) && (n <=? 122) then n - 87
    else if (65 <=? n) && (n <=? 90) then n - 55
    else radix in
  if v <? radix then Some v else None.

Fixpoint parse_digits (radix : Z) (acc : option Z) (s : string) : option Z :=
  match s with
  | String c r =>
      match digit_in radix c with
      | Some d => parse_digits radix (Some (radix * default 0 acc + d)) r
      | None => acc
      end
  | EmptyString => acc
  end.

(** [parseInt(s)] without a radix, for results that are exact integers:
    leading white space, an optional sign, an optional [0x] prefix, then
    the longest run of digits; [None] is [NaN]. *)
Definition parseInt (s : string) : option Z :=
  let s1 := trim_start s in
  let '(negative, s2) :=
    match s1 with
    | String "-" r => (true, r)
    | String "+" r => (false, r)
    | _ => (false, s1)
    end in
  let '(radix, s3) :=
    match s2 with
    | String "0" (String "x" r) | String "0" (String "X" r) => (16, r)
    | _ => (10, s2)
    end in
  match parse_digits radix None s3 with
  | Some v => Some (if negative then - v else v)
  | None => None
  end.

(** [const months = [...]] *)
Definition months : list string :=
  ["Janeiro"; "Fevereiro"; "Março"; "Abril"; "Maio"; "Junho";
   "Julho"; "Agosto"; "Setembro"; "Outubro"; "Novembro"; "Dezembro"].

(** [Array.from({ length: currentYear - 1900 + 1 }, (_, i) => currentYear - i)] *)
Definition years (currentYear : Z) : list Z :=
  map (fun i => currentYear - Z.of_nat i) (seq 0 (Z.to_nat (currentYear - 1900 + 1))).

(** The [value] of the items of the two selects. *)
Definition month_items : list string :=
  map (fun index => String_ (Z.of_nat index)) (seq 0 (length months)).

Definition year_items (currentYear : Z) : list string :=
  map String_ (years currentYear).

Section Handlers.
Variable LocalTZA : Z -> bool -> Z.

(** The two handlers: the new [displayMonth] and the calls of
    [props.onMonthChange], which is optional. *)
Definition handleMonthSelect (has_onMonthChange : bool) (displayMonth : JSDate)
    (monthIndex : string) : JSDate * list JSDate :=
  let currentDisplayYear := getFullYear LocalTZA displayMonth in
  let newDate := new_Date LocalTZA currentDisplayYear (parseInt monthIndex) in
  (newDate, if has_onMonthChange then [newDate] else []).

Definition handleYearSelect (has_onMonthChange : bool) (displayMonth : JSDate)
    (year : string) : JSDate * list JSDate :=
  let currentMonth := getMonth LocalTZA displayMonth in
  let newDate := new_Date LocalTZA (parseInt year) currentMonth in
  (newDate, if has_onMonthChange then [newDate] else []).

End Handlers.

End EnhancedCalendar.

(** The day of the era of 400 years, counted from 1 March, of the
    [d]th day of month [mp] (0 is March) of year [yoe] of the era. *)
Definition day_of_era (yoe mp d : Z) : Z :=
  yoe * 365 + yoe / 4 - yoe / 100 + ((153 * mp + 2) / 5 + d - 1).

(** Reading back the day number of a day of an era gives the day. *)
Definition civil_check (yoe mp d : Z) : bool :=
  let doe := day_of_era yoe mp d in
  (0 <=? doe) && (doe <? 146097)
  && match Civil.civil_of_days (doe - 719468) with
     | (y, m, dd) =>
         (y =? yoe + (if mp <? 10 then 0 else 1))
         && (m =? (if mp <? 10 then mp + 3 else mp - 9)) && (dd =? d)
     end.

(** The reading [wall] of the host's clock at local midnight of the
    first day of a month. *)
Definition local_midnight (y m : Z) : Z :=
  EnhancedCalendar.MakeDay y m 1 * EnhancedCalendar.msPerDay.

(** By how many milliseconds the host's clock, at the instant that the
    host gives to the reading [wall], is past [wall]: the length of the
    stretch that the clock skips, for a reading inside it. *)
Definition host_gap (LocalTZA : Z -> bool -> Z) (wall : Z) : Z :=
  LocalTZA (EnhancedCalendar.UTC LocalTZA wall) true - LocalTZA wall false.

(** The host's zone keeps within a day of UTC, and a reading that its
    clock skips stands for an instant at which the clock is past the
    reading, by a day at most. *)
Definition host_regular (LocalTZA : Z -> bool -> Z) : Prop :=
  forall wall,
    -86400000 <= LocalTZA wall false <= 86400000
    /\ 0 <= host_gap LocalTZA wall <= 86400000.

(** The year that the [Date] constructor takes for its first argument. *)
Definition full_year (y : Z) : Z :=
  if (0 <=? y) && (y <=? 99) then 1900 + y else y.

(** * Properties *)

(** ** The embedding at work *)

Example includes_html :
  includes "text/html" "text/html; charset=utf-8" = true
  /\ includes "text/html" "application/pdf" = false
  /\ includes "" "" = true.
Proof. by repeat split. Qed.

Example padStart_two :
  padStart 2 "0" (String_ 3) = "03" /\ padStart 2 "0" (String_ 11) = "11"
  /\ padStart 2 "0" (String_ 123) = "123".
Proof. by repeat split. Qed.

Example Math_round_div_half :
  Math_round_div 5 2 = 3 /\ Math_round_div (-5) 2 = -2
  /\ Math_round_div (-10799877) 60000 = -180.
Proof. by repeat split. Qed.

Example timeRegex_samples :
  AstrologyForm.timeRegex "14:30" = true /\ AstrologyForm.timeRegex "23:59" = true
  /\ AstrologyForm.timeRegex "24:00" = false /\ AstrologyForm.timeRegex "7:05" = false
  /\ AstrologyForm.timeRegex "12:60" = false.
Proof. by repeat split. Qed.

Example format_samples :
  Civil.format_at 0 0 = "1970-01-01"
  /\ Civil.format_at 0 Examples.submission_instant = "2024-06-15"
  /\ Civil.format_at (-180) (Examples.birth_2024_06_15 (-180)) = "2024-06-15"
  /\ Civil.format_at 540 951782400000 = "2000-02-29".
Proof. by repeat split. Qed.

Example formatSuggestion_samples :
  PlaceAutocomplete.formatSuggestion (Examples.bare "Santos") = "Santos, SP, Brasil"
  /\ PlaceAutocomplete.formatSuggestion (Examples.suggestion "Santos" "America/Sao_Paulo")
     = "Santos, Brasil".
Proof. by repeat split. Qed.

(** The search effect that runs at mount, with the empty text, changes
    nothing. *)
Example mount_effect rt :
  PlaceAutocomplete.searchEffect rt "" PlaceAutocomplete.initial
  = MkRun [] (Normal PlaceAutocomplete.initial).
Proof. reflexivity. Qed.

(** The submit button of a filled form with a resolved place is enabled;
    it is disabled again as soon as the place text is edited. *)
Example button_samples :
  AstrologyForm.submit_disabled Examples.rt0
    (Examples.filled (-180) (Some Examples.sao_paulo)) = false
  /\ AstrologyForm.submit_disabled Examples.rt0
       (Page.deliver_all (trace (PlaceAutocomplete.input_onChange "Sao Paul"))
          (Examples.filled (-180) (Some Examples.sao_paulo))) = true.
Proof. by vm_compute. Qed.

(** ** Laws of the handler monad *)

Lemma bind_await_normal {A B} (a : A) (k : A -> Run B) :
  (await (Normal a) ≫= k) = k a.
Proof.
  unfold mbind, run_bind, RunMonad.bind, RunMonad.await. simpl.
  by destruct (k a).
Qed.

Lemma bind_await_throw {A B} (e : string) (k : A -> Run B) :
  (await (Throw e) ≫= k) = MkRun [] (Throw e).
Proof. reflexivity. Qed.

Lemma bind_emit {B} (e : Effect) (k : unit -> Run B) :
  (emit e ≫= k) = MkRun (e :: trace (k tt)) (result (k tt)).
Proof. reflexivity. Qed.

Lemma bind_mret {A B} (a : A) (k : A -> Run B) :
  (mret a ≫= k) = k a.
Proof.
  unfold mbind, mret, run_bind, run_ret, RunMonad.bind, RunMonad.ret. simpl.
  by destruct (k a).
Qed.

(** ** The offset computation *)

Lemma Math_round_div_near (k r : Z) :
  0 <= r < 1000 -> Math_round_div (60000 * k - r) 60000 = k.
Proof.
  intros Hr. unfold Math_round_div.
  symmetry. apply (Z.div_unique _ _ k (60000 - 2 * r)); lia.
Qed.

(** In a browser whose own zone keeps a fixed offset of [B] minutes, the
    function renders [2 * B - z] where [z] is the offset of the zone
    asked for: the host offset enters twice, and the zone's own offset
    with its sign reversed. *)
Lemma getTimezoneOffsetISO_fixed_host rt zone off t B :
  zoneOffset rt zone = Some off ->
  (forall x, hostOffsetAt rt x = B) ->
  (forall x, hostOffsetOfWall rt x = B) ->
  Offset.getTimezoneOffsetISO rt zone t = Normal (Offset.spec_isoOffset (2 * B - off t)).
Proof.
  intros Hz HB HW.
  unfold Offset.getTimezoneOffsetISO, Offset.toLocaleString, Offset.parseLocal,
    Offset.getTimezoneOffset.
  rewrite Hz, HB, HW. cbv zeta.
  set (w := t + 60000 * off t).
  assert (Hw : w / 1000 * 1000 = w - w mod 1000)
    by (pose proof (Z.div_mod w 1000); lia).
  assert (Hr : 0 <= w mod 1000 < 1000) by (apply Z.mod_pos_bound; lia).
  replace (w / 1000 * 1000 - 60000 * B - t + 60000 * - B)
    with (60000 * (off t - 2 * B) - w mod 1000) by (rewrite Hw; unfold w; lia).
  rewrite (Math_round_div_near _ _ Hr).
  unfold Offset.spec_isoOffset.
  replace (Z.abs (2 * B - off t)) with (Z.abs (off t - 2 * B)) by lia.
  replace (0 <=? 2 * B - off t) with (off t - 2 * B <=? 0); [reflexivity|].
  destruct (Z.leb_spec (off t - 2 * B) 0), (Z.leb_spec 0 (2 * B - off t)); lia || reflexivity.
Qed.

(** So the result is the zone's offset when the browser sits in a zone
    with the same offset as the place. *)
Lemma getTimezoneOffsetISO_same_zone rt zone off t :
  zoneOffset rt zone = Some off ->
  (forall x, hostOffsetAt rt x = off t) ->
  (forall x, hostOffsetOfWall rt x = off t) ->
  Offset.getTimezoneOffsetISO rt zone t = Normal (Offset.spec_isoOffset (off t)).
Proof.
  intros Hz HB HW.
  rewrite (getTimezoneOffsetISO_fixed_host rt zone off t (off t) Hz HB HW).
  do 2 f_equal. lia.
Qed.

(** C1 (the code departs from the claim).  A visitor whose browser runs
    in UTC resolves a place in America/Sao_Paulo and submits with birth
    date 2024-06-15.  The payload posted carries birthDate "2024-06-15",
    as claimed, but timezoneOffset "+03:00", while the zone's offset at
    that instant is 180 minutes west of UTC, "-03:00". *)
Theorem C1_offset_sign_in_utc_browser :
  let rt := Examples.browser 0 Examples.hook (Normal Examples.html_response) in
  let st := Examples.filled 0 (Some Examples.sao_paulo) in
  exists payload rest,
    trace (AstrologyForm.onSubmit rt (Examples.data 0) st)
      = FetchPost "https://n8n.example/webhook/mapa" payload :: rest
    /\ pl_birthDate payload = "2024-06-15"
    /\ pp_timezone (pl_place payload) = "America/Sao_Paulo"
    /\ pp_timezoneOffset (pl_place payload) = "+03:00"
    /\ Offset.getTimezoneOffsetISO rt "America/Sao_Paulo" (now rt) = Normal "+03:00"
    /\ (zoneOffset rt "America/Sao_Paulo" ≫= fun off => Some (Offset.spec_isoOffset (off (now rt))))
         = Some "-03:00".
Proof.
  cbv zeta. eexists. eexists.
  split; [vm_compute; reflexivity|].
  repeat split; vm_compute; reflexivity.
Qed.

(** ** Timezone derivation *)

Lemma spec_timezone_nonempty provided lookup :
  spec_timezone provided lookup <> "".
Proof.
  unfold spec_timezone.
  destruct provided as [[|c name]|]; try discriminate;
    destruct lookup as [[|c' zone]|e]; discriminate.
Qed.

Lemma getTimezone_run rt lat lon apiTimezone :
  exists tr,
    PlaceAutocomplete.getTimezone rt lat lon apiTimezone
      = MkRun tr (Normal (spec_timezone apiTimezone
                            (call2 "tzlookup" (PlaceAutocomplete.tzlookup rt) lat lon)))
    /\ quiet tr.
Proof.
  unfold PlaceAutocomplete.getTimezone, spec_timezone, quiet.
  destruct apiTimezone as [[|c name]|]; simpl.
  2: { eexists; split; [reflexivity|]. by left. }
  all: eexists; (split; [reflexivity|]); eauto.
Qed.

Lemma selectSuggestion_run rt suggestion st :
  exists tr place,
    PlaceAutocomplete.selectSuggestion rt suggestion st
      = MkRun (PropOnChange (PlaceAutocomplete.formatSuggestion suggestion)
                 :: tr ++ [PropOnPlaceSelect (Some place)])
          (Normal (PlaceAutocomplete.setIsOpen false st))
    /\ quiet tr
    /\ timezone place
         = spec_timezone (prop_timezone suggestion ≫= tz_name)
             (call2 "tzlookup" (PlaceAutocomplete.tzlookup rt)
                (prop_lat suggestion) (prop_lon suggestion)).
Proof.
  unfold PlaceAutocomplete.selectSuggestion.
  destruct (getTimezone_run rt (prop_lat suggestion) (prop_lon suggestion)
              (prop_timezone suggestion ≫= tz_name)) as (tr & Hrun & Hq).
  rewrite Hrun. simpl.
  eexists tr, _. split; [|split; [exact Hq|]].
  - reflexivity.
  - reflexivity.
Qed.

(** ** What each handler of the autocomplete can emit *)

Lemma handleKeyDown_cases rt key st :
  (exists st', PlaceAutocomplete.handleKeyDown rt key st = MkRun [] (Normal st'))
  \/ (exists st', PlaceAutocomplete.handleKeyDown rt key st
                  = MkRun [PreventDefault] (Normal st'))
  \/ (exists suggestion,
        key = "Enter"
        /\ PlaceAutocomplete.isOpen st = true
        /\ 0 <= PlaceAutocomplete.selectedIndex st
        /\ PlaceAutocomplete.suggestions st
             !! Z.to_nat (PlaceAutocomplete.selectedIndex st) = Some suggestion
        /\ PlaceAutocomplete.handleKeyDown rt key st
           = (emit PreventDefault;; PlaceAutocomplete.selectSuggestion rt suggestion st)).
Proof.
  unfold PlaceAutocomplete.handleKeyDown.
  destruct (PlaceAutocomplete.isOpen st) eqn:Hopen; simpl; [|left; eauto].
  destruct (String.eqb_spec key "ArrowDown"); [right; left; eauto|].
  destruct (String.eqb_spec key "ArrowUp"); [right; left; eauto|].
  destruct (String.eqb_spec key "Enter") as [->|]; [|].
  - destruct (Z.geb_spec (PlaceAutocomplete.selectedIndex st) 0) as [Hge|Hlt];
      [|right; left; eauto].
    unfold PlaceAutocomplete.suggestion_at.
    destruct (Z.ltb_spec (PlaceAutocomplete.selectedIndex st) 0); [lia|].
    destruct (PlaceAutocomplete.suggestions st
                !! Z.to_nat (PlaceAutocomplete.selectedIndex st)) as [s|] eqn:Hs;
      [|right; left; eauto].
    right; right. exists s. repeat split; auto; lia.
  - destruct (String.eqb_spec key "Escape"); left; eauto.
Qed.

Lemma item_onClick_cases rt i st :
  PlaceAutocomplete.item_onClick rt i st = MkRun [] (Normal st)
  \/ (exists suggestion,
        PlaceAutocomplete.suggestions st !! i = Some suggestion
        /\ PlaceAutocomplete.isOpen st = true
        /\ PlaceAutocomplete.item_onClick rt i st
           = PlaceAutocomplete.selectSuggestion rt suggestion st).
Proof.
  unfold PlaceAutocomplete.item_onClick, PlaceAutocomplete.list_rendered.
  destruct (PlaceAutocomplete.isOpen st); simpl; [|by left].
  destruct (PlaceAutocomplete.suggestions_length st >? 0); [|by left].
  destruct (PlaceAutocomplete.suggestions st !! i) as [s|]; [|by left].
  right. by exists s.
Qed.

Lemma searchEffect_cases rt term st :
  (Z.of_nat (String.length term) < 2
   /\ PlaceAutocomplete.searchEffect rt term st
      = MkRun [] (Normal (PlaceAutocomplete.setIsOpen false
                            (PlaceAutocomplete.setSuggestions [] st))))
  \/ (2 <= Z.of_nat (String.length term)
      /\ PlaceAutocomplete.searchEffect rt term st
         = MkRun [FetchGet (PlaceAutocomplete.searchUrl rt term)]
             (Normal (PlaceAutocomplete.setIsLoading true st))).
Proof.
  unfold PlaceAutocomplete.searchEffect.
  destruct (Z.ltb_spec (Z.of_nat (String.length term)) 2); [left|right]; by split.
Qed.

(** A settled search either installs the features it received, opens
    the dropdown and resets the highlight, or logs and empties the list,
    leaving dropdown and highlight as they were. *)
Lemma searchPlaces_settled_cases outcome st :
  (exists response data,
      outcome = Normal response /\ geo_ok response = true
      /\ geo_json response = Normal data
      /\ PlaceAutocomplete.searchPlaces_settled outcome st
         = MkRun [] (Normal (PlaceAutocomplete.mkState (default [] data) false true (-1))))
  \/ (exists error,
        PlaceAutocomplete.searchPlaces_settled outcome st
        = MkRun [ConsoleError ("Place search error: " +:+ error)]
            (Normal (PlaceAutocomplete.mkState [] false
                       (PlaceAutocomplete.isOpen st)
                       (PlaceAutocomplete.selectedIndex st)))).
Proof.
  unfold PlaceAutocomplete.searchPlaces_settled.
  destruct outcome as [response|e]; [|right; by exists e].
  destruct (geo_ok response) eqn:Hok; [|right; exists "Search failed"; run_simpl; by rewrite Hok].
  destruct (geo_json response) as [data|e] eqn:Hj.
  - left. exists response, data. repeat split; auto.
    run_simpl. rewrite Hok. simpl. by rewrite Hj.
  - right. exists e. run_simpl. rewrite Hok. simpl. by rewrite Hj.
Qed.

(** ** The shape of a submission *)

Lemma onSubmit_no_place rt data st :
  AstrologyForm.selectedPlace st = None ->
  AstrologyForm.onSubmit rt data st
    = MkRun [] (Normal (AstrologyForm.form_setError_birthPlace MSG_SELECT st)).
Proof. intros H. unfold AstrologyForm.onSubmit. by rewrite H. Qed.

Lemma onSubmit_no_hook rt data st p :
  AstrologyForm.selectedPlace st = Some p ->
  truthy (WEBHOOK_URL rt) = false ->
  AstrologyForm.onSubmit rt data st
    = MkRun [ConsoleError LOG_NO_HOOK; Alert MSG_NO_HOOK] (Normal st).
Proof. intros H Hu. unfold AstrologyForm.onSubmit. by rewrite H, Hu. Qed.

Lemma onSubmit_bad_zone rt data st p e :
  AstrologyForm.selectedPlace st = Some p ->
  truthy (WEBHOOK_URL rt) = true ->
  Offset.getTimezoneOffsetISO rt (timezone p) (now rt) = Throw e ->
  AstrologyForm.onSubmit rt data st = MkRun [] (Throw e).
Proof.
  intros H Hu Hz. unfold AstrologyForm.onSubmit. rewrite H, Hu. simpl.
  run_simpl. by rewrite Hz.
Qed.

(** Past the two guards and the offset computation, [onSubmit] is its
    [try] block followed, if that threw, by the [catch] block. *)
Lemma onSubmit_posted rt data st p off :
  AstrologyForm.selectedPlace st = Some p ->
  truthy (WEBHOOK_URL rt) = true ->
  Offset.getTimezoneOffsetISO rt (timezone p) (now rt) = Normal off ->
  let body :=
    AstrologyForm.onSubmit_try rt (nullish (WEBHOOK_URL rt) "")
      (AstrologyForm.make_payload rt data p off) in
  AstrologyForm.onSubmit rt data st
    = match result body with
      | Normal _ => MkRun (trace body) (Normal st)
      | Throw e => MkRun (trace body ++ [ConsoleError e; Alert MSG_FAILED]) (Normal st)
      end.
Proof.
  intros H Hu Hz. cbv zeta. unfold AstrologyForm.onSubmit. rewrite H, Hu, Hz.
  cbn [negb]. rewrite bind_await_normal.
  generalize (AstrologyForm.onSubmit_try rt (nullish (WEBHOOK_URL rt) "")
                (AstrologyForm.make_payload rt data p off)).
  intros [tr [[]|e]]; run_simpl; by rewrite ?app_nil_r.
Qed.

Lemma onSubmit_try_rejected rt url payload e :
  fetch_post rt url payload = Throw e ->
  AstrologyForm.onSubmit_try rt url payload = MkRun [FetchPost url payload] (Throw e).
Proof. intros H. unfold AstrologyForm.onSubmit_try. run_simpl. by rewrite H. Qed.

Lemma onSubmit_try_status rt url payload res :
  fetch_post rt url payload = Normal res ->
  res_ok res = false ->
  AstrologyForm.onSubmit_try rt url payload
    = MkRun [FetchPost url payload]
        (Throw ("Erro " +:+ String_ (res_status res) +:+ ": "
                  +:+ or_str (Some (catch_default (res_text res) ""))
                        "Falha ao processar o relatório")).
Proof.
  intros H Hok. unfold AstrologyForm.onSubmit_try. run_simpl.
  rewrite H. simpl. by rewrite Hok.
Qed.

Lemma onSubmit_try_ok rt url payload res :
  fetch_post rt url payload = Normal res ->
  res_ok res = true ->
  let ct := nullish (res_content_type res) "" in
  AstrologyForm.onSubmit_try rt url payload
    = if includes "text/html" ct then
        match res_text res with
        | Normal html =>
            MkRun [FetchPost url payload; DocumentOpen; DocumentWrite html; DocumentClose]
              (Normal tt)
        | Throw e => MkRun [FetchPost url payload] (Throw e)
        end
      else if includes "application/pdf" ct then
        match res_blob res with
        | Normal blob =>
            MkRun [FetchPost url payload; CreateObjectURL blob;
                   LocationHref (createObjectURL rt blob)] (Normal tt)
        | Throw e => MkRun [FetchPost url payload] (Throw e)
        end
      else MkRun [FetchPost url payload] (Normal tt).
Proof.
  intros H Hok ct. unfold AstrologyForm.onSubmit_try. run_simpl.
  rewrite H. simpl. rewrite Hok. simpl. fold ct.
  destruct (includes "text/html" ct); [by destruct (res_text res)|].
  destruct (includes "application/pdf" ct); [by destruct (res_blob res)|].
  reflexivity.
Qed.

(** When the [try] block throws, the POST is all it has done. *)
Lemma onSubmit_try_thrown rt url payload e :
  result (AstrologyForm.onSubmit_try rt url payload) = Throw e ->
  AstrologyForm.onSubmit_try rt url payload = MkRun [FetchPost url payload] (Throw e).
Proof.
  destruct (fetch_post rt url payload) as [res|e'] eqn:Hfetch.
  2: { rewrite (onSubmit_try_rejected _ _ _ _ Hfetch). simpl. by intros [= ->]. }
  destruct (res_ok res) eqn:Hok.
  2: { rewrite (onSubmit_try_status _ _ _ _ Hfetch Hok). simpl. by intros [= ->]. }
  rewrite (onSubmit_try_ok _ _ _ _ Hfetch Hok). cbv zeta.
  destruct (includes "text/html" _).
  { destruct (res_text res); simpl; [discriminate | by intros [= ->]]. }
  destruct (includes "application/pdf" _).
  { destruct (res_blob res); simpl; [discriminate | by intros [= ->]]. }
  discriminate.
Qed.

(** Whatever happens, a submission leaves the resolved place and the
    entered values as they were. *)
Lemma onSubmit_keeps rt data st st' :
  result (AstrologyForm.onSubmit rt data st) = Normal st' ->
  AstrologyForm.selectedPlace st' = AstrologyForm.selectedPlace st
  /\ AstrologyForm.values st' = AstrologyForm.values st.
Proof.
  destruct (AstrologyForm.selectedPlace st) as [p|] eqn:Hp.
  2: { rewrite (onSubmit_no_place _ _ _ Hp). simpl. intros [= <-]. split; [exact Hp | reflexivity]. }
  destruct (truthy (WEBHOOK_URL rt)) eqn:Hu.
  2: { rewrite (onSubmit_no_hook _ _ _ _ Hp Hu). simpl. intros [= <-]. split; [exact Hp | reflexivity]. }
  destruct (Offset.getTimezoneOffsetISO rt (timezone p) (now rt)) as [off|e] eqn:Hz.
  2: { by rewrite (onSubmit_bad_zone _ _ _ _ _ Hp Hu Hz). }
  rewrite (onSubmit_posted _ _ _ _ _ Hp Hu Hz). cbv zeta.
  destruct (result (AstrologyForm.onSubmit_try _ _ _)); simpl; intros [= <-];
    (split; [exact Hp | reflexivity]).
Qed.

(** ** Invariants of the page *)

Lemma quiet_Forall (P : Effect -> Prop) tr :
  (forall w, P (ConsoleWarn w)) -> quiet tr -> Forall P tr.
Proof. intros HP [->|[w ->]]; auto. Qed.

Lemma selectSuggestion_tidy rt suggestion st :
  Forall tidy (trace (PlaceAutocomplete.selectSuggestion rt suggestion st)).
Proof.
  destruct (selectSuggestion_run rt suggestion st) as (tr & place & -> & Hq & Htz).
  simpl. constructor; [exact I|].
  apply Forall_app. split.
  - apply quiet_Forall; [intros; exact I | exact Hq].
  - constructor; [|constructor]. simpl. rewrite Htz. apply spec_timezone_nonempty.
Qed.

Lemma handleKeyDown_tidy rt key st :
  Forall tidy (trace (PlaceAutocomplete.handleKeyDown rt key st)).
Proof.
  destruct (handleKeyDown_cases rt key st)
    as [[st' ->]|[[st' ->]|(s & _ & _ & _ & _ & ->)]].
  - constructor.
  - constructor; [exact I | constructor].
  - rewrite bind_emit. simpl. constructor; [exact I|]. apply selectSuggestion_tidy.
Qed.

Lemma handleKeyDown_unselecting rt key st :
  String.eqb key "Enter" = false ->
  Forall unselecting (trace (PlaceAutocomplete.handleKeyDown rt key st)).
Proof.
  intros Hkey.
  destruct (handleKeyDown_cases rt key st)
    as [[st' ->]|[[st' ->]|(s & -> & _)]].
  - constructor.
  - constructor; [exact I | constructor].
  - discriminate.
Qed.

Lemma item_onClick_tidy rt i st :
  Forall tidy (trace (PlaceAutocomplete.item_onClick rt i st)).
Proof.
  destruct (item_onClick_cases rt i st) as [->|(s & _ & _ & ->)]; simpl; auto.
  apply selectSuggestion_tidy.
Qed.

Lemma searchEffect_unselecting rt term st :
  Forall unselecting (trace (PlaceAutocomplete.searchEffect rt term st)).
Proof.
  destruct (searchEffect_cases rt term st) as [[_ ->]|[_ ->]]; simpl; auto.
  constructor; [exact I | constructor].
Qed.

Lemma searchPlaces_settled_unselecting outcome st :
  Forall unselecting (trace (PlaceAutocomplete.searchPlaces_settled outcome st)).
Proof.
  destruct (searchPlaces_settled_cases outcome st)
    as [(r & d & _ & _ & _ & ->)|(e & ->)]; simpl; auto.
  constructor; [exact I | constructor].
Qed.

Lemma unselecting_tidy tr : Forall unselecting tr -> Forall tidy tr.
Proof.
  intros H. eapply Forall_impl; [exact H|].
  intros [v|[p|]| | | | | | | | | | |]; simpl; tauto.
Qed.

Lemma deliver_all_tidy tr f :
  Forall tidy tr ->
  place_ok (AstrologyForm.selectedPlace f) ->
  place_ok (AstrologyForm.selectedPlace (Page.deliver_all tr f)).
Proof.
  unfold Page.deliver_all. intros Htr. revert f.
  induction Htr as [|e tr He _ IH]; intros f Hf; simpl; [exact Hf|].
  apply IH. destruct e as [v|[p|]| | | | | | | | | | |]; simpl in *; try exact Hf.
  - intros q [= <-]. exact He.
  - intros q [=].
Qed.

Lemma deliver_all_unselecting tr f :
  Forall unselecting tr ->
  AstrologyForm.selectedPlace f = None ->
  AstrologyForm.selectedPlace (Page.deliver_all tr f) = None.
Proof.
  unfold Page.deliver_all. intros Htr. revert f.
  induction Htr as [|e tr He _ IH]; intros f Hf; simpl; [exact Hf|].
  apply IH. destruct e as [v|[p|]| | | | | | | | | | |]; simpl in *; tauto.
Qed.

Lemma handleSubmit_keeps rt f f' :
  result (AstrologyForm.handleSubmit rt f) = Normal f' ->
  AstrologyForm.selectedPlace f' = AstrologyForm.selectedPlace f
  /\ AstrologyForm.values f' = AstrologyForm.values f.
Proof.
  unfold AstrologyForm.handleSubmit.
  destruct (AstrologyForm.formSchema rt (AstrologyForm.values f)) as [data|].
  - apply onSubmit_keeps.
  - simpl. by intros [= <-].
Qed.

Lemma commit_form_place rt pg :
  AstrologyForm.selectedPlace
    (Page.form (fst (Page.commit_form pg (AstrologyForm.handleSubmit rt (Page.form pg)))))
  = AstrologyForm.selectedPlace (Page.form pg).
Proof.
  simpl.
  destruct (result (AstrologyForm.handleSubmit rt (Page.form pg))) as [f'|e] eqn:Hr;
    [|reflexivity].
  by destruct (handleSubmit_keeps rt _ _ Hr).
Qed.

(** Every place the form ever holds has a zone. *)
Lemma step_place_ok rt pg ev :
  place_ok (AstrologyForm.selectedPlace (Page.form pg)) ->
  place_ok (AstrologyForm.selectedPlace (Page.form (fst (Page.step rt pg ev)))).
Proof.
  intros Hok. destruct ev as [text|v|key|i|b| |outcome| ]; simpl.
  - intros q [=].
  - exact Hok.
  - apply deliver_all_tidy; [apply handleKeyDown_tidy | exact Hok].
  - apply deliver_all_tidy; [apply item_onClick_tidy | exact Hok].
  - exact Hok.
  - unfold Page.debounceElapsed. destruct (String.eqb _ _); [exact Hok|]. simpl.
    apply deliver_all_tidy; [|exact Hok].
    apply unselecting_tidy, searchEffect_unselecting.
  - destruct (Page.inflight pg); [exact Hok|]. simpl.
    apply deliver_all_tidy; [|exact Hok].
    apply unselecting_tidy, searchPlaces_settled_unselecting.
  - change (place_ok (AstrologyForm.selectedPlace
              (Page.form (fst (Page.commit_form pg
                 (AstrologyForm.handleSubmit rt (Page.form pg))))))).
    rewrite commit_form_place. exact Hok.
Qed.

Lemma reachable_place_ok pg :
  Page.reachable pg -> place_ok (AstrologyForm.selectedPlace (Page.form pg)).
Proof.
  induction 1 as [|rt pg ev _ IH]; [intros q [=]|].
  by apply step_place_ok.
Qed.

(** No event other than a selection gesture can resolve a place. *)
Lemma step_keeps_null rt pg ev :
  Page.selects ev = false ->
  AstrologyForm.selectedPlace (Page.form pg) = None ->
  AstrologyForm.selectedPlace (Page.form (fst (Page.step rt pg ev))) = None.
Proof.
  intros Hsel Hnone. destruct ev as [text|v|key|i|b| |outcome| ]; simpl in *.
  - reflexivity.
  - exact Hnone.
  - apply deliver_all_unselecting; [by apply handleKeyDown_unselecting | exact Hnone].
  - discriminate.
  - exact Hnone.
  - unfold Page.debounceElapsed. destruct (String.eqb _ _); [exact Hnone|]. simpl.
    apply deliver_all_unselecting; [apply searchEffect_unselecting | exact Hnone].
  - destruct (Page.inflight pg); [exact Hnone|]. simpl.
    apply deliver_all_unselecting; [apply searchPlaces_settled_unselecting | exact Hnone].
  - change (AstrologyForm.selectedPlace
              (Page.form (fst (Page.commit_form pg
                 (AstrologyForm.handleSubmit rt (Page.form pg))))) = None).
    rewrite commit_form_place. exact Hnone.
Qed.

Lemma run_app pg (evs1 evs2 : list (Runtime * Page.Event)) :
  Page.run pg (evs1 ++ evs2)%list = Page.run (Page.run pg evs1) evs2.
Proof.
  revert pg. induction evs1 as [|[rt ev] evs1 IH]; intros pg; simpl; [reflexivity|].
  apply IH.
Qed.

Lemma run_reachable pg evs :
  Page.reachable pg -> Page.reachable (Page.run pg evs).
Proof.
  revert pg. induction evs as [|[rt ev] evs IH]; intros pg H; simpl; [exact H|].
  apply IH. by constructor.
Qed.

Lemma reachable_run pg :
  Page.reachable pg -> exists evs, pg = Page.run Page.initial evs.
Proof.
  induction 1 as [|rt pg ev _ [evs ->]]; [by exists []|].
  exists (evs ++ [(rt, ev)])%list. by rewrite run_app.
Qed.

Lemma run_keeps_null pg evs :
  Forall (fun o => Page.selects (snd o) = false) evs ->
  AstrologyForm.selectedPlace (Page.form pg) = None ->
  AstrologyForm.selectedPlace (Page.form (Page.run pg evs)) = None.
Proof.
  intros Hevs. revert pg.
  induction Hevs as [|[rt ev] evs Hev _ IH]; intros pg Hnone; simpl; [exact Hnone|].
  apply IH. by apply step_keeps_null.
Qed.

(** ** The claims *)

(** C2.  The second tier of the claim does not happen.  The component
    binds [tzlookup] by [import * as tzlookup from 'tz-lookup'], so the
    name stands for the module namespace object and not for the function
    of tz-lookup: the call in [getTimezone] throws a [TypeError] for
    every pair of coordinates, the [catch] logs the warning and "UTC" is
    returned.  For a feature that carries no provider timezone and whose
    coordinates the function of tz-lookup resolves to
    "America/Sao_Paulo", the zone that the claim gives, [getTimezone]
    returns "UTC" and [selectSuggestion] hands over a place whose
    timezone is "UTC"; without a provider timezone the result is "UTC"
    whatever tz-lookup would answer.  The rest of the claim stands: a
    name supplied by the provider is returned verbatim, and the function
    always returns a non-empty string and throws nothing. *)
Theorem C2_lookup_never_called :
  let rt := Examples.with_tz_lookup (Normal "America/Sao_Paulo") Examples.rt0 in
  let santos := Examples.bare "Santos" in
  tz_lookup rt (prop_lat santos) (prop_lon santos) = Normal "America/Sao_Paulo"
  /\ spec_timezone (prop_timezone santos ≫= tz_name)
       (tz_lookup rt (prop_lat santos) (prop_lon santos)) = "America/Sao_Paulo"
  /\ (exists warning,
        PlaceAutocomplete.getTimezone rt (prop_lat santos) (prop_lon santos)
          (prop_timezone santos ≫= tz_name)
        = MkRun [ConsoleWarn warning] (Normal "UTC"))
  /\ (exists warning place,
        trace (PlaceAutocomplete.selectSuggestion rt santos PlaceAutocomplete.initial)
        = [PropOnChange "Santos, SP, Brasil"; ConsoleWarn warning;
           PropOnPlaceSelect (Some place)]
        /\ timezone place = "UTC")
  /\ (forall rt' lat lon,
        result (PlaceAutocomplete.getTimezone rt' lat lon None) = Normal "UTC"
        /\ result (PlaceAutocomplete.getTimezone rt' lat lon (Some "")) = Normal "UTC")
  /\ (forall rt' lat lon c name,
        PlaceAutocomplete.getTimezone rt' lat lon (Some (String c name))
        = MkRun [] (Normal (String c name)))
  /\ (forall rt' lat lon apiTimezone,
        exists tz,
          result (PlaceAutocomplete.getTimezone rt' lat lon apiTimezone) = Normal tz
          /\ tz <> "").
Proof.
  cbv zeta. split; [reflexivity|]. split; [reflexivity|].
  split; [eexists; reflexivity|].
  split; [|split; [|split]].
  - eexists _, _. split; reflexivity.
  - intros rt' lat lon. split; reflexivity.
  - reflexivity.
  - intros rt' lat lon api.
    destruct (getTimezone_run rt' lat lon api) as (tr & -> & _).
    eexists. split; [reflexivity | apply spec_timezone_nonempty].
Qed.

(** C3.  The submit button is disabled if and only if the validation of
    the form fields fails, or no place is resolved, or the resolved
    place has an empty timezone.  When [onSubmit] runs with no resolved
    place it sets an error on the field birthPlace and returns with no
    effect at all, so without any network request. *)
Theorem C3_submit_gate rt st :
  (AstrologyForm.submit_disabled rt st = true <->
     AstrologyForm.formState_isValid rt st = false
     \/ AstrologyForm.selectedPlace st = None
     \/ (exists p, AstrologyForm.selectedPlace st = Some p /\ timezone p = ""))
  /\ (forall data,
        AstrologyForm.selectedPlace st = None ->
        exists message,
          AstrologyForm.onSubmit rt data st
            = MkRun [] (Normal (AstrologyForm.form_setError_birthPlace message st))
          /\ AstrologyForm.errors_birthPlace
               (AstrologyForm.form_setError_birthPlace message st) = Some message
          /\ message <> "").
Proof.
  split.
  - unfold AstrologyForm.submit_disabled, AstrologyForm.isFormValid.
    destruct (AstrologyForm.formState_isValid rt st); simpl.
    2: { split; auto. }
    destruct (AstrologyForm.selectedPlace st) as [p|]; simpl.
    2: { split; auto. }
    destruct (timezone p) as [|ch tz] eqn:Htz; simpl; split.
    + intros _. right. right. exists p. by split.
    + reflexivity.
    + discriminate.
    + intros [H|[H|(q & [= <-] & H)]]; congruence.
  - intros data Hnone. exists MSG_SELECT.
    split; [by apply onSubmit_no_place|]. split; [reflexivity | discriminate].
Qed.

Lemma C3_witness :
  exists message,
    AstrologyForm.onSubmit Examples.rt0 (Examples.data (-180)) (Examples.filled (-180) None)
      = MkRun [] (Normal (AstrologyForm.form_setError_birthPlace message
                            (Examples.filled (-180) None)))
    /\ AstrologyForm.errors_birthPlace
         (AstrologyForm.form_setError_birthPlace message (Examples.filled (-180) None))
       = Some message
    /\ message <> "".
Proof.
  apply (proj2 (C3_submit_gate Examples.rt0 (Examples.filled (-180) None))).
  reflexivity.
Defined.

(** C4.  Every edit of the place text field notifies the caller with a
    null place, whatever was resolved before: the form holds no place
    right after the edit, and it holds none in any state reached from
    there by events that are not a selection gesture (a click on a
    suggestion or the Enter key).  So a non-null [selectedPlace] means
    that no edit has occurred since the last selection. *)
Theorem C4_edit_discards_place :
  (forall text,
      PlaceAutocomplete.input_onChange text
        = MkRun [PropOnChange text; PropOnPlaceSelect None] (Normal tt))
  /\ (forall rt pg text,
        AstrologyForm.selectedPlace
          (Page.form (fst (Page.step rt pg (Page.InputChange text)))) = None)
  /\ (forall before rt text after,
        Forall (fun o => Page.selects (snd o) = false) after ->
        AstrologyForm.selectedPlace
          (Page.form (Page.run Page.initial
                        (before ++ (rt, Page.InputChange text) :: after)%list)) = None).
Proof.
  split; [reflexivity|]. split; [reflexivity|].
  intros before rt text after Hafter.
  rewrite run_app. simpl.
  apply run_keeps_null; [exact Hafter | reflexivity].
Qed.

Lemma C4_witness :
  AstrologyForm.selectedPlace (Page.form Examples.selected_page) <> None
  /\ AstrologyForm.selectedPlace
       (Page.form (Page.run Page.initial
          (Examples.select_events
             ++ (Examples.rt0, Page.InputChange "Santos, Brasi")
             :: [(Examples.rt0, Page.DebounceElapsed);
                 (Examples.rt0, Page.SearchSettled (Examples.found Examples.three));
                 (Examples.rt0, Page.KeyDown "ArrowDown");
                 (Examples.rt0, Page.BlurTimeout false);
                 (Examples.rt0, Page.Submit)])%list)) = None.
Proof.
  split; [discriminate|].
  apply (proj2 (proj2 C4_edit_discards_place)).
  repeat constructor.
Defined.

(** C7.  For every debounced query shorter than 2 characters the search
    effect issues no geocoding request (it has no effect outside the
    component), empties the suggestion list and closes the dropdown. *)
Theorem C7_short_query_no_search rt term st :
  (String.length term < 2)%nat ->
  exists st',
    PlaceAutocomplete.searchEffect rt term st = MkRun [] (Normal st')
    /\ PlaceAutocomplete.suggestions st' = []
    /\ PlaceAutocomplete.isOpen st' = false
    /\ PlaceAutocomplete.isLoading st' = PlaceAutocomplete.isLoading st
    /\ PlaceAutocomplete.selectedIndex st' = PlaceAutocomplete.selectedIndex st.
Proof.
  intros Hlen.
  destruct (searchEffect_cases rt term st) as [[_ ->]|[Hge _]]; [|lia].
  eexists. split; [reflexivity|]. repeat split.
Qed.

Lemma C7_witness :
  exists st',
    PlaceAutocomplete.searchEffect Examples.rt0 "s"
      (PlaceAutocomplete.mkState Examples.three false true 1) = MkRun [] (Normal st')
    /\ PlaceAutocomplete.suggestions st' = []
    /\ PlaceAutocomplete.isOpen st' = false
    /\ PlaceAutocomplete.isLoading st' = false
    /\ PlaceAutocomplete.selectedIndex st' = 1.
Proof.
  apply (C7_short_query_no_search Examples.rt0 "s"
           (PlaceAutocomplete.mkState Examples.three false true 1)).
  simpl. lia.
Defined.

Lemma hook_configured rt url :
  WEBHOOK_URL rt = Some url -> url <> "" ->
  truthy (WEBHOOK_URL rt) = true /\ nullish (WEBHOOK_URL rt) "" = url.
Proof. intros -> Hurl. destruct url; [congruence | by split]. Qed.



(** C6.  When the POST itself fails, or the webhook answers with a
    status that is not a success, the error is caught inside [onSubmit]:
    it is logged, the user sees exactly one alert with the generic
    message, the POST is the only request (no retry), and the function
    completes normally with the state it was given.  The same holds for
    any other error thrown while the response is handled.  In every case
    a submission leaves the entered values and the resolved place as
    they were. *)
Theorem C6_failure_one_alert rt data st p off url :
  AstrologyForm.selectedPlace st = Some p ->
  WEBHOOK_URL rt = Some url -> url <> "" ->
  Offset.getTimezoneOffsetISO rt (timezone p) (now rt) = Normal off ->
  let payload := AstrologyForm.make_payload rt data p off in
  (forall e,
      fetch_post rt url payload = Throw e ->
      AstrologyForm.onSubmit rt data st
        = MkRun [FetchPost url payload; ConsoleError e; Alert MSG_FAILED] (Normal st))
  /\ (forall res,
        fetch_post rt url payload = Normal res -> res_ok res = false ->
        exists e,
          AstrologyForm.onSubmit rt data st
            = MkRun [FetchPost url payload; ConsoleError e; Alert MSG_FAILED] (Normal st))
  /\ (forall e,
        result (AstrologyForm.onSubmit_try rt url payload) = Throw e ->
        AstrologyForm.onSubmit rt data st
          = MkRun [FetchPost url payload; ConsoleError e; Alert MSG_FAILED] (Normal st))
  /\ (forall pg,
        AstrologyForm.values (Page.form (fst (Page.step rt pg Page.Submit)))
          = AstrologyForm.values (Page.form pg)
        /\ AstrologyForm.selectedPlace (Page.form (fst (Page.step rt pg Page.Submit)))
           = AstrologyForm.selectedPlace (Page.form pg)).
Proof.
  intros Hp Hurl Hne Hoff payload.
  destruct (hook_configured rt url Hurl Hne) as [Ht Hn].
  pose proof (onSubmit_posted rt data st p off Hp Ht Hoff) as Hrun.
  cbv zeta in Hrun. rewrite Hn in Hrun. fold payload in Hrun.
  repeat split.
  - intros e Hfetch. rewrite Hrun, (onSubmit_try_rejected _ _ _ _ Hfetch). reflexivity.
  - intros res Hfetch Hok. eexists.
    rewrite Hrun, (onSubmit_try_status _ _ _ _ Hfetch Hok). reflexivity.
  - intros e Hthrown. rewrite Hrun, (onSubmit_try_thrown _ _ _ _ Hthrown). reflexivity.
  - simpl. destruct (result (AstrologyForm.handleSubmit rt (Page.form pg))) as [f'|e] eqn:Hr;
      [|reflexivity].
    by destruct (handleSubmit_keeps rt _ _ Hr).
  - apply commit_form_place.
Qed.

Lemma C6_witness :
  (let rt := Examples.browser (-180) Examples.hook (Throw "TypeError: Failed to fetch") in
   let st := Examples.filled (-180) (Some Examples.sao_paulo) in
   AstrologyForm.onSubmit rt (Examples.data (-180)) st
   = MkRun [FetchPost "https://n8n.example/webhook/mapa"
              (AstrologyForm.make_payload rt (Examples.data (-180)) Examples.sao_paulo
                 "-03:00");
            ConsoleError "TypeError: Failed to fetch"; Alert MSG_FAILED] (Normal st))
  /\ (let rt := Examples.browser (-180) Examples.hook (Normal Examples.error_response) in
      let st := Examples.filled (-180) (Some Examples.sao_paulo) in
      exists e,
        AstrologyForm.onSubmit rt (Examples.data (-180)) st
        = MkRun [FetchPost "https://n8n.example/webhook/mapa"
                   (AstrologyForm.make_payload rt (Examples.data (-180)) Examples.sao_paulo
                      "-03:00");
                 ConsoleError e; Alert MSG_FAILED] (Normal st)).
Proof.
  split; cbv zeta.
  - apply (proj1 (C6_failure_one_alert
                    (Examples.browser (-180) Examples.hook (Throw "TypeError: Failed to fetch"))
                    (Examples.data (-180))
                    (Examples.filled (-180) (Some Examples.sao_paulo))
                    Examples.sao_paulo "-03:00" "https://n8n.example/webhook/mapa"
                    eq_refl eq_refl ltac:(discriminate) eq_refl)).
    reflexivity.
  - apply (proj1 (proj2 (C6_failure_one_alert
                    (Examples.browser (-180) Examples.hook (Normal Examples.error_response))
                    (Examples.data (-180))
                    (Examples.filled (-180) (Some Examples.sao_paulo))
                    Examples.sao_paulo "-03:00" "https://n8n.example/webhook/mapa"
                    eq_refl eq_refl ltac:(discriminate) eq_refl))
             Examples.error_response eq_refl eq_refl).
Defined.

(** ** The keyboard *)

Lemma selectSuggestion_place rt suggestion st place :
  In (PropOnPlaceSelect (Some place))
    (trace (PlaceAutocomplete.selectSuggestion rt suggestion st)) ->
  placeId place = prop_place_id suggestion
  /\ lat place = prop_lat suggestion /\ lon place = prop_lon suggestion.
Proof.
  unfold PlaceAutocomplete.selectSuggestion.
  destruct (getTimezone_run rt (prop_lat suggestion) (prop_lon suggestion)
              (prop_timezone suggestion ≫= tz_name)) as (tr & Hrun & Hq).
  rewrite Hrun. rewrite bind_emit. simpl.
  intros [H|H]; [discriminate|].
  apply in_app_or in H. destruct H as [H|[H|[]]].
  - destruct Hq as [->|[w ->]]; simpl in H; [tauto|]. destruct H as [H|[]]. discriminate.
  - injection H as <-. by repeat split.
Qed.

Lemma selectSuggestion_result rt suggestion st :
  result (PlaceAutocomplete.selectSuggestion rt suggestion st)
    = Normal (PlaceAutocomplete.setIsOpen false st).
Proof. by destruct (selectSuggestion_run rt suggestion st) as (tr & place & -> & _). Qed.

(** C8 (as amended).  While the dropdown is closed every key leaves the
    state alone.  While it is open the handler follows the keyboard
    table: Up lowers the highlighted index by 1 and stops at -1; Enter
    performs Selection on the highlighted suggestion when one is
    highlighted; Escape closes the dropdown and resets the index to -1;
    Down raises the index by 1 when it is below the last suggestion and
    leaves it unchanged otherwise.  That is the table's clamp to the last
    suggestion in every state whose index is not already past the last
    suggestion; an index past the end of the list stays where it is. *)
Theorem C8_keyboard_transition rt key st :
  (exists st',
      result (PlaceAutocomplete.handleKeyDown rt key st) = Normal st'
      /\ PlaceAutocomplete.suggestions st' = PlaceAutocomplete.suggestions st
      /\ PlaceAutocomplete.isLoading st' = PlaceAutocomplete.isLoading st
      /\ (PlaceAutocomplete.selectedIndex st', PlaceAutocomplete.isOpen st')
         = if PlaceAutocomplete.isOpen st && String.eqb key "ArrowDown"
              && (last_index st <? PlaceAutocomplete.selectedIndex st)
           then (PlaceAutocomplete.selectedIndex st, true)
           else spec_key_transition key (last_index st) (highlighted st)
                  (PlaceAutocomplete.selectedIndex st, PlaceAutocomplete.isOpen st))
  /\ (PlaceAutocomplete.isOpen st = false ->
      PlaceAutocomplete.handleKeyDown rt key st = MkRun [] (Normal st))
  /\ (forall suggestion,
        PlaceAutocomplete.isOpen st = true ->
        0 <= PlaceAutocomplete.selectedIndex st ->
        PlaceAutocomplete.suggestions st
          !! Z.to_nat (PlaceAutocomplete.selectedIndex st) = Some suggestion ->
        PlaceAutocomplete.handleKeyDown rt "Enter" st
          = (emit PreventDefault;; PlaceAutocomplete.selectSuggestion rt suggestion st)).
Proof.
  split; [|split].
  - unfold PlaceAutocomplete.handleKeyDown, spec_key_transition, last_index, highlighted.
    destruct (PlaceAutocomplete.isOpen st) eqn:Hopen; cbn [negb andb].
    2: { exists st. rewrite Hopen. by repeat split. }
    destruct (String.eqb key "ArrowDown").
    { eexists. split; [reflexivity|]. cbn [andb]. repeat split. simpl. rewrite Hopen.
      destruct (Z.ltb_spec (PlaceAutocomplete.selectedIndex st)
                  (PlaceAutocomplete.suggestions_length st - 1)),
               (Z.ltb_spec (PlaceAutocomplete.suggestions_length st - 1)
                  (PlaceAutocomplete.selectedIndex st)); f_equal; lia. }
    cbn [andb].
    destruct (String.eqb key "ArrowUp").
    { eexists. split; [reflexivity|]. repeat split. simpl. rewrite Hopen.
      destruct (Z.gtb_spec (PlaceAutocomplete.selectedIndex st) 0); f_equal; lia. }
    destruct (String.eqb key "Enter").
    { rewrite bind_emit. cbn [result].
      unfold PlaceAutocomplete.suggestion_at.
      destruct (Z.geb_spec (PlaceAutocomplete.selectedIndex st) 0) as [Hge|Hlt].
      - destruct (Z.ltb_spec (PlaceAutocomplete.selectedIndex st) 0); [lia|].
        destruct (Z.leb_spec 0 (PlaceAutocomplete.selectedIndex st)); [|lia].
        destruct (PlaceAutocomplete.suggestions st
                    !! Z.to_nat (PlaceAutocomplete.selectedIndex st)) as [s|] eqn:Hs.
        + rewrite selectSuggestion_result. eexists. split; [reflexivity|].
          repeat split.
        + exists st. rewrite Hopen. repeat split.
      - destruct (Z.leb_spec 0 (PlaceAutocomplete.selectedIndex st)); [lia|].
        exists st. rewrite Hopen. repeat split. }
    destruct (String.eqb key "Escape").
    { eexists. split; [reflexivity|]. repeat split. }
    exists st. rewrite Hopen. repeat split.
  - intros Hopen. unfold PlaceAutocomplete.handleKeyDown. by rewrite Hopen.
  - intros s Hopen Hge Hs. unfold PlaceAutocomplete.handleKeyDown.
    rewrite Hopen. cbn [negb]. simpl String.eqb. cbv iota.
    unfold PlaceAutocomplete.suggestion_at.
    destruct (Z.geb_spec (PlaceAutocomplete.selectedIndex st) 0); [|lia].
    destruct (Z.ltb_spec (PlaceAutocomplete.selectedIndex st) 0); [lia|].
    by rewrite Hs.
Qed.

(** C8, as first stated, fails in a reachable state: after a search
    that failed while the third of three suggestions was highlighted,
    the dropdown is open, the list is empty and the index is still 2.
    Down leaves the index at 2; the table's clamp to the last suggestion
    would give -1. *)
Lemma C8_counterexample :
  Page.reachable Examples.stale_page
  /\ PlaceAutocomplete.isOpen (Page.ac Examples.stale_page) = true
  /\ PlaceAutocomplete.suggestions (Page.ac Examples.stale_page) = []
  /\ PlaceAutocomplete.selectedIndex (Page.ac Examples.stale_page) = 2
  /\ key_transition Examples.rt0 "ArrowDown" (Page.ac Examples.stale_page)
     = Some (2, true)
  /\ spec_key_transition "ArrowDown" (last_index (Page.ac Examples.stale_page))
       (highlighted (Page.ac Examples.stale_page)) (2, true)
     = (-1, true)
  /\ key_transition Examples.rt0 "ArrowDown" (Page.ac Examples.stale_page)
     <> Some (spec_key_transition "ArrowDown" (last_index (Page.ac Examples.stale_page))
                (highlighted (Page.ac Examples.stale_page))
                (PlaceAutocomplete.selectedIndex (Page.ac Examples.stale_page),
                 PlaceAutocomplete.isOpen (Page.ac Examples.stale_page))).
Proof.
  split; [apply run_reachable; constructor|].
  repeat split; try reflexivity. discriminate.
Qed.

Lemma C8_witness :
  PlaceAutocomplete.handleKeyDown Examples.rt0 "ArrowDown"
    (PlaceAutocomplete.mkState Examples.three false false 1)
  = MkRun [] (Normal (PlaceAutocomplete.mkState Examples.three false false 1))
  /\ PlaceAutocomplete.handleKeyDown Examples.rt0 "Enter"
       (PlaceAutocomplete.mkState Examples.three false true 1)
     = (emit PreventDefault;;
        PlaceAutocomplete.selectSuggestion Examples.rt0
          (Examples.suggestion "Santarem" "America/Santarem")
          (PlaceAutocomplete.mkState Examples.three false true 1)).
Proof.
  split.
  - apply (proj1 (proj2 (C8_keyboard_transition Examples.rt0 "ArrowDown"
                           (PlaceAutocomplete.mkState Examples.three false false 1)))).
    reflexivity.
  - apply (proj2 (proj2 (C8_keyboard_transition Examples.rt0 "Enter"
                           (PlaceAutocomplete.mkState Examples.three false true 1)))).
    + reflexivity.
    + simpl. lia.
    + reflexivity.
Defined.

(** C10.  Enter never selects an entry that is not in the list.  When
    the dropdown is open and the index is 0 or more but no suggestion
    exists at it, Enter changes nothing and calls nothing back; whenever
    Enter does hand a place to the form, it is built from the suggestion
    that stands at the index.  Such a state, an index pointing past the
    list, is reachable: a failed search empties the list and keeps the
    index. *)
Theorem C10_enter_guard :
  (forall rt st,
      PlaceAutocomplete.isOpen st = true ->
      0 <= PlaceAutocomplete.selectedIndex st ->
      PlaceAutocomplete.suggestions st
        !! Z.to_nat (PlaceAutocomplete.selectedIndex st) = None ->
      PlaceAutocomplete.handleKeyDown rt "Enter" st = MkRun [PreventDefault] (Normal st))
  /\ (forall rt st place,
        In (PropOnPlaceSelect (Some place))
          (trace (PlaceAutocomplete.handleKeyDown rt "Enter" st)) ->
        exists suggestion,
          0 <= PlaceAutocomplete.selectedIndex st
          /\ PlaceAutocomplete.suggestions st
               !! Z.to_nat (PlaceAutocomplete.selectedIndex st) = Some suggestion
          /\ placeId place = prop_place_id suggestion)
  /\ (exists pg,
        Page.reachable pg
        /\ PlaceAutocomplete.isOpen (Page.ac pg) = true
        /\ 0 <= PlaceAutocomplete.selectedIndex (Page.ac pg)
        /\ PlaceAutocomplete.suggestions (Page.ac pg)
             !! Z.to_nat (PlaceAutocomplete.selectedIndex (Page.ac pg)) = None).
Proof.
  split; [|split].
  - intros rt st Hopen Hge Hnone. unfold PlaceAutocomplete.handleKeyDown.
    rewrite Hopen. cbn [negb]. simpl String.eqb. cbv iota.
    unfold PlaceAutocomplete.suggestion_at.
    destruct (Z.geb_spec (PlaceAutocomplete.selectedIndex st) 0); [|lia].
    destruct (Z.ltb_spec (PlaceAutocomplete.selectedIndex st) 0); [lia|].
    by rewrite Hnone.
  - intros rt st place Hin.
    destruct (handleKeyDown_cases rt "Enter" st)
      as [[st' Hrun]|[[st' Hrun]|(s & _ & _ & Hge & Hs & Hrun)]];
      rewrite Hrun in Hin.
    + destruct Hin.
    + destruct Hin as [H|[]]. discriminate.
    + rewrite bind_emit in Hin. simpl in Hin. destruct Hin as [H|Hin]; [discriminate|].
      exists s. repeat split; auto.
      by destruct (selectSuggestion_place rt s st place Hin).
  - exists Examples.stale_page.
    split; [apply run_reachable; constructor|].
    repeat split. simpl. lia.
Qed.

Lemma C10_witness :
  PlaceAutocomplete.handleKeyDown Examples.rt0 "Enter" (Page.ac Examples.stale_page)
  = MkRun [PreventDefault] (Normal (Page.ac Examples.stale_page)).
Proof.
  apply (proj1 C10_enter_guard Examples.rt0 (Page.ac Examples.stale_page)).
  - reflexivity.
  - simpl. lia.
  - reflexivity.
Defined.

(** ** The missing webhook *)

Lemma selectSuggestion_effects rt suggestion st :
  Forall from_autocomplete (trace (PlaceAutocomplete.selectSuggestion rt suggestion st)).
Proof.
  destruct (selectSuggestion_run rt suggestion st) as (tr & place & -> & Hq & _).
  simpl. constructor; [exact I|].
  apply Forall_app. split.
  - apply quiet_Forall; [intros; exact I | exact Hq].
  - constructor; [exact I | constructor].
Qed.

Lemma step_effects rt pg ev :
  ev <> Page.Submit -> Forall from_autocomplete (snd (Page.step rt pg ev)).
Proof.
  intros Hev. destruct ev as [text|v|key|i|b| |outcome| ]; simpl.
  - repeat constructor.
  - constructor.
  - destruct (handleKeyDown_cases rt key (Page.ac pg))
      as [[st' ->]|[[st' ->]|(s & _ & _ & _ & _ & ->)]].
    + constructor.
    + repeat constructor.
    + rewrite bind_emit. simpl. constructor; [exact I|]. apply selectSuggestion_effects.
  - destruct (item_onClick_cases rt i (Page.ac pg)) as [->|(s & _ & _ & ->)].
    + constructor.
    + apply selectSuggestion_effects.
  - constructor.
  - unfold Page.debounceElapsed. destruct (String.eqb _ _); [constructor|]. simpl.
    destruct (searchEffect_cases rt (Page.value pg) (Page.ac pg)) as [[_ ->]|[_ ->]];
      repeat constructor.
  - destruct (Page.inflight pg); [constructor|]. simpl.
    destruct (searchPlaces_settled_cases outcome (Page.ac pg))
      as [(r & d & _ & _ & _ & ->)|(e & ->)]; repeat constructor.
  - congruence.
Qed.

(** C9 (as amended).  If the webhook URL is absent when [onSubmit] runs
    with a resolved place, the submission is aborted with an alert (and a
    console error) and nothing else happens.  With the URL absent no
    POST is issued in any case.  The condition is found at submission
    time: no event other than a submission ever raises an alert. *)
Theorem C9_missing_hook rt data st :
  truthy (WEBHOOK_URL rt) = false ->
  (forall p,
      AstrologyForm.selectedPlace st = Some p ->
      AstrologyForm.onSubmit rt data st
        = MkRun [ConsoleError LOG_NO_HOOK; Alert MSG_NO_HOOK] (Normal st))
  /\ (forall url body,
        ~ In (FetchPost url body) (trace (AstrologyForm.onSubmit rt data st)))
  /\ (forall pg ev message,
        In (Alert message) (snd (Page.step rt pg ev)) -> ev = Page.Submit).
Proof.
  intros Hhook. split; [|split].
  - intros p Hp. by apply onSubmit_no_hook with p.
  - intros url body.
    destruct (AstrologyForm.selectedPlace st) as [p|] eqn:Hp.
    + rewrite (onSubmit_no_hook rt data st p Hp Hhook). simpl.
      intros [H|[H|[]]]; discriminate.
    + rewrite (onSubmit_no_place rt data st Hp). simpl. tauto.
  - intros pg ev message Hin.
    assert (Hdec : ev = Page.Submit \/ ev <> Page.Submit)
      by (destruct ev; (by left) || (by right)).
    destruct Hdec as [|Hne]; [assumption|].
    pose proof (step_effects rt pg ev Hne) as Hall.
    destruct (proj1 (List.Forall_forall _ _) Hall _ Hin).
Qed.

Lemma C9_witness :
  let rt := Examples.browser (-180) None (Normal Examples.html_response) in
  let st := Examples.filled (-180) (Some Examples.sao_paulo) in
  AstrologyForm.onSubmit rt (Examples.data (-180)) st
  = MkRun [ConsoleError LOG_NO_HOOK; Alert MSG_NO_HOOK] (Normal st).
Proof.
  cbv zeta.
  apply (proj1 (C9_missing_hook
                  (Examples.browser (-180) None (Normal Examples.html_response))
                  (Examples.data (-180))
                  (Examples.filled (-180) (Some Examples.sao_paulo)) eq_refl)
           Examples.sao_paulo eq_refl).
Defined.

(** C9, as first stated, fails when no place is resolved: with the
    webhook URL absent, [onSubmit] stops at its first guard, sets the
    field error and shows no alert. *)
Lemma C9_counterexample :
  let rt := Examples.browser (-180) None (Normal Examples.html_response) in
  let st := Examples.filled (-180) None in
  WEBHOOK_URL rt = None
  /\ AstrologyForm.onSubmit rt (Examples.data (-180)) st
     = MkRun [] (Normal (AstrologyForm.form_setError_birthPlace MSG_SELECT st))
  /\ ~ (exists message,
          In (Alert message) (trace (AstrologyForm.onSubmit rt (Examples.data (-180)) st))).
Proof.
  cbv zeta. split; [reflexivity|]. split; [reflexivity|].
  intros [message []].
Qed.

(** * Further properties *)

(** ** Bounded checks *)

Lemma forall_below_spec n f :
  forall_below n f = true -> forall x, 0 <= x < Z.of_nat n -> f x = true.
Proof.
  induction n as [|k IH]; simpl; intros H x Hx; [lia|].
  apply andb_prop in H. destruct H as [Hk Hrest].
  destruct (Z.eq_dec x (Z.of_nat k)) as [->|Hne]; [exact Hk|].
  apply IH; [exact Hrest | lia].
Qed.

Lemma option_Z_eqb_eq (a : option Z) (b : Z) :
  (match a with Some v => v =? b | None => false end) = true -> a = Some b.
Proof. destruct a as [v|]; [|discriminate]. intros H. f_equal. lia. Qed.

(** ** The offset string *)

(** A number below 100 is padded to two digits that denote it. *)
Lemma pad2_two_digits h :
  0 <= h < 100 ->
  exists a b,
    padStart 2 "0" (String_ h) = String a (String b "")
    /\ AstrologyForm.is_digit a = true /\ AstrologyForm.is_digit b = true
    /\ 10 * digit_value a + digit_value b = h
    /\ (h < 60 -> AstrologyForm.digit_upto 5 a = true).
Proof.
  intros Hh.
  pose proof (forall_below_spec 100
    (fun h => match padStart 2 "0" (String_ h) with
              | String a (String b EmptyString) =>
                  AstrologyForm.is_digit a && AstrologyForm.is_digit b
                  && (10 * digit_value a + digit_value b =? h)
                  && ((60 <=? h) || AstrologyForm.digit_upto 5 a)
              | _ => false
              end)
    ltac:(vm_compute; reflexivity) h ltac:(lia)) as Hall.
  cbv beta in Hall.
  destruct (padStart 2 "0" (String_ h)) as [|a [|b [|c r]]]; try discriminate Hall.
  rewrite !andb_true_iff, orb_true_iff, Z.eqb_eq, Z.leb_le in Hall.
  destruct Hall as (((Ha & Hb) & Hv) & H5).
  exists a, b. repeat split; auto. intros Hlt. destruct H5 as [H5|H5]; [lia | exact H5].
Qed.

(** Every offset of less than a hundred hours is rendered as a string
    that reads back as the same number of minutes. *)
Lemma decode_spec_isoOffset m :
  -6000 < m < 6000 -> decode_iso_offset (Offset.spec_isoOffset m) = Some m.
Proof.
  intros Hm. unfold Offset.spec_isoOffset.
  destruct (pad2_two_digits (Z.abs m / 60)
              ltac:(split; [apply Z.div_pos; lia | apply Z.div_lt_upper_bound; lia]))
    as (h1 & h2 & -> & Hh1 & Hh2 & Hh & _).
  pose proof (Z.mod_pos_bound (Z.abs m) 60 ltac:(lia)) as Hmod.
  destruct (pad2_two_digits (Z.abs m mod 60) ltac:(lia))
    as (m1 & m2 & -> & Hm1 & Hm2 & Hmm & H5).
  specialize (H5 ltac:(lia)).
  pose proof (Z.div_mod (Z.abs m) 60 ltac:(lia)) as Hdm.
  destruct (Z.leb_spec 0 m).
  - change (decode_iso_offset
              (String "+" (String h1 (String h2 (String ":" (String m1 (String m2 ""))))))
            = Some m).
    unfold decode_iso_offset. rewrite Hh1, Hh2, H5, Hm2.
    cbn [Ascii.eqb Bool.eqb andb orb]. f_equal. lia.
  - change (decode_iso_offset
              (String "-" (String h1 (String h2 (String ":" (String m1 (String m2 ""))))))
            = Some m).
    unfold decode_iso_offset. rewrite Hh1, Hh2, H5, Hm2.
    cbn [Ascii.eqb Bool.eqb andb orb]. f_equal. lia.
Qed.

(** X1.  In a browser whose zone keeps a fixed offset of [B] minutes,
    [getTimezoneOffsetISO] returns, for a zone known to the runtime
    whose offset at the instant is [z], a well-formed signed HH:MM
    string, and that string reads back as [2 * B - z] minutes. *)
Theorem X1_offset_string_value rt zone off t B :
  zoneOffset rt zone = Some off ->
  (forall x, hostOffsetAt rt x = B) ->
  (forall x, hostOffsetOfWall rt x = B) ->
  -6000 < 2 * B - off t < 6000 ->
  exists s,
    Offset.getTimezoneOffsetISO rt zone t = Normal s
    /\ decode_iso_offset s = Some (2 * B - off t).
Proof.
  intros Hz HB HW Hrange.
  exists (Offset.spec_isoOffset (2 * B - off t)). split.
  - by apply getTimezoneOffsetISO_fixed_host.
  - by apply decode_spec_isoOffset.
Qed.

Lemma X1_witness :
  exists s,
    Offset.getTimezoneOffsetISO (Examples.browser 60 Examples.hook (Normal Examples.html_response))
      "Asia/Tokyo" Examples.submission_instant = Normal s
    /\ decode_iso_offset s = Some (2 * 60 - 540).
Proof.
  apply (X1_offset_string_value
           (Examples.browser 60 Examples.hook (Normal Examples.html_response))
           "Asia/Tokyo" (fun _ => 540) Examples.submission_instant 60).
  - reflexivity.
  - reflexivity.
  - reflexivity.
  - lia.
Defined.

(** X2.  Under the same conditions the string is the zone's own offset
    exactly when the browser's offset equals the zone's offset. *)
Theorem X2_offset_right_iff_same_offset rt zone off t B :
  zoneOffset rt zone = Some off ->
  (forall x, hostOffsetAt rt x = B) ->
  (forall x, hostOffsetOfWall rt x = B) ->
  -6000 < 2 * B - off t < 6000 ->
  -6000 < off t < 6000 ->
  (Offset.getTimezoneOffsetISO rt zone t = Normal (Offset.spec_isoOffset (off t))
   <-> B = off t).
Proof.
  intros Hz HB HW Hrange Hoff.
  rewrite (getTimezoneOffsetISO_fixed_host rt zone off t B Hz HB HW).
  split.
  - intros [= Heq].
    pose proof (decode_spec_isoOffset _ Hrange) as H1.
    pose proof (decode_spec_isoOffset _ Hoff) as H2.
    rewrite Heq, H2 in H1. injection H1. lia.
  - intros ->. do 2 f_equal. lia.
Qed.

Lemma X2_witness :
  (Offset.getTimezoneOffsetISO Examples.rt0 "America/Sao_Paulo" Examples.submission_instant
   = Normal (Offset.spec_isoOffset (-180))
   <-> -180 = -180)
  /\ (Offset.getTimezoneOffsetISO Examples.rt0 "Europe/Lisbon" Examples.submission_instant
      = Normal (Offset.spec_isoOffset 60)
      <-> -180 = 60).
Proof.
  split.
  - apply (X2_offset_right_iff_same_offset Examples.rt0 "America/Sao_Paulo"
             (fun _ => -180) Examples.submission_instant (-180));
      (reflexivity || lia).
  - apply (X2_offset_right_iff_same_offset Examples.rt0 "Europe/Lisbon"
             (fun _ => 60) Examples.submission_instant (-180));
      (reflexivity || lia).
Defined.

(** ** Submission: what can and cannot happen *)

(** X3.  The offset is computed before the [try] block.  If the
    timezone of the resolved place is not a zone the runtime knows,
    [getTimezoneOffsetISO] throws and the exception leaves [onSubmit]:
    nothing is posted, nothing is logged and no alert is shown. *)
Theorem X3_unknown_zone_escapes rt data st p :
  AstrologyForm.selectedPlace st = Some p ->
  truthy (WEBHOOK_URL rt) = true ->
  zoneOffset rt (timezone p) = None ->
  exists e,
    Offset.getTimezoneOffsetISO rt (timezone p) (now rt) = Throw e
    /\ AstrologyForm.onSubmit rt data st = MkRun [] (Throw e).
Proof.
  intros Hp Hhook Hzone.
  assert (Hthrow : exists e,
             Offset.getTimezoneOffsetISO rt (timezone p) (now rt) = Throw e).
  { unfold Offset.getTimezoneOffsetISO, Offset.toLocaleString. rewrite Hzone. eauto. }
  destruct Hthrow as [e He]. exists e. split; [exact He|].
  by apply onSubmit_bad_zone with p.
Qed.

Lemma X3_witness :
  exists e,
    Offset.getTimezoneOffsetISO Examples.rt0 "Mars/Olympus" (now Examples.rt0) = Throw e
    /\ AstrologyForm.onSubmit Examples.rt0 (Examples.data (-180))
         (Examples.filled (-180)
            (Some (mkPlace "Olympus" None "Mars" "ma" (18 # 1) (226 # 1) "Mars/Olympus"
                     "geoapify" "x1")))
       = MkRun [] (Throw e).
Proof.
  apply (X3_unknown_zone_escapes Examples.rt0 (Examples.data (-180))
           (Examples.filled (-180)
              (Some (mkPlace "Olympus" None "Mars" "ma" (18 # 1) (226 # 1) "Mars/Olympus"
                       "geoapify" "x1")))
           (mkPlace "Olympus" None "Mars" "ma" (18 # 1) (226 # 1) "Mars/Olympus"
              "geoapify" "x1"));
    reflexivity.
Defined.

(** Every run of [onSubmit] has one of seven shapes. *)
Lemma onSubmit_shapes rt data st :
  let r := AstrologyForm.onSubmit rt data st in
  r = MkRun [] (Normal (AstrologyForm.form_setError_birthPlace MSG_SELECT st))
  \/ r = MkRun [ConsoleError LOG_NO_HOOK; Alert MSG_NO_HOOK] (Normal st)
  \/ (exists e, r = MkRun [] (Throw e))
  \/ (exists url payload,
        (exists e, r = MkRun [FetchPost url payload; ConsoleError e; Alert MSG_FAILED]
                         (Normal st))
        \/ (exists html,
              r = MkRun [FetchPost url payload; DocumentOpen; DocumentWrite html;
                         DocumentClose] (Normal st))
        \/ (exists blob target,
              r = MkRun [FetchPost url payload; CreateObjectURL blob; LocationHref target]
                    (Normal st))
        \/ r = MkRun [FetchPost url payload] (Normal st)).
Proof.
  cbv zeta.
  destruct (AstrologyForm.selectedPlace st) as [p|] eqn:Hp.
  2: { left. by apply onSubmit_no_place. }
  destruct (truthy (WEBHOOK_URL rt)) eqn:Hu.
  2: { right; left. by apply onSubmit_no_hook with p. }
  destruct (Offset.getTimezoneOffsetISO rt (timezone p) (now rt)) as [off|e] eqn:Hz.
  2: { right; right; left. exists e. by apply onSubmit_bad_zone with p. }
  right; right; right.
  rewrite (onSubmit_posted rt data st p off Hp Hu Hz). cbv zeta.
  set (url := nullish (WEBHOOK_URL rt) "").
  set (payload := AstrologyForm.make_payload rt data p off).
  exists url, payload.
  destruct (result (AstrologyForm.onSubmit_try rt url payload)) as [[]|e] eqn:Hres.
  2: { left. exists e. by rewrite (onSubmit_try_thrown rt url payload e Hres). }
  right.
  destruct (fetch_post rt url payload) as [res|e'] eqn:Hfetch.
  2: { rewrite (onSubmit_try_rejected _ _ _ _ Hfetch) in Hres. discriminate. }
  destruct (res_ok res) eqn:Hok.
  2: { rewrite (onSubmit_try_status _ _ _ _ Hfetch Hok) in Hres. discriminate. }
  rewrite (onSubmit_try_ok _ _ _ _ Hfetch Hok) in Hres |- *. cbv zeta in Hres |- *.
  destruct (includes "text/html" _).
  { destruct (res_text res) as [html|]; [|discriminate]. left. by exists html. }
  destruct (includes "application/pdf" _).
  { destruct (res_blob res) as [blob|]; [|discriminate]. right; left. by eexists _, _. }
  right; right. reflexivity.
Qed.

(** X4.  Whatever the runtime answers, one run of [onSubmit] posts at
    most once and alerts at most once; when it alerts it neither
    replaces the document nor navigates; and a POST, when there is one,
    is its first effect. *)
Theorem X4_onSubmit_at_most_once rt data st :
  (count is_FetchPost (trace (AstrologyForm.onSubmit rt data st)) <= 1)%nat
  /\ (count is_Alert (trace (AstrologyForm.onSubmit rt data st)) <= 1)%nat
  /\ (count is_Alert (trace (AstrologyForm.onSubmit rt data st))
      + count is_page_change (trace (AstrologyForm.onSubmit rt data st)) <= 1)%nat
  /\ (count is_FetchPost (trace (AstrologyForm.onSubmit rt data st)) = 1%nat ->
      exists url payload rest,
        trace (AstrologyForm.onSubmit rt data st) = FetchPost url payload :: rest).
Proof.
  destruct (onSubmit_shapes rt data st) as [H|[H|[[e H]|(url & payload & H)]]].
  4: destruct H as [[e H]|[[html H]|[(blob & target & H)|H]]].
  all: rewrite H; unfold count; simpl; repeat split; try lia; try discriminate; eauto.
Qed.

Lemma X4_witness :
  exists url payload rest,
    trace (AstrologyForm.onSubmit
             (Examples.browser (-180) Examples.hook (Normal Examples.error_response))
             (Examples.data (-180)) (Examples.filled (-180) (Some Examples.sao_paulo)))
    = FetchPost url payload :: rest.
Proof.
  apply (proj2 (proj2 (proj2 (X4_onSubmit_at_most_once
                  (Examples.browser (-180) Examples.hook (Normal Examples.error_response))
                  (Examples.data (-180))
                  (Examples.filled (-180) (Some Examples.sao_paulo)))))).
  reflexivity.
Defined.

(** X5.  When the submit button is enabled, the webhook URL is
    configured and the zone of the resolved place is known, a submission
    passes both guards of [onSubmit] and its first effect is the POST of
    a payload that carries the entered name, time and e-mail and the
    resolved place's identity, coordinates and (non-empty) timezone. *)
Theorem X5_enabled_submit_posts rt st url :
  AstrologyForm.isFormValid rt st = true ->
  WEBHOOK_URL rt = Some url -> url <> "" ->
  (forall p, AstrologyForm.selectedPlace st = Some p ->
             zoneOffset rt (timezone p) <> None) ->
  exists p payload rest,
    AstrologyForm.selectedPlace st = Some p
    /\ trace (AstrologyForm.handleSubmit rt st) = FetchPost url payload :: rest
    /\ result (AstrologyForm.handleSubmit rt st) = Normal st
    /\ Some (pl_fullName payload) = AstrologyForm.v_fullName (AstrologyForm.values st)
    /\ Some (pl_birthTime payload) = AstrologyForm.v_birthTime (AstrologyForm.values st)
    /\ Some (pl_email payload) = AstrologyForm.v_email (AstrologyForm.values st)
    /\ pp_placeId (pl_place payload) = placeId p
    /\ pp_lat (pl_place payload) = lat p
    /\ pp_lon (pl_place payload) = lon p
    /\ pp_timezone (pl_place payload) = timezone p
    /\ pp_timezone (pl_place payload) <> "".
Proof.
  intros Hvalid Hurl Hne Hzone.
  unfold AstrologyForm.isFormValid in Hvalid.
  apply andb_prop in Hvalid. destruct Hvalid as [Hschema Hplace].
  destruct (AstrologyForm.selectedPlace st) as [p|] eqn:Hp; [|discriminate].
  simpl in Hplace.
  unfold AstrologyForm.formState_isValid in Hschema.
  apply bool_decide_eq_true in Hschema. destruct Hschema as [data Hdata].
  destruct (hook_configured rt url Hurl Hne) as [Ht Hn].
  assert (Hoff : exists off,
             Offset.getTimezoneOffsetISO rt (timezone p) (now rt) = Normal off).
  { unfold Offset.getTimezoneOffsetISO, Offset.toLocaleString.
    destruct (zoneOffset rt (timezone p)) eqn:Hz; [eauto|].
    by destruct (Hzone p eq_refl). }
  destruct Hoff as [off Hoff].
  assert (Hfields : Some (fullName data) = AstrologyForm.v_fullName (AstrologyForm.values st)
                    /\ Some (birthTime data) = AstrologyForm.v_birthTime (AstrologyForm.values st)
                    /\ Some (email data) = AstrologyForm.v_email (AstrologyForm.values st)).
  { unfold AstrologyForm.formSchema in Hdata.
    destruct (AstrologyForm.values st) as [[n|] [d|] [tm|] [pl|] [ml|]];
      simpl in *; try discriminate.
    destruct (_ && _); [|discriminate]. by injection Hdata as <-. }
  destruct Hfields as (Hname & Htime & Hmail).
  unfold AstrologyForm.handleSubmit. rewrite Hdata.
  rewrite (onSubmit_posted rt data st p off Hp Ht Hoff). cbv zeta. rewrite Hn.
  set (payload := AstrologyForm.make_payload rt data p off).
  assert (Hfirst : exists rest,
             trace (AstrologyForm.onSubmit_try rt url payload)
             = FetchPost url payload :: rest).
  { destruct (fetch_post rt url payload) as [res|e] eqn:Hfetch.
    2: { rewrite (onSubmit_try_rejected _ _ _ _ Hfetch). eauto. }
    destruct (res_ok res) eqn:Hok.
    2: { rewrite (onSubmit_try_status _ _ _ _ Hfetch Hok). eauto. }
    rewrite (onSubmit_try_ok _ _ _ _ Hfetch Hok). cbv zeta.
    destruct (includes "text/html" _); [destruct (res_text res); eauto|].
    destruct (includes "application/pdf" _); [destruct (res_blob res); eauto|].
    eauto. }
  destruct Hfirst as [rest Hrest].
  exists p, payload.
  destruct (result (AstrologyForm.onSubmit_try rt url payload)) as [[]|e];
    cbn [trace result]; rewrite Hrest; cbn [app]; eexists;
    (split; [reflexivity|]); (split; [reflexivity|]); (split; [reflexivity|]).
  all: repeat split; auto.
  all: subst payload; simpl; destruct (timezone p); [discriminate Hplace | discriminate].
Qed.

Lemma X5_witness :
  exists p payload rest,
    AstrologyForm.selectedPlace (Examples.filled (-180) (Some Examples.sao_paulo)) = Some p
    /\ trace (AstrologyForm.handleSubmit Examples.rt0
                (Examples.filled (-180) (Some Examples.sao_paulo)))
       = FetchPost "https://n8n.example/webhook/mapa" payload :: rest
    /\ result (AstrologyForm.handleSubmit Examples.rt0
                 (Examples.filled (-180) (Some Examples.sao_paulo)))
       = Normal (Examples.filled (-180) (Some Examples.sao_paulo))
    /\ Some (pl_fullName payload) = Some "Ana Souza"
    /\ Some (pl_birthTime payload) = Some "14:30"
    /\ Some (pl_email payload) = Some "ana@example.org"
    /\ pp_placeId (pl_place payload) = placeId p
    /\ pp_lat (pl_place payload) = lat p
    /\ pp_lon (pl_place payload) = lon p
    /\ pp_timezone (pl_place payload) = timezone p
    /\ pp_timezone (pl_place payload) <> "".
Proof.
  apply (X5_enabled_submit_posts Examples.rt0
           (Examples.filled (-180) (Some Examples.sao_paulo))
           "https://n8n.example/webhook/mapa").
  - reflexivity.
  - reflexivity.
  - discriminate.
  - intros p [= <-]. discriminate.
Defined.

(** ** The time pattern *)

Lemma is_digit_cases c :
  AstrologyForm.is_digit c = true ->
  c = "0"%char \/ c = "1"%char \/ c = "2"%char \/ c = "3"%char \/ c = "4"%char
  \/ c = "5"%char \/ c = "6"%char \/ c = "7"%char \/ c = "8"%char \/ c = "9"%char.
Proof.
  destruct c as [[] [] [] [] [] [] [] []]; vm_compute; intros H;
    try discriminate H; tauto.
Qed.

Lemma digit_upto_is_digit hi c :
  (hi <= 9)%N -> AstrologyForm.digit_upto hi c = true -> AstrologyForm.is_digit c = true.
Proof.
  unfold AstrologyForm.digit_upto, AstrologyForm.is_digit. intros Hhi H.
  apply andb_prop in H. destruct H as [H1 H2].
  apply andb_true_intro. split; [exact H1|].
  apply N.leb_le in H2. apply N.leb_le. lia.
Qed.

Lemma digit_value_range c :
  AstrologyForm.is_digit c = true -> 0 <= digit_value c <= 9.
Proof.
  intros H. destruct (is_digit_cases c H) as [->|[->|[->|[->|[->|[->|[->|[->|[->| ->]]]]]]]]];
    vm_compute; split; discriminate.
Qed.

Lemma digit_upto_value hi c :
  AstrologyForm.digit_upto hi c = true -> digit_value c <= Z.of_N hi.
Proof.
  unfold AstrologyForm.digit_upto, digit_value. intros H.
  apply andb_prop in H. destruct H as [_ H]. apply N.leb_le in H. lia.
Qed.

(** Two digits are the padded rendering of the number they denote. *)
Lemma pad2_digits a b :
  AstrologyForm.is_digit a = true -> AstrologyForm.is_digit b = true ->
  padStart 2 "0" (String_ (10 * digit_value a + digit_value b))
  = String a (String b "").
Proof.
  intros Ha Hb.
  destruct (is_digit_cases a Ha) as [->|[->|[->|[->|[->|[->|[->|[->|[->| ->]]]]]]]]];
    destruct (is_digit_cases b Hb) as [->|[->|[->|[->|[->|[->|[->|[->|[->| ->]]]]]]]]];
    vm_compute; reflexivity.
Qed.

(** X6.  [timeRegex] accepts exactly the 1440 texts HH:mm of a 24-hour
    clock: a string passes if and only if it is the two-digit hour, a
    colon and the two-digit minute of some hour 0..23 and minute 0..59. *)
Theorem X6_timeRegex_exact s :
  AstrologyForm.timeRegex s = true
  <-> exists h m, 0 <= h <= 23 /\ 0 <= m <= 59 /\ s = render_time h m.
Proof.
  split.
  - destruct s as [|h1 [|h2 [|colon [|m1 [|m2 [|x rest]]]]]]; simpl; try discriminate.
    intros H.
    apply andb_prop in H. destruct H as [H Hm2].
    apply andb_prop in H. destruct H as [H Hm1].
    apply andb_prop in H. destruct H as [Hh Hcolon].
    apply Ascii.eqb_eq in Hcolon. subst colon.
    assert (Hm1d := digit_upto_is_digit 5 m1 ltac:(lia) Hm1).
    assert (Hhd : AstrologyForm.is_digit h1 = true /\ AstrologyForm.is_digit h2 = true
                  /\ 10 * digit_value h1 + digit_value h2 <= 23).
    { apply orb_prop in Hh. destruct Hh as [Hh|Hh];
        apply andb_prop in Hh; destruct Hh as [Ha Hb].
      - pose proof (digit_upto_value _ _ Ha). pose proof (digit_value_range _ Hb).
        split; [by apply (digit_upto_is_digit 1)|]. split; [exact Hb | lia].
      - apply Ascii.eqb_eq in Ha. subst h1.
        pose proof (digit_upto_value _ _ Hb).
        split; [reflexivity|]. split; [by apply (digit_upto_is_digit 3)|].
        change (digit_value "2") with 2. lia. }
    destruct Hhd as (Hh1 & Hh2 & Hle).
    exists (10 * digit_value h1 + digit_value h2), (10 * digit_value m1 + digit_value m2).
    pose proof (digit_value_range _ Hh1). pose proof (digit_value_range _ Hh2).
    pose proof (digit_value_range _ Hm1d). pose proof (digit_value_range _ Hm2).
    pose proof (digit_upto_value _ _ Hm1).
    split; [lia|]. split; [lia|].
    unfold render_time. by rewrite !pad2_digits.
  - intros (h & m & Hh & Hm & ->).
    pose proof (forall_below_spec 24
      (fun h => forall_below 60 (fun m => AstrologyForm.timeRegex (render_time h m)))
      ltac:(vm_compute; reflexivity) h ltac:(lia)) as Hall.
    cbv beta in Hall.
    exact (forall_below_spec 60 _ Hall m ltac:(lia)).
Qed.

(** ** The search and what the user sees of it *)

Lemma searchPlaces_settled_success outcome st response data :
  outcome = Normal response -> geo_ok response = true ->
  geo_json response = Normal data ->
  PlaceAutocomplete.searchPlaces_settled outcome st
    = MkRun [] (Normal (PlaceAutocomplete.mkState (default [] data) false true (-1))).
Proof.
  intros -> Hok Hjson.
  destruct (searchPlaces_settled_cases (Normal response) st)
    as [(r & d & [= <-] & _ & Hd & ->)|(e & Hrun)].
  - rewrite Hjson in Hd. by injection Hd as <-.
  - exfalso. revert Hrun. unfold PlaceAutocomplete.searchPlaces_settled.
    run_simpl. rewrite Hok. simpl. rewrite Hjson. discriminate.
Qed.

Lemma searchPlaces_settled_failure outcome st :
  search_failed outcome = true ->
  exists message,
    PlaceAutocomplete.searchPlaces_settled outcome st
      = MkRun [ConsoleError message]
          (Normal (PlaceAutocomplete.mkState [] false
                     (PlaceAutocomplete.isOpen st)
                     (PlaceAutocomplete.selectedIndex st))).
Proof.
  intros Hfail.
  destruct (searchPlaces_settled_cases outcome st)
    as [(r & d & -> & Hok & Hd & _)|(e & ->)]; [|eauto].
  simpl in Hfail. rewrite Hok, Hd in Hfail. discriminate.
Qed.

(** X7.  [searchPlaces] never throws and always clears the loading flag
    when its request settles.  A successful answer installs the features
    in the order received (an absent list counts as empty), opens the
    dropdown and resets the highlight to -1, whatever the state was.  A
    rejected request, a status that is not a success or an unreadable
    body is logged, empties the list and leaves the dropdown flag and
    the highlighted index untouched. *)
Theorem X7_searchPlaces_settled outcome st :
  (exists st',
      result (PlaceAutocomplete.searchPlaces_settled outcome st) = Normal st'
      /\ PlaceAutocomplete.isLoading st' = false)
  /\ (forall response data,
        outcome = Normal response -> geo_ok response = true ->
        geo_json response = Normal data ->
        PlaceAutocomplete.searchPlaces_settled outcome st
          = MkRun [] (Normal (PlaceAutocomplete.mkState (default [] data) false true (-1))))
  /\ (search_failed outcome = true ->
      exists message,
        PlaceAutocomplete.searchPlaces_settled outcome st
          = MkRun [ConsoleError message]
              (Normal (PlaceAutocomplete.mkState [] false
                         (PlaceAutocomplete.isOpen st)
                         (PlaceAutocomplete.selectedIndex st)))).
Proof.
  split; [|split].
  - destruct (searchPlaces_settled_cases outcome st)
      as [(r & d & _ & _ & _ & ->)|(e & ->)]; eexists; split; reflexivity.
  - intros response data. apply searchPlaces_settled_success.
  - apply searchPlaces_settled_failure.
Qed.

Lemma X7_witness :
  PlaceAutocomplete.searchPlaces_settled (Examples.found Examples.three)
    (PlaceAutocomplete.mkState [] true false 4)
  = MkRun [] (Normal (PlaceAutocomplete.mkState Examples.three false true (-1)))
  /\ exists message,
       PlaceAutocomplete.searchPlaces_settled
         (Normal (mkGeoResponse false (Normal (Some Examples.three))))
         (PlaceAutocomplete.mkState Examples.three true true 1)
       = MkRun [ConsoleError message] (Normal (PlaceAutocomplete.mkState [] false true 1)).
Proof.
  split.
  - apply (proj1 (proj2 (X7_searchPlaces_settled (Examples.found Examples.three)
                           (PlaceAutocomplete.mkState [] true false 4)))
             (mkGeoResponse true (Normal (Some Examples.three))) (Some Examples.three));
      reflexivity.
  - apply (proj2 (proj2 (X7_searchPlaces_settled
                           (Normal (mkGeoResponse false (Normal (Some Examples.three))))
                           (PlaceAutocomplete.mkState Examples.three true true 1)))).
    reflexivity.
Defined.

(** X8.  The list of suggestions and the message "Nenhuma cidade
    encontrada" are never rendered together.  After a search that failed
    while the dropdown was open, and with at least 2 characters in the
    field, the message is rendered, exactly as after a successful search
    that returned no feature: the user cannot tell a failure from an
    empty result. *)
Theorem X8_failure_shown_as_no_results value outcome st :
  let st' := state_after (PlaceAutocomplete.searchPlaces_settled outcome st) st in
  (forall s, PlaceAutocomplete.list_rendered s && no_results_rendered value s = false)
  /\ (search_failed outcome = true ->
      PlaceAutocomplete.isOpen st = true ->
      (2 <= String.length value)%nat ->
      no_results_rendered value st' = true
      /\ PlaceAutocomplete.list_rendered st' = false)
  /\ (forall response data,
        outcome = Normal response -> geo_ok response = true ->
        geo_json response = Normal data -> default [] data = [] ->
        (2 <= String.length value)%nat ->
        no_results_rendered value st' = true
        /\ PlaceAutocomplete.list_rendered st' = false).
Proof.
  cbv zeta. split; [|split].
  - intros s. unfold PlaceAutocomplete.list_rendered, no_results_rendered.
    destruct (PlaceAutocomplete.isOpen s); [|reflexivity]. simpl.
    destruct (Z.gtb_spec (PlaceAutocomplete.suggestions_length s) 0);
      destruct (Z.eqb_spec (PlaceAutocomplete.suggestions_length s) 0);
      simpl; try reflexivity; lia.
  - intros Hfail Hopen Hlen.
    destruct (searchPlaces_settled_failure outcome st Hfail) as [msg ->].
    unfold state_after, no_results_rendered, PlaceAutocomplete.list_rendered. simpl.
    rewrite Hopen. simpl. split; [|reflexivity].
    apply Z.geb_le. lia.
  - intros response data Hout Hok Hjson Hnone Hlen.
    rewrite (searchPlaces_settled_success outcome st response data Hout Hok Hjson).
    unfold state_after, no_results_rendered, PlaceAutocomplete.list_rendered,
      PlaceAutocomplete.suggestions_length. simpl.
    rewrite Hnone. simpl. split; [|reflexivity].
    apply Z.geb_le. lia.
Qed.

Lemma X8_witness :
  let st' :=
    state_after (PlaceAutocomplete.searchPlaces_settled (Throw "TypeError: Failed to fetch")
                   (PlaceAutocomplete.mkState Examples.three true true 1))
      (PlaceAutocomplete.mkState Examples.three true true 1) in
  no_results_rendered "sax" st' = true /\ PlaceAutocomplete.list_rendered st' = false.
Proof.
  cbv zeta.
  apply (proj1 (proj2 (X8_failure_shown_as_no_results "sax"
                         (Throw "TypeError: Failed to fetch")
                         (PlaceAutocomplete.mkState Examples.three true true 1))));
    [reflexivity | reflexivity | simpl; lia].
Defined.

(** X9.  [handleKeyDown] calls [preventDefault] exactly when the
    dropdown is open and the key is ArrowDown, ArrowUp or Enter.  So
    Enter in the open dropdown never submits the form, while Enter with
    the dropdown closed, and Escape in any state, keep their default
    action. *)
Theorem X9_preventDefault_exactly rt key st :
  In PreventDefault (trace (PlaceAutocomplete.handleKeyDown rt key st))
  <-> PlaceAutocomplete.isOpen st = true
      /\ (key = "ArrowDown" \/ key = "ArrowUp" \/ key = "Enter").
Proof.
  unfold PlaceAutocomplete.handleKeyDown.
  destruct (PlaceAutocomplete.isOpen st); cbn [negb].
  2: { simpl. split; [tauto | intros [[=] _]]. }
  destruct (String.eqb_spec key "ArrowDown") as [->|Hd].
  { rewrite bind_emit. simpl. split; auto. }
  destruct (String.eqb_spec key "ArrowUp") as [->|Hu].
  { rewrite bind_emit. simpl. split; auto. }
  destruct (String.eqb_spec key "Enter") as [->|He].
  { rewrite bind_emit. simpl. split; auto. }
  destruct (String.eqb key "Escape"); simpl; (split; [tauto | intros [_ [?|[?|?]]]; congruence]).
Qed.

(** ** The label and the request *)

Lemma string_length_app (a b : string) :
  String.length (a +:+ b) = (String.length a + String.length b)%nat.
Proof. induction a as [|c a IH]; simpl; [reflexivity|]. by rewrite IH. Qed.


Lemma or_str_not_empty (a : option string) (b : string) :
  truthy a = true -> or_str a b <> "" /\ Some (or_str a b) = a.
Proof. destruct a as [[|c r]|]; simpl; intros H; try discriminate H. by split. Qed.






(** ** More invariants of the page *)

Lemma deliver_all_inert tr f :
  Forall inert tr -> Page.deliver_all tr f = f.
Proof.
  unfold Page.deliver_all. intros Htr. revert f.
  induction Htr as [|e tr He _ IH]; intros f; simpl; [reflexivity|].
  rewrite <- (IH f) at 2. f_equal.
  destruct e; simpl in *; tauto.
Qed.

Lemma quiet_inert tr : quiet tr -> Forall inert tr.
Proof. apply quiet_Forall. intros; exact I. Qed.

Lemma quiet_started tr : quiet tr -> Page.started tr = 0%nat.
Proof. by intros [->|[w ->]]. Qed.

(** What a selection does to the form: the label becomes the text, the
    place built from the suggestion becomes the resolved place and the
    error of the field is cleared. *)
Lemma selectSuggestion_deliver rt suggestion st f :
  exists place,
    Page.deliver_all (trace (PlaceAutocomplete.selectSuggestion rt suggestion st)) f
    = AstrologyForm.mkState (Some place)
        (AstrologyForm.values
           (AstrologyForm.field_onChange_birthPlace
              (PlaceAutocomplete.formatSuggestion suggestion) f))
        None
    /\ built_from suggestion place
    /\ timezone place <> ""
    /\ Page.started (trace (PlaceAutocomplete.selectSuggestion rt suggestion st)) = 0%nat.
Proof.
  unfold PlaceAutocomplete.selectSuggestion.
  destruct (getTimezone_run rt (prop_lat suggestion) (prop_lon suggestion)
              (prop_timezone suggestion ≫= tz_name)) as (tr & Hrun & Hq).
  rewrite Hrun, bind_emit. simpl.
  destruct Hq as [->|[w ->]]; simpl; eexists; (split; [reflexivity|]);
    (split; [by repeat split|]); (split; [apply spec_timezone_nonempty | reflexivity]).
Qed.

Lemma key_moves_refl st : key_moves st st.
Proof. unfold key_moves. auto. Qed.

Lemma handleKeyDown_moves rt key st :
  (exists st',
      PlaceAutocomplete.handleKeyDown rt key st = MkRun [] (Normal st')
      /\ key_moves st st')
  \/ (exists st',
        PlaceAutocomplete.handleKeyDown rt key st = MkRun [PreventDefault] (Normal st')
        /\ key_moves st st')
  \/ (exists suggestion,
        PlaceAutocomplete.isOpen st = true
        /\ 0 <= PlaceAutocomplete.selectedIndex st
        /\ PlaceAutocomplete.suggestions st
             !! Z.to_nat (PlaceAutocomplete.selectedIndex st) = Some suggestion
        /\ PlaceAutocomplete.handleKeyDown rt key st
           = (emit PreventDefault;; PlaceAutocomplete.selectSuggestion rt suggestion st)).
Proof.
  unfold PlaceAutocomplete.handleKeyDown.
  destruct (PlaceAutocomplete.isOpen st) eqn:Hopen; cbn [negb].
  2: { left. exists st. split; [reflexivity | apply key_moves_refl]. }
  destruct (String.eqb key "ArrowDown").
  { right; left. eexists. split; [reflexivity|].
    unfold key_moves. simpl. repeat split.
    destruct (Z.ltb_spec (PlaceAutocomplete.selectedIndex st)
                (PlaceAutocomplete.suggestions_length st - 1)); auto. }
  destruct (String.eqb key "ArrowUp").
  { right; left. eexists. split; [reflexivity|].
    unfold key_moves. simpl. repeat split.
    destruct (Z.gtb_spec (PlaceAutocomplete.selectedIndex st) 0); auto.
    right; right; left. split; [lia | reflexivity]. }
  destruct (String.eqb key "Enter").
  { unfold PlaceAutocomplete.suggestion_at.
    destruct (Z.geb_spec (PlaceAutocomplete.selectedIndex st) 0) as [Hge|Hlt];
      [|right; left; exists st; split; [reflexivity | apply key_moves_refl]].
    destruct (Z.ltb_spec (PlaceAutocomplete.selectedIndex st) 0); [lia|].
    destruct (PlaceAutocomplete.suggestions st
                !! Z.to_nat (PlaceAutocomplete.selectedIndex st)) as [s|] eqn:Hs.
    { right; right. exists s. split; [reflexivity|]. split; [lia|]. by split. }
    right; left. exists st. split; [reflexivity | apply key_moves_refl]. }
  destruct (String.eqb key "Escape").
  { left. eexists. split; [reflexivity|]. unfold key_moves. simpl.
    split; [reflexivity|]. split; [reflexivity|]. by right; right; right. }
  left. exists st. split; [reflexivity | apply key_moves_refl].
Qed.

Lemma commit_select rt pg suggestion i (r : Run PlaceAutocomplete.State) :
  PlaceAutocomplete.isOpen (Page.ac pg) = true ->
  PlaceAutocomplete.suggestions (Page.ac pg) !! i = Some suggestion ->
  Page.deliver_all (trace r) (Page.form pg)
    = Page.deliver_all
        (trace (PlaceAutocomplete.selectSuggestion rt suggestion (Page.ac pg))) (Page.form pg) ->
  Page.started (trace r) = 0%nat ->
  result r = Normal (PlaceAutocomplete.setIsOpen false (Page.ac pg)) ->
  moves pg (fst (Page.commit_ac pg r)).
Proof.
  intros Hopen Hs Hdeliver Hstarted Hresult.
  destruct (selectSuggestion_deliver rt suggestion (Page.ac pg) (Page.form pg))
    as (place & Hform & Hbuilt & Htz & _).
  apply (move_select pg _ i suggestion place Hopen Hs Hbuilt Htz).
  unfold Page.commit_ac. cbn [fst].
  by rewrite Hdeliver, Hform, Hstarted, Hresult, Nat.add_0_r.
Qed.

(** Every step of the page is one of the moves. *)
Lemma step_moves rt pg ev : moves pg (fst (Page.step rt pg ev)).
Proof.
  destruct ev as [text|v|key|i|b| |outcome| ]; cbn [Page.step].
  - by apply (move_edit pg _ text).
  - by apply (move_fields pg _ v).
  - destruct (handleKeyDown_moves rt key (Page.ac pg))
      as [(st' & Hrun & Hk)|[(st' & Hrun & Hk)|(s & Hopen & Hge & Hs & Hrun)]].
    + apply (move_keys pg _ st' Hk). rewrite Hrun. unfold Page.commit_ac. simpl.
      by rewrite Nat.add_0_r.
    + apply (move_keys pg _ st' Hk). rewrite Hrun. unfold Page.commit_ac. simpl.
      by rewrite Nat.add_0_r.
    + apply (commit_select rt pg s _ _ Hopen Hs); rewrite Hrun, bind_emit; cbn [trace result].
      * reflexivity.
      * destruct (selectSuggestion_deliver rt s (Page.ac pg) (Page.form pg))
          as (place & _ & _ & _ & Hstarted).
        exact Hstarted.
      * apply selectSuggestion_result.
  - destruct (item_onClick_cases rt i (Page.ac pg)) as [Hrun|(s & Hs & Hopen & Hrun)].
    + apply (move_keys pg _ (Page.ac pg) (key_moves_refl _)).
      rewrite Hrun. unfold Page.commit_ac. simpl. by rewrite Nat.add_0_r.
    + apply (commit_select rt pg s i _ Hopen Hs); rewrite Hrun.
      * reflexivity.
      * destruct (selectSuggestion_deliver rt s (Page.ac pg) (Page.form pg))
          as (place & _ & _ & _ & Hstarted).
        exact Hstarted.
      * apply selectSuggestion_result.
  - apply (move_keys pg _ (PlaceAutocomplete.handleBlur_timeout b (Page.ac pg))); [|reflexivity].
    unfold PlaceAutocomplete.handleBlur_timeout, key_moves.
    destruct b; simpl; auto.
  - unfold Page.debounceElapsed.
    destruct (String.eqb _ _); [by apply move_none|].
    destruct (searchEffect_cases rt (Page.value pg) (Page.ac pg)) as [[Hlen Hrun]|[Hlen Hrun]];
      rewrite Hrun; unfold Page.commit_ac; simpl.
    + apply move_search_short; [lia|]. by rewrite Nat.add_0_r.
    + apply move_search_start; [lia|]. by rewrite Nat.add_1_r.
  - destruct (Page.inflight pg) as [|n] eqn:Hin; [by apply move_none|].
    destruct (searchPlaces_settled_cases outcome (Page.ac pg))
      as [(r & d & _ & _ & _ & Hrun)|(e & Hrun)];
      rewrite Hrun; unfold Page.commit_ac; simpl; rewrite Nat.add_0_r.
    + by apply (move_settle_ok pg _ n (default [] d)).
    + by apply (move_settle_failed pg _ n).
  - unfold Page.commit_form. cbn [fst].
    destruct (result (AstrologyForm.handleSubmit rt (Page.form pg))) as [f'|e] eqn:Hr.
    + destruct (handleSubmit_keeps rt _ _ Hr) as [Hp Hv].
      by apply (move_submit pg _ f').
    + by apply (move_submit pg _ (Page.form pg)).
Qed.

Lemma suggestions_length_nil st :
  PlaceAutocomplete.suggestions st = [] <-> PlaceAutocomplete.suggestions_length st = 0.
Proof.
  unfold PlaceAutocomplete.suggestions_length.
  destruct (PlaceAutocomplete.suggestions st); simpl; split; (discriminate || lia || auto).
Qed.

Lemma moves_index pg pg' :
  moves pg pg' ->
  -1 <= PlaceAutocomplete.selectedIndex (Page.ac pg)
  /\ (PlaceAutocomplete.suggestions (Page.ac pg) <> [] ->
      PlaceAutocomplete.selectedIndex (Page.ac pg)
        < PlaceAutocomplete.suggestions_length (Page.ac pg)) ->
  -1 <= PlaceAutocomplete.selectedIndex (Page.ac pg')
  /\ (PlaceAutocomplete.suggestions (Page.ac pg') <> [] ->
      PlaceAutocomplete.selectedIndex (Page.ac pg')
        < PlaceAutocomplete.suggestions_length (Page.ac pg')).
Proof.
  intros Hmove [Hlo Hhi].
  destruct Hmove as [ -> | text -> | v -> | st' Hk -> | i s place _ _ _ _ ->
                    | _ -> | _ -> | n features _ -> | n _ -> | f' _ _ -> ];
    cbn [Page.ac]; auto.
  - destruct Hk as (Hs & _ & Hidx).
    unfold PlaceAutocomplete.suggestions_length in *. rewrite Hs.
    assert (Hlen : PlaceAutocomplete.suggestions (Page.ac pg) <> [] ->
                   0 < Z.of_nat (length (PlaceAutocomplete.suggestions (Page.ac pg)))).
    { destruct (PlaceAutocomplete.suggestions (Page.ac pg)); [congruence | simpl; lia]. }
    destruct Hidx as [ -> | [ [H1 ->] | [ [H1 ->] | -> ] ] ]; split; try lia; intros Hne;
      specialize (Hhi Hne); specialize (Hlen Hne); lia.
  - simpl. split; [lia | congruence].
  - simpl. split; [lia|]. intros Hne. unfold PlaceAutocomplete.suggestions_length. simpl.
    destruct features; [congruence | simpl; lia].
  - simpl. split; [exact Hlo | congruence].
Qed.

(** X12.  In every reachable state the highlighted index is at least -1
    and, when the list is not empty, smaller than its length: whenever
    the list is rendered, a highlighted index of 0 or more denotes one
    of the rendered suggestions. *)
Theorem X12_highlight_in_range pg :
  Page.reachable pg ->
  -1 <= PlaceAutocomplete.selectedIndex (Page.ac pg)
  /\ (PlaceAutocomplete.suggestions (Page.ac pg) <> [] ->
      PlaceAutocomplete.selectedIndex (Page.ac pg)
        < PlaceAutocomplete.suggestions_length (Page.ac pg))
  /\ (PlaceAutocomplete.list_rendered (Page.ac pg) = true ->
      0 <= PlaceAutocomplete.selectedIndex (Page.ac pg) ->
      is_Some (PlaceAutocomplete.suggestions (Page.ac pg)
                 !! Z.to_nat (PlaceAutocomplete.selectedIndex (Page.ac pg)))).
Proof.
  intros Hreach.
  assert (Hinv : -1 <= PlaceAutocomplete.selectedIndex (Page.ac pg)
                 /\ (PlaceAutocomplete.suggestions (Page.ac pg) <> [] ->
                     PlaceAutocomplete.selectedIndex (Page.ac pg)
                       < PlaceAutocomplete.suggestions_length (Page.ac pg))).
  { induction Hreach as [|rt pg ev _ IH]; [simpl; split; [lia | congruence]|].
    exact (moves_index _ _ (step_moves rt pg ev) IH). }
  destruct Hinv as [Hlo Hhi]. split; [exact Hlo|]. split; [exact Hhi|].
  intros Hrendered Hge.
  unfold PlaceAutocomplete.list_rendered in Hrendered.
  apply andb_prop in Hrendered. destruct Hrendered as [_ Hpos].
  apply Z.gtb_lt in Hpos.
  assert (Hne : PlaceAutocomplete.suggestions (Page.ac pg) <> []).
  { rewrite suggestions_length_nil. lia. }
  specialize (Hhi Hne). apply lookup_lt_is_Some.
  unfold PlaceAutocomplete.suggestions_length in Hhi. lia.
Qed.

Lemma X12_witness :
  is_Some (PlaceAutocomplete.suggestions
             (Page.ac (Page.run Page.initial
                         (firstn 5 Examples.stale_events)))
             !! Z.to_nat (PlaceAutocomplete.selectedIndex
                            (Page.ac (Page.run Page.initial
                                        (firstn 5 Examples.stale_events))))).
Proof.
  apply (proj2 (proj2 (X12_highlight_in_range
                         (Page.run Page.initial (firstn 5 Examples.stale_events))
                         (run_reachable _ _ Page.reachable_initial)))).
  - reflexivity.
  - simpl. lia.
Defined.

Lemma moves_loading pg pg' :
  moves pg pg' ->
  (PlaceAutocomplete.isLoading (Page.ac pg) = true -> (0 < Page.inflight pg)%nat) ->
  PlaceAutocomplete.isLoading (Page.ac pg') = true -> (0 < Page.inflight pg')%nat.
Proof.
  intros Hmove Hinv.
  destruct Hmove as [ -> | text -> | v -> | st' Hk -> | i s place _ _ _ _ ->
                    | _ -> | _ -> | n features _ -> | n _ -> | f' _ _ -> ];
    cbn [Page.ac Page.inflight]; auto; simpl; try discriminate; try lia.
  destruct Hk as (_ & -> & _). exact Hinv.
Qed.

(** X13.  In every reachable state the loading flag is set only while a
    geocoding request is outstanding.  The converse does not hold: when
    two or more requests are outstanding, the first one to settle
    clears the flag although another is still in flight. *)
Theorem X13_loading_means_request :
  (forall pg,
      Page.reachable pg ->
      PlaceAutocomplete.isLoading (Page.ac pg) = true -> (0 < Page.inflight pg)%nat)
  /\ (forall rt pg outcome,
        (2 <= Page.inflight pg)%nat ->
        PlaceAutocomplete.isLoading
          (Page.ac (fst (Page.step rt pg (Page.SearchSettled outcome)))) = false
        /\ (1 <= Page.inflight (fst (Page.step rt pg (Page.SearchSettled outcome))))%nat).
Proof.
  split.
  - intros pg Hreach. induction Hreach as [|rt pg ev _ IH]; [discriminate|].
    exact (moves_loading _ _ (step_moves rt pg ev) IH).
  - intros rt pg outcome Hin. cbn [Page.step].
    destruct (Page.inflight pg) as [|n] eqn:Hn; [lia|].
    destruct (searchPlaces_settled_cases outcome (Page.ac pg))
      as [(r & d & _ & _ & _ & Hrun)|(e & Hrun)];
      rewrite Hrun; unfold Page.commit_ac; simpl; split; (reflexivity || lia).
Qed.

Lemma X13_witness :
  (0 < Page.inflight (Page.run Page.initial (firstn 2 Examples.stale_events)))%nat.
Proof.
  apply (proj1 X13_loading_means_request
           (Page.run Page.initial (firstn 2 Examples.stale_events))
           (run_reachable _ _ Page.reachable_initial)).
  reflexivity.
Defined.

Lemma moves_consistent pg pg' :
  moves pg pg' ->
  (forall p, AstrologyForm.selectedPlace (Page.form pg) = Some p ->
     exists s, built_from s p
               /\ AstrologyForm.v_birthPlace (AstrologyForm.values (Page.form pg))
                  = Some (PlaceAutocomplete.formatSuggestion s)) ->
  forall p, AstrologyForm.selectedPlace (Page.form pg') = Some p ->
     exists s, built_from s p
               /\ AstrologyForm.v_birthPlace (AstrologyForm.values (Page.form pg'))
                  = Some (PlaceAutocomplete.formatSuggestion s).
Proof.
  intros Hmove Hinv.
  destruct Hmove as [ -> | text -> | v -> | st' Hk -> | i s place _ _ Hbuilt _ ->
                    | _ -> | _ -> | n features _ -> | n _ -> | f' Hp Hv -> ];
    cbn [Page.form]; auto.
  - simpl. discriminate.
  - simpl. intros p [= <-]. by exists s.
  - rewrite Hp, Hv. exact Hinv.
Qed.

(** X14.  In every reachable state, a resolved place is the place built
    from one suggestion, and the text of the field is exactly the label
    of that suggestion: coordinates are never held for a text that has
    been edited since. *)
Theorem X14_place_matches_text pg p :
  Page.reachable pg ->
  AstrologyForm.selectedPlace (Page.form pg) = Some p ->
  exists suggestion,
    built_from suggestion p
    /\ AstrologyForm.v_birthPlace (AstrologyForm.values (Page.form pg))
       = Some (PlaceAutocomplete.formatSuggestion suggestion)
    /\ Page.value pg = PlaceAutocomplete.formatSuggestion suggestion.
Proof.
  intros Hreach Hp.
  assert (Hinv : forall q, AstrologyForm.selectedPlace (Page.form pg) = Some q ->
            exists s, built_from s q
              /\ AstrologyForm.v_birthPlace (AstrologyForm.values (Page.form pg))
                 = Some (PlaceAutocomplete.formatSuggestion s)).
  { clear p Hp. induction Hreach as [|rt pg ev _ IH]; [discriminate|].
    exact (moves_consistent _ _ (step_moves rt pg ev) IH). }
  destruct (Hinv p Hp) as (s & Hbuilt & Htext).
  exists s. split; [exact Hbuilt|]. split; [exact Htext|].
  unfold Page.value. rewrite Htext.
  by destruct (PlaceAutocomplete.formatSuggestion s).
Qed.

Lemma X14_witness :
  exists suggestion,
    built_from suggestion
      {| city := "Santos"; admin := None; country := "Brasil"; countryCode := "br";
         lat := -2355 # 100; lon := -4663 # 100; timezone := "America/Sao_Paulo";
         provider := "geoapify"; placeId := "Santos" |}
    /\ AstrologyForm.v_birthPlace (AstrologyForm.values (Page.form Examples.selected_page))
       = Some (PlaceAutocomplete.formatSuggestion suggestion)
    /\ Page.value Examples.selected_page = PlaceAutocomplete.formatSuggestion suggestion.
Proof.
  apply (X14_place_matches_text Examples.selected_page _
           (run_reachable _ _ Page.reachable_initial)).
  reflexivity.
Defined.

(** ** Gestures *)

Lemma down_step rt pg :
  PlaceAutocomplete.isOpen (Page.ac pg) = true ->
  fst (Page.step rt pg (Page.KeyDown "ArrowDown"))
  = Page.mkPage (Page.form pg)
      (PlaceAutocomplete.setSelectedIndex
         (fun prev => if prev <? PlaceAutocomplete.suggestions_length (Page.ac pg) - 1
                      then prev + 1 else prev) (Page.ac pg))
      (Page.debouncedSearchTerm pg) (Page.inflight pg).
Proof.
  intros Hopen. cbn [Page.step]. unfold PlaceAutocomplete.handleKeyDown.
  rewrite Hopen. cbn [negb]. simpl String.eqb. cbv iota.
  rewrite bind_emit. unfold Page.commit_ac. simpl. by rewrite Nat.add_0_r.
Qed.

Lemma up_step rt pg :
  PlaceAutocomplete.isOpen (Page.ac pg) = true ->
  fst (Page.step rt pg (Page.KeyDown "ArrowUp"))
  = Page.mkPage (Page.form pg)
      (PlaceAutocomplete.setSelectedIndex (fun prev => if prev >? 0 then prev - 1 else -1)
         (Page.ac pg))
      (Page.debouncedSearchTerm pg) (Page.inflight pg).
Proof.
  intros Hopen. cbn [Page.step]. unfold PlaceAutocomplete.handleKeyDown.
  rewrite Hopen. cbn [negb]. simpl String.eqb. cbv iota.
  rewrite bind_emit. unfold Page.commit_ac. simpl. by rewrite Nat.add_0_r.
Qed.

Lemma downs_run rt n : forall pg,
  PlaceAutocomplete.isOpen (Page.ac pg) = true ->
  PlaceAutocomplete.selectedIndex (Page.ac pg) <= last_index (Page.ac pg) ->
  Page.run pg (presses rt "ArrowDown" n)
  = Page.mkPage (Page.form pg)
      (PlaceAutocomplete.mkState (PlaceAutocomplete.suggestions (Page.ac pg))
         (PlaceAutocomplete.isLoading (Page.ac pg)) true
         (Z.min (PlaceAutocomplete.selectedIndex (Page.ac pg) + Z.of_nat n)
            (last_index (Page.ac pg))))
      (Page.debouncedSearchTerm pg) (Page.inflight pg).
Proof.
  unfold presses, last_index.
  induction n as [|n IH]; intros [f [sug ld op idx] deb inf] Hopen Hidx;
    simpl in Hopen, Hidx; subst op.
  - simpl. repeat f_equal. lia.
  - cbn [repeat Page.run]. rewrite down_step by reflexivity.
    rewrite IH; unfold PlaceAutocomplete.setSelectedIndex,
                  PlaceAutocomplete.suggestions_length in *;
      cbn [Page.ac Page.form Page.debouncedSearchTerm Page.inflight
             PlaceAutocomplete.suggestions PlaceAutocomplete.isLoading
             PlaceAutocomplete.isOpen PlaceAutocomplete.selectedIndex] in *.
    + do 2 f_equal.
      destruct (Z.ltb_spec idx (Z.of_nat (length sug) - 1)); lia.
    + reflexivity.
    + destruct (Z.ltb_spec idx (Z.of_nat (length sug) - 1)); lia.
Qed.

Lemma ups_run rt n : forall pg,
  PlaceAutocomplete.isOpen (Page.ac pg) = true ->
  -1 <= PlaceAutocomplete.selectedIndex (Page.ac pg) ->
  Page.run pg (presses rt "ArrowUp" n)
  = Page.mkPage (Page.form pg)
      (PlaceAutocomplete.mkState (PlaceAutocomplete.suggestions (Page.ac pg))
         (PlaceAutocomplete.isLoading (Page.ac pg)) true
         (Z.max (PlaceAutocomplete.selectedIndex (Page.ac pg) - Z.of_nat n) (-1)))
      (Page.debouncedSearchTerm pg) (Page.inflight pg).
Proof.
  unfold presses.
  induction n as [|n IH]; intros [f [sug ld op idx] deb inf] Hopen Hidx;
    simpl in Hopen, Hidx; subst op.
  - simpl. repeat f_equal. lia.
  - cbn [repeat Page.run]. rewrite up_step by reflexivity.
    rewrite IH; unfold PlaceAutocomplete.setSelectedIndex;
      cbn [Page.ac Page.form Page.debouncedSearchTerm Page.inflight
             PlaceAutocomplete.suggestions PlaceAutocomplete.isLoading
             PlaceAutocomplete.isOpen PlaceAutocomplete.selectedIndex].
    + do 2 f_equal. destruct (Z.gtb_spec idx 0); lia.
    + reflexivity.
    + destruct (Z.gtb_spec idx 0); lia.
Qed.

(** X15.  With the dropdown open and the highlight not past the list,
    pressing Down [n] times moves the highlight to the smaller of
    index + n and the last index, and pressing Up [n] times to the
    larger of index - n and -1; nothing else on the page changes.  In
    particular Down from a fresh list of [k] suggestions highlights
    item min(n, k) - 1, and Up enough times always returns to "none". *)
Theorem X15_repeated_arrows rt n pg :
  PlaceAutocomplete.isOpen (Page.ac pg) = true ->
  -1 <= PlaceAutocomplete.selectedIndex (Page.ac pg) <= last_index (Page.ac pg) ->
  Page.run pg (presses rt "ArrowDown" n)
  = Page.mkPage (Page.form pg)
      (PlaceAutocomplete.mkState (PlaceAutocomplete.suggestions (Page.ac pg))
         (PlaceAutocomplete.isLoading (Page.ac pg)) true
         (Z.min (PlaceAutocomplete.selectedIndex (Page.ac pg) + Z.of_nat n)
            (last_index (Page.ac pg))))
      (Page.debouncedSearchTerm pg) (Page.inflight pg)
  /\ Page.run pg (presses rt "ArrowUp" n)
     = Page.mkPage (Page.form pg)
         (PlaceAutocomplete.mkState (PlaceAutocomplete.suggestions (Page.ac pg))
            (PlaceAutocomplete.isLoading (Page.ac pg)) true
            (Z.max (PlaceAutocomplete.selectedIndex (Page.ac pg) - Z.of_nat n) (-1)))
         (Page.debouncedSearchTerm pg) (Page.inflight pg)
  /\ (PlaceAutocomplete.selectedIndex (Page.ac pg) = -1 ->
      PlaceAutocomplete.selectedIndex (Page.ac (Page.run pg (presses rt "ArrowDown" n)))
      = Z.min (Z.of_nat n) (PlaceAutocomplete.suggestions_length (Page.ac pg)) - 1).
Proof.
  intros Hopen [Hlo Hhi].
  pose proof (downs_run rt n pg Hopen Hhi) as Hdown.
  split; [exact Hdown|]. split; [by apply ups_run|].
  intros Hnone. rewrite Hdown. cbn [Page.ac PlaceAutocomplete.selectedIndex].
  unfold last_index. lia.
Qed.

Lemma X15_witness :
  PlaceAutocomplete.selectedIndex
    (Page.ac (Page.run (Page.run Page.initial (firstn 3 Examples.stale_events))
                (presses Examples.rt0 "ArrowDown" 5)))
  = Z.min 5 3 - 1.
Proof.
  apply (proj2 (proj2 (X15_repeated_arrows Examples.rt0 5
                         (Page.run Page.initial (firstn 3 Examples.stale_events))
                         eq_refl ltac:(vm_compute; split; discriminate)))).
  reflexivity.
Defined.

(** X16.  A click on a rendered suggestion, or Enter on the highlighted
    one, writes the suggestion's label into the field, resolves the
    place built from that suggestion (with a non-empty timezone), clears
    the error of the field and closes the dropdown; the list, the
    highlighted index and the outstanding requests stay as they were.
    A click while the list is not rendered does nothing. *)
Theorem X16_selection_gesture rt pg suggestion :
  let selected pg' :=
    exists place,
      Page.form pg'
      = AstrologyForm.mkState (Some place)
          (AstrologyForm.values
             (AstrologyForm.field_onChange_birthPlace
                (PlaceAutocomplete.formatSuggestion suggestion) (Page.form pg)))
          None
      /\ built_from suggestion place
      /\ timezone place <> ""
      /\ Page.ac pg' = PlaceAutocomplete.setIsOpen false (Page.ac pg)
      /\ Page.inflight pg' = Page.inflight pg
      /\ Page.debouncedSearchTerm pg' = Page.debouncedSearchTerm pg in
  (forall i,
      PlaceAutocomplete.list_rendered (Page.ac pg) = true ->
      PlaceAutocomplete.suggestions (Page.ac pg) !! i = Some suggestion ->
      selected (fst (Page.step rt pg (Page.ItemClick i))))
  /\ (PlaceAutocomplete.isOpen (Page.ac pg) = true ->
      0 <= PlaceAutocomplete.selectedIndex (Page.ac pg) ->
      PlaceAutocomplete.suggestions (Page.ac pg)
        !! Z.to_nat (PlaceAutocomplete.selectedIndex (Page.ac pg)) = Some suggestion ->
      selected (fst (Page.step rt pg (Page.KeyDown "Enter"))))
  /\ (forall i,
        PlaceAutocomplete.list_rendered (Page.ac pg) = false ->
        Page.step rt pg (Page.ItemClick i)
        = (Page.mkPage (Page.form pg) (Page.ac pg) (Page.debouncedSearchTerm pg)
             (Page.inflight pg), [])).
Proof.
  cbv zeta.
  destruct (selectSuggestion_deliver rt suggestion (Page.ac pg) (Page.form pg))
    as (place & Hform & Hbuilt & Htz & Hstarted).
  split; [|split].
  - intros i Hrendered Hs. exists place. cbn [Page.step].
    unfold PlaceAutocomplete.item_onClick. rewrite Hrendered, Hs.
    unfold Page.commit_ac. cbn [fst Page.form Page.ac Page.inflight Page.debouncedSearchTerm].
    rewrite Hform, Hstarted, selectSuggestion_result, Nat.add_0_r.
    split; [reflexivity|]. split; [exact Hbuilt|]. split; [exact Htz|]. by repeat split.
  - intros Hopen Hge Hs. exists place. cbn [Page.step].
    unfold PlaceAutocomplete.handleKeyDown. rewrite Hopen. cbn [negb].
    simpl String.eqb. cbv iota. unfold PlaceAutocomplete.suggestion_at.
    destruct (Z.geb_spec (PlaceAutocomplete.selectedIndex (Page.ac pg)) 0); [|lia].
    destruct (Z.ltb_spec (PlaceAutocomplete.selectedIndex (Page.ac pg)) 0); [lia|].
    rewrite Hs, bind_emit.
    unfold Page.commit_ac. cbn [fst Page.form Page.ac Page.inflight Page.debouncedSearchTerm
                                  trace result].
    change (Page.deliver_all (PreventDefault :: ?tr) ?f) with (Page.deliver_all tr f).
    change (Page.started (PreventDefault :: ?tr)) with (Page.started tr).
    rewrite Hform, Hstarted, selectSuggestion_result, Nat.add_0_r.
    split; [reflexivity|]. split; [exact Hbuilt|]. split; [exact Htz|]. by repeat split.
  - intros i Hrendered. cbn [Page.step]. unfold PlaceAutocomplete.item_onClick.
    rewrite Hrendered. unfold Page.commit_ac. simpl. by rewrite Nat.add_0_r.
Qed.

Lemma X16_witness :
  exists place,
    Page.form (fst (Page.step Examples.rt0
                      (Page.run Page.initial (firstn 3 Examples.stale_events))
                      (Page.ItemClick 2)))
    = AstrologyForm.mkState (Some place)
        (AstrologyForm.values
           (AstrologyForm.field_onChange_birthPlace
              (PlaceAutocomplete.formatSuggestion
                 (Examples.suggestion "Salvador" "America/Bahia"))
              (Page.form (Page.run Page.initial (firstn 3 Examples.stale_events)))))
        None
    /\ built_from (Examples.suggestion "Salvador" "America/Bahia") place
    /\ timezone place <> ""
    /\ Page.ac (fst (Page.step Examples.rt0
                       (Page.run Page.initial (firstn 3 Examples.stale_events))
                       (Page.ItemClick 2)))
       = PlaceAutocomplete.setIsOpen false
           (Page.ac (Page.run Page.initial (firstn 3 Examples.stale_events)))
    /\ Page.inflight (fst (Page.step Examples.rt0
                             (Page.run Page.initial (firstn 3 Examples.stale_events))
                             (Page.ItemClick 2)))
       = Page.inflight (Page.run Page.initial (firstn 3 Examples.stale_events))
    /\ Page.debouncedSearchTerm
         (fst (Page.step Examples.rt0
                 (Page.run Page.initial (firstn 3 Examples.stale_events))
                 (Page.ItemClick 2)))
       = Page.debouncedSearchTerm (Page.run Page.initial (firstn 3 Examples.stale_events)).
Proof.
  apply (proj1 (X16_selection_gesture Examples.rt0
                  (Page.run Page.initial (firstn 3 Examples.stale_events))
                  (Examples.suggestion "Salvador" "America/Bahia")) 2%nat);
    reflexivity.
Defined.

(** ** The calendar *)

Lemma pretty_N_char_digit d :
  (d < 10)%N ->
  EnhancedCalendar.digit_in 10 (pretty_N_char d) = Some (Z.of_N d)
  /\ EnhancedCalendar.is_space (pretty_N_char d) = false
  /\ pretty_N_char d <> "-"%char /\ pretty_N_char d <> "+"%char
  /\ (d <> 0%N -> pretty_N_char d <> "0"%char).
Proof.
  intros Hd.
  assert (Hcases : (d = 0 \/ d = 1 \/ d = 2 \/ d = 3 \/ d = 4 \/ d = 5 \/ d = 6
                    \/ d = 7 \/ d = 8 \/ d = 9)%N) by lia.
  destruct Hcases as [->|[->|[->|[->|[->|[->|[->|[->|[->| ->]]]]]]]]];
    (split; [reflexivity|]); (split; [reflexivity|]);
    (split; [discriminate|]); (split; [discriminate|]); intros H;
    (congruence || discriminate).
Qed.

(** The digits written by [pretty] are read back by [parse_digits]. *)
Lemma parse_digits_pretty_go x : forall s,
  EnhancedCalendar.parse_digits 10 None (pretty_N_go x s)
  = if (x =? 0)%N then EnhancedCalendar.parse_digits 10 None s
    else EnhancedCalendar.parse_digits 10 (Some (Z.of_N x)) s.
Proof.
  induction (N.lt_wf_0 x) as [x _ IH]. intros s.
  destruct (N.eqb_spec x 0) as [->|Hx]; [by rewrite pretty_N_go_0|].
  rewrite pretty_N_go_step by lia.
  rewrite IH by (apply N.div_lt; lia).
  destruct (pretty_N_char_digit (x `mod` 10)%N ltac:(apply N.mod_lt; lia)) as [Hd _].
  cbn [EnhancedCalendar.parse_digits]. rewrite Hd.
  pose proof (N.div_mod x 10 ltac:(lia)) as Hdm.
  destruct (N.eqb_spec (x `div` 10) 0) as [H0|H0]; cbn [default]; do 2 f_equal;
    unfold id; clear IH Hd; remember (x `div` 10)%N as q; remember (x `mod` 10)%N as r; lia.
Qed.

(** A positive number is written with a first digit that is not 0. *)
Lemma pretty_go_head x : forall s,
  (0 < x)%N ->
  exists c r,
    pretty_N_go x s = String c r
    /\ EnhancedCalendar.is_space c = false
    /\ c <> "-"%char /\ c <> "+"%char /\ c <> "0"%char.
Proof.
  induction (N.lt_wf_0 x) as [x _ IH]. intros s Hx.
  rewrite pretty_N_go_step by lia.
  destruct (N.eqb_spec (x `div` 10) 0) as [H0|H0].
  - rewrite H0, pretty_N_go_0.
    assert (Hlt : (x < 10)%N).
    { apply N.div_small_iff in H0; [exact H0 | discriminate]. }
    rewrite N.mod_small by exact Hlt.
    destruct (pretty_N_char_digit x Hlt) as (_ & Hsp & Hm & Hp & Hz).
    eexists _, _. split; [reflexivity|]. repeat split; auto.
    apply Hz. intros ->. by apply N.lt_irrefl in Hx.
  - apply IH; [apply N.div_lt; lia|].
    destruct (x `div` 10)%N; [congruence | reflexivity].
Qed.

(** [parseInt] reads back what [toString] writes for an integer that is
    not negative. *)
Lemma parseInt_String_ n :
  0 <= n -> EnhancedCalendar.parseInt (String_ n) = Some n.
Proof.
  intros Hn. unfold String_, pretty, pretty_Z.
  destruct n as [|p|p]; [reflexivity| |lia].
  unfold pretty, pretty_positive, pretty, pretty_N.
  destruct (decide (N.pos p = 0%N)) as [H|_]; [discriminate|].
  destruct (pretty_go_head (N.pos p) "" ltac:(lia)) as (c & r & Hstr & Hsp & Hm & Hp & Hz).
  pose proof (parse_digits_pretty_go (N.pos p) "") as Hparse.
  rewrite Hstr in Hparse |- *.
  unfold EnhancedCalendar.parseInt. cbn [EnhancedCalendar.trim_start]. rewrite Hsp.
  assert (Hsign : match String c r with
                  | String "-" r0 => (true, r0)
                  | String "+" r0 => (false, r0)
                  | _ => (false, String c r)
                  end = (false, String c r)).
  { destruct c as [[] [] [] [] [] [] [] []]; try reflexivity; congruence. }
  rewrite Hsign.
  assert (Hradix : match String c r with
                   | String "0" (String "x" r0) | String "0" (String "X" r0) => (16, r0)
                   | _ => (10, String c r)
                   end = (10, String c r)).
  { destruct c as [[] [] [] [] [] [] [] []]; try reflexivity; congruence. }
  rewrite Hradix, Hparse. reflexivity.
Qed.

Lemma years_In currentYear y :
  In y (EnhancedCalendar.years currentYear) <-> 1900 <= y <= currentYear.
Proof.
  unfold EnhancedCalendar.years. rewrite List.in_map_iff. split.
  - intros (i & <- & Hi). apply List.in_seq in Hi. lia.
  - intros Hy. exists (Z.to_nat (currentYear - y)). split; [lia|].
    apply List.in_seq. lia.
Qed.

Lemma descending_from c n : forall start,
  StronglySorted (fun a b => b < a)
    (map (fun i => c - Z.of_nat i) (seq start n)).
Proof.
  induction n as [|n IH]; intros start; simpl; constructor; [apply IH|].
  apply List.Forall_forall. intros b Hb.
  apply List.in_map_iff in Hb. destruct Hb as (i & <- & Hi).
  apply List.in_seq in Hi. lia.
Qed.

(** X17.  The year select of the calendar lists exactly the years from
    the current year down to 1900, each once, in strictly descending
    order: [currentYear - 1900 + 1] items, the current year first and
    1900 last.  If the clock is set before 1900 the list is empty. *)
Theorem X17_years_list currentYear :
  (forall y, In y (EnhancedCalendar.years currentYear) <-> 1900 <= y <= currentYear)
  /\ StronglySorted (fun a b => b < a) (EnhancedCalendar.years currentYear)
  /\ List.NoDup (EnhancedCalendar.years currentYear)
  /\ length (EnhancedCalendar.years currentYear) = Z.to_nat (currentYear - 1900 + 1)
  /\ (1900 <= currentYear ->
      head (EnhancedCalendar.years currentYear) = Some currentYear
      /\ last (EnhancedCalendar.years currentYear) = Some 1900)
  /\ (currentYear < 1900 -> EnhancedCalendar.years currentYear = []).
Proof.
  split; [apply years_In|]. split; [apply descending_from|].
  split; [|split; [|split]].
  - unfold EnhancedCalendar.years.
    apply Finite.Injective_map_NoDup; [|apply List.seq_NoDup].
    intros i j Hij. lia.
  - unfold EnhancedCalendar.years. by rewrite List.length_map, List.length_seq.
  - intros Hcy. unfold EnhancedCalendar.years.
    replace (Z.to_nat (currentYear - 1900 + 1)) with (S (Z.to_nat (currentYear - 1900)))
      by lia.
    split.
    + simpl. f_equal. lia.
    + rewrite List.seq_S, List.map_app. simpl. rewrite last_snoc. f_equal. lia.
  - intros Hcy. unfold EnhancedCalendar.years.
    replace (Z.to_nat (currentYear - 1900 + 1)) with 0%nat by lia. reflexivity.
Qed.

Lemma X17_witness :
  head (EnhancedCalendar.years 2024) = Some 2024
  /\ last (EnhancedCalendar.years 2024) = Some 1900.
Proof.
  apply (proj1 (proj2 (proj2 (proj2 (proj2 (X17_years_list 2024)))))). lia.
Defined.

Lemma civil_check_all :
  forall_below 400 (fun yoe => forall_below 12 (fun mp =>
     civil_check yoe mp 1 && civil_check yoe mp 2)) = true.
Proof. vm_compute. reflexivity. Qed.

Lemma civil_of_days_era era doe :
  0 <= doe < 146097 ->
  Civil.civil_of_days (era * 146097 + doe - 719468)
  = match Civil.civil_of_days (doe - 719468) with
    | (y, m, d) => (y + era * 400, m, d)
    end.
Proof.
  intros Hdoe. unfold Civil.civil_of_days. cbv zeta.
  replace (era * 146097 + doe - 719468 + 719468) with (doe + era * 146097) by lia.
  replace (doe - 719468 + 719468) with doe by lia.
  rewrite Z.div_add by lia. rewrite (Z.div_small doe) by lia.
  replace (doe + era * 146097 - (0 + era) * 146097) with doe by lia.
  replace (doe - 0 * 146097) with doe by lia.
  f_equal. f_equal. lia.
Qed.

Lemma civil_round_trip y m d :
  1 <= m <= 12 -> 1 <= d <= 2 ->
  Civil.civil_of_days (Civil.days_of_civil y m d) = (y, m, d).
Proof.
  intros Hm Hd.
  set (y' := if m <=? 2 then y - 1 else y).
  set (mp := if m >? 2 then m - 3 else m + 9).
  assert (Hdays : Civil.days_of_civil y m d
                  = (y' / 400) * 146097 + day_of_era (y' mod 400) mp d - 719468).
  { unfold Civil.days_of_civil, day_of_era. cbv zeta. fold y' mp.
    rewrite Z.mod_eq by lia. replace (y' / 400 * 400) with (400 * (y' / 400)) by lia.
    lia. }
  assert (Hyoe : 0 <= y' mod 400 < 400) by (apply Z.mod_pos_bound; lia).
  assert (Hmp : 0 <= mp < 12).
  { unfold mp. destruct (Z.gtb_spec m 2); lia. }
  pose proof (forall_below_spec 400 _ civil_check_all (y' mod 400) ltac:(lia)) as H1.
  cbv beta in H1.
  pose proof (forall_below_spec 12 _ H1 mp ltac:(lia)) as H2. cbv beta in H2.
  apply andb_true_iff in H2. destruct H2 as [Hc1 Hc2].
  assert (Hc : civil_check (y' mod 400) mp d = true).
  { assert (Hdd : d = 1 \/ d = 2) by lia. by destruct Hdd as [-> | ->]. }
  clear H1 Hc1 Hc2.
  unfold civil_check in Hc. cbv zeta in Hc.
  rewrite Hdays.
  apply andb_true_iff in Hc. destruct Hc as [Hrange Hc].
  apply andb_true_iff in Hrange. destruct Hrange as [Hlo Hhi].
  apply Z.leb_le in Hlo. apply Z.ltb_lt in Hhi.
  rewrite civil_of_days_era by lia.
  destruct (Civil.civil_of_days (day_of_era (y' mod 400) mp d - 719468)) as [[yy mm] dd].
  apply andb_true_iff in Hc. destruct Hc as [Hc Hdd].
  apply andb_true_iff in Hc. destruct Hc as [Hyy Hmm].
  apply Z.eqb_eq in Hyy, Hmm, Hdd. subst yy mm dd.
  pose proof (Z.div_mod y' 400 ltac:(lia)) as Hdm.
  unfold mp, y' in *.
  destruct (Z.gtb_spec m 2), (Z.leb_spec m 2); try lia;
    destruct (Z.ltb_spec (m - 3) 10); destruct (Z.ltb_spec (m + 9) 10); try lia;
    f_equal; try f_equal; lia.
Qed.

Lemma MakeDay_range y m :
  -271820 <= y <= 275759 -> 0 <= m <= 11 ->
  -99999999 < EnhancedCalendar.MakeDay y m 1 < 99999999.
Proof.
  intros Hy Hm. unfold EnhancedCalendar.MakeDay, Civil.days_of_civil. cbv zeta.
  rewrite (Z.div_small m 12), (Z.mod_small m 12) by lia.
  replace (y + 0) with y by lia.
  set (y' := if m + 1 <=? 2 then y - 1 else y).
  set (mp := if m + 1 >? 2 then m + 1 - 3 else m + 1 + 9).
  assert (Hy' : y - 1 <= y' <= y) by (unfold y'; destruct (Z.leb_spec (m + 1) 2); lia).
  assert (Hmp : 0 <= mp <= 11) by (unfold mp; destruct (Z.gtb_spec (m + 1) 2); lia).
  assert (Hmy : mp < 10 -> y' = y).
  { unfold mp, y'. destruct (Z.gtb_spec (m + 1) 2), (Z.leb_spec (m + 1) 2); lia. }
  clearbody y' mp.
  pose proof (Z.div_mod y' 400 ltac:(lia)) as Hdm.
  pose proof (Z.mod_pos_bound y' 400 ltac:(lia)) as Hmod.
  set (era := y' / 400) in *. set (r := y' mod 400) in *.
  replace (y' - era * 400) with r by lia.
  assert (Hdoy : 0 <= (153 * mp + 2) / 5 <= 337).
  { split; [apply Z.div_pos; lia | apply Z.div_le_upper_bound; lia]. }
  assert (Hdoy10 : mp >= 10 -> 306 <= (153 * mp + 2) / 5).
  { intros. apply Z.div_le_lower_bound; lia. }
  pose proof (Z.div_mod r 4 ltac:(lia)) as H4.
  pose proof (Z.mod_pos_bound r 4 ltac:(lia)) as H4b.
  pose proof (Z.div_mod r 100 ltac:(lia)) as H100.
  pose proof (Z.mod_pos_bound r 100 ltac:(lia)) as H100b.
  clearbody era r.
  lia.
Qed.

Lemma civil_month_range z :
  1 <= snd (fst (Civil.civil_of_days z)) <= 12.
Proof.
  unfold Civil.civil_of_days. cbv zeta.
  set (doe := z + 719468 - (z + 719468) / 146097 * 146097).
  assert (Hdoe : 0 <= doe < 146097).
  { unfold doe. pose proof (Z.mod_pos_bound (z + 719468) 146097 ltac:(lia)) as Hb.
    rewrite Z.mod_eq in Hb by lia. lia. }
  clearbody doe.
  set (yoe := (doe - doe / 1460 + doe / 36524 - doe / 146096) / 365).
  set (doy := doe - (365 * yoe + yoe / 4 - yoe / 100)).
  assert (Hdoy : 0 <= doy <= 366).
  { unfold doy, yoe. Z.div_mod_to_equations. lia. }
  clearbody doy.
  assert (Hmp : 0 <= (5 * doy + 2) / 153 <= 11).
  { split; [apply Z.div_pos; lia|].
    apply Z.lt_succ_r. apply Z.div_lt_upper_bound; lia. }
  cbn [fst snd].
  destruct (Z.ltb_spec ((5 * doy + 2) / 153) 10); lia.
Qed.

Lemma getMonth_range tza t m :
  EnhancedCalendar.getMonth tza (Some t) = Some m -> 0 <= m <= 11.
Proof.
  unfold EnhancedCalendar.getMonth. cbn [mbind option_bind].
  pose proof (civil_month_range
                (EnhancedCalendar.LocalTime tza t / EnhancedCalendar.msPerDay)) as Hr.
  destruct (Civil.civil_of_days
              (EnhancedCalendar.LocalTime tza t / EnhancedCalendar.msPerDay))
    as [[y mm] d].
  cbn [fst snd] in Hr. intros [= <-]. lia.
Qed.

Lemma days_of_civil_next y m d :
  Civil.days_of_civil y m (d + 1) = Civil.days_of_civil y m d + 1.
Proof. unfold Civil.days_of_civil. cbv zeta. lia. Qed.

(** What [new Date(y, m, 1)] holds and how it reads. *)
Lemma new_Date_plain tza y m :
  host_regular tza ->
  -271820 <= y <= 275759 -> ~ 0 <= y <= 99 -> 0 <= m <= 11 ->
  let first := EnhancedCalendar.UTC tza (local_midnight y m) in
  EnhancedCalendar.new_Date tza (Some y) (Some m) = Some first
  /\ EnhancedCalendar.getFullYear tza (Some first) = Some y
  /\ EnhancedCalendar.getMonth tza (Some first) = Some m
  /\ EnhancedCalendar.LocalTime tza first
     = local_midnight y m + host_gap tza (local_midnight y m).
Proof.
  intros Hhost Hy Hq Hm. cbv zeta.
  destruct (Hhost (local_midnight y m)) as [Hoff Hgap].
  pose proof (MakeDay_range y m Hy Hm) as Hday.
  assert (Hlocal :
            EnhancedCalendar.LocalTime tza (EnhancedCalendar.UTC tza (local_midnight y m))
            = local_midnight y m + host_gap tza (local_midnight y m)).
  { unfold EnhancedCalendar.LocalTime, host_gap. unfold EnhancedCalendar.UTC at 1. lia. }
  assert (Hcivil : exists d,
             Civil.civil_of_days
               (EnhancedCalendar.LocalTime tza
                  (EnhancedCalendar.UTC tza (local_midnight y m))
                / EnhancedCalendar.msPerDay)
             = (y, m + 1, d)).
  { rewrite Hlocal. unfold local_midnight, EnhancedCalendar.msPerDay.
    set (g := host_gap tza _) in *.
    assert (Hk : (EnhancedCalendar.MakeDay y m 1 * 86400000 + g) / 86400000
                 = EnhancedCalendar.MakeDay y m 1
                 \/ (EnhancedCalendar.MakeDay y m 1 * 86400000 + g) / 86400000
                    = EnhancedCalendar.MakeDay y m 1 + 1).
    { assert (Hg : g < 86400000 \/ g = 86400000) by lia. destruct Hg as [Hg | ->].
      - left. symmetry. apply (Z.div_unique _ _ _ g); lia.
      - right. symmetry. apply (Z.div_unique _ _ _ 0); lia. }
    assert (Hmk : EnhancedCalendar.MakeDay y m 1 = Civil.days_of_civil y (m + 1) 1).
    { unfold EnhancedCalendar.MakeDay. cbv zeta.
      rewrite (Z.div_small m 12), (Z.mod_small m 12) by lia.
      replace (y + 0) with y by lia. lia. }
    destruct Hk as [-> | ->].
    - exists 1. rewrite Hmk. apply civil_round_trip; lia.
    - exists 2. rewrite Hmk, <- days_of_civil_next. apply civil_round_trip; lia. }
  destruct Hcivil as [d Hcivil].
  split; [|split; [|split]].
  - unfold EnhancedCalendar.new_Date.
    replace ((0 <=? y) && (y <=? 99)) with false
      by (destruct (Z.leb_spec 0 y), (Z.leb_spec y 99); simpl; lia).
    fold (local_midnight y m). unfold EnhancedCalendar.TimeClip.
    destruct (Z.leb_spec (Z.abs (EnhancedCalendar.UTC tza (local_midnight y m)))
                8640000000000000) as [|Hout]; [reflexivity|].
    exfalso.
    unfold EnhancedCalendar.UTC, local_midnight, EnhancedCalendar.msPerDay in Hout, Hoff.
    lia.
  - unfold EnhancedCalendar.getFullYear. cbn [mbind option_bind]. by rewrite Hcivil.
  - unfold EnhancedCalendar.getMonth. cbn [mbind option_bind]. rewrite Hcivil. f_equal. lia.
  - exact Hlocal.
Qed.

Lemma full_year_cases y :
  (0 <= y <= 99 /\ full_year y = 1900 + y) \/ (~ 0 <= y <= 99 /\ full_year y = y).
Proof.
  unfold full_year. destruct (Z.leb_spec 0 y), (Z.leb_spec y 99); simpl; lia.
Qed.

Lemma new_Date_first tza y m :
  host_regular tza ->
  -271820 <= y <= 275759 -> 0 <= m <= 11 ->
  let first := EnhancedCalendar.UTC tza (local_midnight (full_year y) m) in
  EnhancedCalendar.new_Date tza (Some y) (Some m) = Some first
  /\ EnhancedCalendar.getFullYear tza (Some first) = Some (full_year y)
  /\ EnhancedCalendar.getMonth tza (Some first) = Some m.
Proof.
  intros Hhost Hy Hm. cbv zeta.
  assert (Hsame : EnhancedCalendar.new_Date tza (Some y) (Some m)
                  = EnhancedCalendar.new_Date tza (Some (full_year y)) (Some m)).
  { unfold EnhancedCalendar.new_Date, full_year. cbv zeta.
    destruct ((0 <=? y) && (y <=? 99)) eqn:Ht.
    - apply andb_true_iff in Ht. destruct Ht as [H0 _]. apply Z.leb_le in H0.
      replace (1900 + y <=? 99) with false by (symmetry; apply Z.leb_gt; lia).
      by rewrite andb_false_r.
    - by rewrite Ht. }
  rewrite Hsame.
  destruct (full_year_cases y) as [[Hq ->] | [Hq ->]].
  - destruct (new_Date_plain tza (1900 + y) m Hhost) as (H1 & H2 & H3 & _);
      [lia | lia | lia | by repeat split].
  - destruct (new_Date_plain tza y m Hhost) as (H1 & H2 & H3 & _);
      [lia | lia | lia | by repeat split].
Qed.

Example new_Date_2024_june :
  EnhancedCalendar.new_Date Examples.fixed_zone (Some 2024) (Some 5)
  = Some 1717210800000
  /\ EnhancedCalendar.getFullYear Examples.fixed_zone (Some 1717210800000) = Some 2024
  /\ EnhancedCalendar.getMonth Examples.fixed_zone (Some 1717210800000) = Some 5
  /\ EnhancedCalendar.new_Date Examples.fixed_zone (Some 2024) (Some 12)
     = EnhancedCalendar.new_Date Examples.fixed_zone (Some 2025) (Some 0).
Proof. repeat split; reflexivity. Qed.

(** Local midnight of 1 January 1900 where the clock then ran on local
    mean time. *)
Example new_Date_1900 :
  EnhancedCalendar.new_Date Examples.local_mean_time (Some 1900) (Some 0)
  = Some (-2208977612000)
  /\ EnhancedCalendar.getFullYear Examples.local_mean_time (Some (-2208977612000))
     = Some 1900.
Proof. split; reflexivity. Qed.

Example new_Date_out_of_range :
  EnhancedCalendar.new_Date Examples.fixed_zone (Some 275760) (Some 8)
  = Some 8639998974000000
  /\ EnhancedCalendar.new_Date Examples.fixed_zone (Some 275760) (Some 9) = None
  /\ EnhancedCalendar.new_Date Examples.fixed_zone (Some 275761) (Some 0) = None.
Proof. repeat split; reflexivity. Qed.

(** Where the host's clock skips midnight the first day starts at
    01:00. *)
Example new_Date_skipped_midnight :
  EnhancedCalendar.new_Date Examples.skipped_midnight (Some 1980) (Some 9)
  = Some 339220800000
  /\ EnhancedCalendar.LocalTime Examples.skipped_midnight 339220800000
     = local_midnight 1980 9 + 3600000
  /\ EnhancedCalendar.getMonth Examples.skipped_midnight (Some 339220800000) = Some 9.
Proof. repeat split; reflexivity. Qed.

(** A host with one offset throughout is regular, and so is the host
    whose clock skips the hour after midnight. *)
Lemma fixed_zone_regular offset :
  -86400000 <= offset <= 86400000 -> host_regular (fun _ _ => offset).
Proof. intros Hoff wall. unfold host_gap. lia. Qed.

Lemma skipped_midnight_regular : host_regular Examples.skipped_midnight.
Proof.
  intros wall. unfold host_gap, EnhancedCalendar.UTC. simpl.
  destruct (Z.ltb_spec wall 339210000000); split; try lia.
  - destruct (Z.ltb_spec (wall - -14400000) 339220800000); lia.
  - destruct (Z.ltb_spec (wall - -10800000) 339220800000); lia.
Qed.

(** X18.  Choosing an item of the year select shows the start of the
    first day of the same month in the chosen year, and choosing an item
    of the month select shows the start of the first day of the chosen
    month in the same year: the date shown is the instant that the host
    gives to local midnight of that day, it reads the chosen year and
    month on the host's clock, and the clock then shows midnight, or,
    where the host's clock skips midnight, the time at which the day
    starts.  The two choices commute, and each notifies [onMonthChange],
    when the caller passed one, exactly once with the date shown.  While
    a year from 0 to 99 is displayed, choosing a month shows that month
    of the year 1900 + year.  A value that is not a number gives an
    invalid date.  (The items are the decimal texts of 0..11 and of the
    listed years; the years are those that a [Date] holds in full, the
    host keeps within a day of UTC and its clock skips a day at most.) *)
Theorem X18_calendar_choice tza currentYear (notify : bool) t0 y0 m0 :
  host_regular tza ->
  EnhancedCalendar.getFullYear tza (Some t0) = Some y0 ->
  EnhancedCalendar.getMonth tza (Some t0) = Some m0 ->
  -271820 <= y0 <= 275759 -> currentYear <= 275759 ->
  let shown : EnhancedCalendar.JSDate := Some t0 in
  let first (y m : Z) : EnhancedCalendar.JSDate :=
    Some (EnhancedCalendar.UTC tza (local_midnight y m)) in
  let calls (d : EnhancedCalendar.JSDate) : list EnhancedCalendar.JSDate :=
    if notify then [d] else [] in
  (forall item,
      In item (EnhancedCalendar.year_items currentYear) ->
      exists y,
        item = String_ y /\ 1900 <= y <= currentYear
        /\ EnhancedCalendar.handleYearSelect tza notify shown item
           = (first y m0, calls (first y m0))
        /\ EnhancedCalendar.getFullYear tza (first y m0) = Some y
        /\ EnhancedCalendar.getMonth tza (first y m0) = Some m0)
  /\ (forall item,
        In item EnhancedCalendar.month_items ->
        exists m,
          item = String_ m /\ 0 <= m <= 11
          /\ EnhancedCalendar.handleMonthSelect tza notify shown item
             = (first (full_year y0) m, calls (first (full_year y0) m))
          /\ EnhancedCalendar.getFullYear tza (first (full_year y0) m)
             = Some (full_year y0)
          /\ EnhancedCalendar.getMonth tza (first (full_year y0) m) = Some m)
  /\ (~ 0 <= y0 <= 99 -> full_year y0 = y0)
  /\ (0 <= y0 <= 99 -> full_year y0 = 1900 + y0)
  /\ (forall y m,
        1900 <= y <= currentYear -> 0 <= m <= 11 ->
        fst (EnhancedCalendar.handleMonthSelect tza notify
               (fst (EnhancedCalendar.handleYearSelect tza notify shown (String_ y)))
               (String_ m))
        = fst (EnhancedCalendar.handleYearSelect tza notify
                 (fst (EnhancedCalendar.handleMonthSelect tza notify shown (String_ m)))
                 (String_ y))
        /\ fst (EnhancedCalendar.handleMonthSelect tza notify
                  (fst (EnhancedCalendar.handleYearSelect tza notify shown (String_ y)))
                  (String_ m))
           = first y m)
  /\ (forall y m,
        -271820 <= y <= 275759 -> ~ 0 <= y <= 99 -> 0 <= m <= 11 ->
        EnhancedCalendar.LocalTime tza (EnhancedCalendar.UTC tza (local_midnight y m))
        = local_midnight y m + host_gap tza (local_midnight y m)
        /\ 0 <= host_gap tza (local_midnight y m) <= 86400000
        /\ (tza (EnhancedCalendar.UTC tza (local_midnight y m)) true
            = tza (local_midnight y m) false ->
            EnhancedCalendar.LocalTime tza (EnhancedCalendar.UTC tza (local_midnight y m))
            = local_midnight y m))
  /\ (forall text,
        EnhancedCalendar.parseInt text = None ->
        fst (EnhancedCalendar.handleYearSelect tza notify shown text) = None
        /\ fst (EnhancedCalendar.handleMonthSelect tza notify shown text) = None).
Proof.
  intros Hhost Hyear0 Hmonth0 Hy0 Hcy. cbv zeta.
  pose proof (getMonth_range tza t0 m0 Hmonth0) as Hm0.
  assert (Hyear : forall y mm d, 1900 <= y <= currentYear -> 0 <= mm <= 11 ->
            EnhancedCalendar.getMonth tza d = Some mm ->
            EnhancedCalendar.handleYearSelect tza notify d (String_ y)
            = (Some (EnhancedCalendar.UTC tza (local_midnight y mm)),
               if notify
               then [Some (EnhancedCalendar.UTC tza (local_midnight y mm))] else [])
            /\ EnhancedCalendar.getFullYear tza
                 (Some (EnhancedCalendar.UTC tza (local_midnight y mm))) = Some y
            /\ EnhancedCalendar.getMonth tza
                 (Some (EnhancedCalendar.UTC tza (local_midnight y mm))) = Some mm).
  { intros y mm d Hy Hmm Hd. unfold EnhancedCalendar.handleYearSelect.
    rewrite Hd, parseInt_String_ by lia.
    destruct (new_Date_plain tza y mm Hhost) as (-> & H2 & H3 & _); [lia | lia | lia |].
    by repeat split. }
  assert (Hmonth : forall yy m d, -271820 <= yy <= 275759 -> 0 <= m <= 11 ->
            EnhancedCalendar.getFullYear tza d = Some yy ->
            EnhancedCalendar.handleMonthSelect tza notify d (String_ m)
            = (Some (EnhancedCalendar.UTC tza (local_midnight (full_year yy) m)),
               if notify
               then [Some (EnhancedCalendar.UTC tza (local_midnight (full_year yy) m))]
               else [])
            /\ EnhancedCalendar.getFullYear tza
                 (Some (EnhancedCalendar.UTC tza (local_midnight (full_year yy) m)))
               = Some (full_year yy)
            /\ EnhancedCalendar.getMonth tza
                 (Some (EnhancedCalendar.UTC tza (local_midnight (full_year yy) m)))
               = Some m).
  { intros yy m d Hyy Hm Hd. unfold EnhancedCalendar.handleMonthSelect.
    rewrite Hd, parseInt_String_ by lia.
    destruct (new_Date_first tza yy m Hhost Hyy Hm) as (-> & H2 & H3).
    by repeat split. }
  split; [|split; [|split; [|split; [|split; [|split]]]]].
  - intros item Hitem. unfold EnhancedCalendar.year_items in Hitem.
    apply List.in_map_iff in Hitem. destruct Hitem as (y & <- & Hy).
    apply years_In in Hy. exists y. split; [reflexivity|]. split; [exact Hy|].
    exact (Hyear y m0 (Some t0) Hy Hm0 Hmonth0).
  - intros item Hitem. unfold EnhancedCalendar.month_items in Hitem.
    apply List.in_map_iff in Hitem. destruct Hitem as (i & <- & Hi).
    apply List.in_seq in Hi. simpl in Hi.
    exists (Z.of_nat i). split; [reflexivity|]. split; [lia|].
    apply Hmonth; [exact Hy0 | lia | exact Hyear0].
  - intros Hq. by destruct (full_year_cases y0) as [[? _] | [_ ?]].
  - intros Hq. by destruct (full_year_cases y0) as [[_ ?] | [? _]].
  - intros y m Hy Hm.
    destruct (Hyear y m0 (Some t0) Hy Hm0 Hmonth0) as (-> & Hfy & _). cbn [fst].
    destruct (Hmonth y m _ ltac:(lia) Hm Hfy) as (-> & _). cbn [fst].
    destruct (Hmonth y0 m (Some t0) Hy0 Hm Hyear0) as (-> & _ & Hgm). cbn [fst].
    destruct (Hyear y m _ Hy Hm Hgm) as (-> & _). cbn [fst].
    destruct (full_year_cases y) as [[Hq _] | [_ ->]]; [lia|]. by split.
  - intros y m Hy Hq Hm.
    destruct (new_Date_plain tza y m Hhost Hy Hq Hm) as (_ & _ & _ & Hlocal).
    split; [exact Hlocal|]. split; [apply Hhost|].
    intros Hsame. rewrite Hlocal. unfold host_gap. lia.
  - intros text Hnan.
    unfold EnhancedCalendar.handleYearSelect, EnhancedCalendar.handleMonthSelect.
    rewrite Hnan. split; [reflexivity|]. cbn [fst].
    unfold EnhancedCalendar.new_Date.
    by destruct (EnhancedCalendar.getFullYear tza (Some t0)).
Qed.

Lemma X18_witness :
  fst (EnhancedCalendar.handleMonthSelect Examples.skipped_midnight true
         (fst (EnhancedCalendar.handleYearSelect Examples.skipped_midnight true
                 (Some 1718420400000) (String_ 1980)))
         (String_ 9))
  = Some 339220800000
  /\ EnhancedCalendar.LocalTime Examples.skipped_midnight
       (EnhancedCalendar.UTC Examples.skipped_midnight (local_midnight 1980 9))
     = local_midnight 1980 9 + 3600000.
Proof.
  pose proof (X18_calendar_choice Examples.skipped_midnight 2024 true
                1718420400000 2024 5 skipped_midnight_regular
                ltac:(reflexivity) ltac:(reflexivity) ltac:(lia) ltac:(lia)) as H.
  cbv zeta in H.
  split.
  - exact (proj2 (proj1 (proj2 (proj2 (proj2 (proj2 H)))) 1980 9 ltac:(lia) ltac:(lia))).
  - exact (proj1 (proj1 (proj2 (proj2 (proj2 (proj2 (proj2 H))))) 1980 9
                    ltac:(lia) ltac:(lia) ltac:(lia))).
Defined.

(** ** The button once a place is resolved *)

(** X19.  In every reachable state in which a place is resolved, the
    text of the place field and the timezone of the place pass their
    tests by construction, so the submit button is enabled exactly when
    the other four fields are valid: a name of 2 to 150 characters, a
    date between 1 January 1900 and now, a time HH:mm and an e-mail
    accepted by the validator. *)
Theorem X19_button_with_place rt pg p :
  Page.reachable pg ->
  AstrologyForm.selectedPlace (Page.form pg) = Some p ->
  (AstrologyForm.submit_disabled rt (Page.form pg) = false
   <-> exists name date time mail,
         AstrologyForm.v_fullName (AstrologyForm.values (Page.form pg)) = Some name
         /\ AstrologyForm.v_birthDate (AstrologyForm.values (Page.form pg)) = Some date
         /\ AstrologyForm.v_birthTime (AstrologyForm.values (Page.form pg)) = Some time
         /\ AstrologyForm.v_email (AstrologyForm.values (Page.form pg)) = Some mail
         /\ 2 <= AstrologyForm.len name <= 150
         /\ date_1900_0_1 rt <= date <= now rt
         /\ AstrologyForm.timeRegex time = true
         /\ isEmail rt mail = true
         /\ 1 <= AstrologyForm.len mail).
Proof.
  intros Hreach Hp.
  pose proof (reachable_place_ok pg Hreach p Hp) as Htz.
  assert (Htext : exists label,
             AstrologyForm.v_birthPlace (AstrologyForm.values (Page.form pg)) = Some label
             /\ 1 <= AstrologyForm.len label).
  { assert (Hinv : forall q, AstrologyForm.selectedPlace (Page.form pg) = Some q ->
              exists s, built_from s q
                /\ AstrologyForm.v_birthPlace (AstrologyForm.values (Page.form pg))
                   = Some (PlaceAutocomplete.formatSuggestion s)).
    { clear p Hp Htz. induction Hreach as [|rt' pg ev _ IH]; [discriminate|].
      exact (moves_consistent _ _ (step_moves rt' pg ev) IH). }
    destruct (Hinv p Hp) as (s & _ & Hlabel).
    exists (PlaceAutocomplete.formatSuggestion s). split; [exact Hlabel|].
    unfold AstrologyForm.len, PlaceAutocomplete.formatSuggestion.
    rewrite !string_length_app. simpl. lia. }
  destruct Htext as (label & Hlabel & Hlen).
  unfold AstrologyForm.submit_disabled, AstrologyForm.isFormValid,
    AstrologyForm.formState_isValid, AstrologyForm.formSchema.
  rewrite Hp, Hlabel. cbn [fmap option_fmap option_map].
  assert (Htruthy : truthy (Some (timezone p)) = true) by (by destruct (timezone p)).
  rewrite Htruthy, andb_true_r, negb_false_iff, bool_decide_eq_true.
  destruct (AstrologyForm.v_fullName _) as [name|];
    [|split; [intros [? [=]] | intros (?&?&?&?&[=]&_)]].
  destruct (AstrologyForm.v_birthDate _) as [date|];
    [|split; [intros [? [=]] | intros (?&?&?&?&_&[=]&_)]].
  destruct (AstrologyForm.v_birthTime _) as [time|];
    [|split; [intros [? [=]] | intros (?&?&?&?&_&_&[=]&_)]].
  destruct (AstrologyForm.v_email _) as [mail|];
    [|split; [intros [? [=]] | intros (?&?&?&?&_&_&_&[=]&_)]].
  assert (Htime : AstrologyForm.timeRegex time = true -> 1 <= AstrologyForm.len time).
  { destruct time; [discriminate|]. unfold AstrologyForm.len. simpl. lia. }
  split.
  - intros [data Hdata].
    destruct (_ && _) eqn:Hall in Hdata; [|discriminate].
    rewrite !andb_true_iff, !Z.leb_le in Hall.
    destruct Hall as (((((Hn1 & Hn2) & (Hd1 & Hd2)) & (_ & Ht)) & _) & (Hm & Hml)).
    exists name, date, time, mail. repeat split; auto.
  - intros (n & d & t & m & [= <-] & [= <-] & [= <-] & [= <-] & Hn & Hd & Ht & Hm & Hml).
    specialize (Htime Ht).
    assert (Hall : (2 <=? AstrologyForm.len name) && (AstrologyForm.len name <=? 150)
                   && ((date_1900_0_1 rt <=? date) && (date <=? now rt))
                   && ((1 <=? AstrologyForm.len time) && AstrologyForm.timeRegex time)
                   && (1 <=? AstrologyForm.len label)
                   && (isEmail rt mail && (1 <=? AstrologyForm.len mail)) = true).
    { rewrite Ht, Hm.
      repeat (apply andb_true_intro; split); try reflexivity; apply Z.leb_le; lia. }
    rewrite Hall. eauto.
Qed.

Lemma X19_witness :
  AstrologyForm.submit_disabled Examples.rt0 (Page.form Examples.selected_page) = false
  <-> exists name date time mail,
        AstrologyForm.v_fullName (AstrologyForm.values (Page.form Examples.selected_page))
          = Some name
        /\ AstrologyForm.v_birthDate (AstrologyForm.values (Page.form Examples.selected_page))
           = Some date
        /\ AstrologyForm.v_birthTime (AstrologyForm.values (Page.form Examples.selected_page))
           = Some time
        /\ AstrologyForm.v_email (AstrologyForm.values (Page.form Examples.selected_page))
           = Some mail
        /\ 2 <= AstrologyForm.len name <= 150
        /\ date_1900_0_1 Examples.rt0 <= date <= now Examples.rt0
        /\ AstrologyForm.timeRegex time = true
        /\ isEmail Examples.rt0 mail = true
        /\ 1 <= AstrologyForm.len mail.
Proof.
  apply (X19_button_with_place Examples.rt0 Examples.selected_page
           {| city := "Santos"; admin := None; country := "Brasil"; countryCode := "br";
              lat := -2355 # 100; lon := -4663 # 100; timezone := "America/Sao_Paulo";
              provider := "geoapify"; placeId := "Santos" |}
           (run_reachable _ _ Page.reachable_initial)).
  reflexivity.
Defined.
